(** * Access control and credential lifecycle of the HRMS backend

    A shallow embedding of the authentication and authorisation core:
    - [checkPermission] of [middleware/auth.middleware.ts],
    - the instance methods of [models/user-credentials.schema.ts]
      ([isAccountLocked], [incrementFailedAttempts], [resetFailedAttempts],
      [addRefreshToken], [removeRefreshToken], [removeAllRefreshTokens]),
    - [validatePasswordStrength] of [utils/password.utils.ts],
    - [AuthController.login], [logout], [changePassword], [forgotPassword]
      and [resetPassword] of [controller/auth.controller.ts].

    Conventions.
    - A [Date] is its millisecond timestamp, a [Z].  Every [new Date()] and
      [Date.now()] of the source is an explicit argument of the function
      that performs it, so that no statement depends on how much time passes
      between two readings unless it says so.
    - A MongoDB collection read with [findById] is a [gmap] from [ObjectId]
      to documents; the credentials collection, which is also searched by
      field values, is a list of documents in natural order, a document
      being identified by its position.
    - A populated reference is [Some document], or [None] (JavaScript [null])
      when the referenced document no longer exists; reading a property of
      [null] throws, which the enclosing [try]/[catch] turns into status 500.
    - [bcrypt], [jsonwebtoken] and [crypto] are parameters of the sections
      that use them.
    - A handler is the controller function; the middleware that the routes
      put in front of it ([rateLimitAuth], the zod [validate]) is not part
      of it.  One request runs at a time: a handler reads the store, and
      what it saves is what the next request reads.
    - Mongoose's own [createdAt] and [updatedAt] (option [timestamps]) are
      in no interface of the source and are left out. *)

From Stdlib Require Import ZArith String Ascii List Bool Lia.
From stdpp Require Import base option list gmap strings.

Import ListNotations.
Local Open Scope string_scope.
Local Open Scope list_scope.
Local Open Scope Z_scope.

Definition ObjectId := string.
Definition Date := Z.

(** ** Data model *)

(** [ResourceType] and [ActionType] of [models/permission.schema.ts]. *)
Inductive ResourceType :=
  | R_staff | R_employment | R_payroll | R_attendance | R_leave
  | R_performance | R_recruitment | R_training | R_documents | R_reports
  | R_settings.

Inductive ActionType :=
  | A_create | A_read | A_update | A_delete | A_approve | A_reject | A_export.

(** The string each enumeration value is at run time. *)
Definition resource_name (r : ResourceType) : string :=
  match r with
  | R_staff => "staff" | R_employment => "employment" | R_payroll => "payroll"
  | R_attendance => "attendance" | R_leave => "leave"
  | R_performance => "performance" | R_recruitment => "recruitment"
  | R_training => "training" | R_documents => "documents"
  | R_reports => "reports" | R_settings => "settings"
  end.

Definition action_name (a : ActionType) : string :=
  match a with
  | A_create => "create" | A_read => "read" | A_update => "update"
  | A_delete => "delete" | A_approve => "approve" | A_reject => "reject"
  | A_export => "export"
  end.

(** [allowedActions.includes(action)]: the stored values are enumeration
    members, the argument is whatever string the route was declared with. *)
Definition includes (l : list ActionType) (action : string) : bool :=
  existsb (fun a => String.eqb (action_name a) action) l.

Module Permission.
Record t := mk {
  permissionId : string;
  name : string;
  description : string;
  resource : ResourceType;
  actions : list ActionType;
  isActive : bool }.
End Permission.

Module RolePermission.
(** Stored form: [permissionId] is a reference. *)
Record t := mk {
  permissionId : ObjectId;
  allowedActions : list ActionType }.
(** After [populate("permissions.permissionId")]. *)
Record populated := mkPopulated {
  p_permissionId : option Permission.t;
  p_allowedActions : list ActionType }.
End RolePermission.

Module Role.
Record t := mk {
  roleId : string;
  roleName : string;
  description : string;
  level : string;
  permissions : list RolePermission.t;
  isActive : bool;
  isSystemRole : bool }.
Record populated := mkPopulated {
  p_roleName : string;
  p_level : string;
  p_permissions : list RolePermission.populated;
  p_isActive : bool;
  p_isSystemRole : bool }.
End Role.

Module StaffCustomPermission.
Record t := mk {
  permissionId : ObjectId;
  allowedActions : list ActionType;
  isRevoked : bool }.
Record populated := mkPopulated {
  p_permissionId : option Permission.t;
  p_allowedActions : list ActionType;
  p_isRevoked : bool }.
End StaffCustomPermission.

(** The fields of a [Staff] document that the modelled handlers can see. *)
Module Staff.
Record t := mk {
  staffId : string;
  firstName : string;
  lastName : string;
  email : string }.
End Staff.

Module StaffProfile.
Record t := mk {
  staffId : ObjectId;
  assignedRoles : list ObjectId;
  customPermissions : option (list StaffCustomPermission.t);
  isActive : bool;
  lastLogin : option Date }.
(** The profile as [checkPermission] loads it. *)
Record populated := mkPopulated {
  p_assignedRoles : list Role.populated;
  p_customPermissions : option (list StaffCustomPermission.populated);
  p_isActive : bool }.
Definition set_lastLogin (d : Date) (p : t) : t :=
  mk (staffId p) (assignedRoles p) (customPermissions p) (isActive p) (Some d).
End StaffProfile.

Module RefreshToken.
Record t := mk {
  token : string;
  expiresAt : Date;
  createdAt : Date;
  deviceInfo : option string;
  ipAddress : option string }.
End RefreshToken.

Module PasswordReset.
Record t := mk {
  token : string;
  expiresAt : Date;
  createdAt : Date;
  used : bool }.
Definition set_used (b : bool) (r : t) : t :=
  mk (token r) (expiresAt r) (createdAt r) b.
End PasswordReset.

(** [UserCredentials] of [models/user-credentials.schema.ts].
    [failedLoginAttempts] is a JavaScript number that starts at its default
    [0] and only ever receives [0] and [+= 1]: a natural number, exact
    below 2^53. *)
Module UserCredentials.
Record t := mk {
  staffProfileId : ObjectId;
  email : string;
  password : string;
  isEmailVerified : bool;
  emailVerificationToken : option string;
  emailVerificationExpiry : option Date;
  refreshTokens : list RefreshToken.t;
  passwordResetTokens : list PasswordReset.t;
  passwordChangedAt : option Date;
  twoFactorEnabled : bool;
  twoFactorSecret : option string;
  lastPasswordChange : option Date;
  failedLoginAttempts : nat;
  accountLockedUntil : option Date }.

Definition set_refreshTokens (l : list RefreshToken.t) (c : t) : t :=
  mk (staffProfileId c) (email c) (password c) (isEmailVerified c)
     (emailVerificationToken c) (emailVerificationExpiry c) l
     (passwordResetTokens c) (passwordChangedAt c) (twoFactorEnabled c)
     (twoFactorSecret c) (lastPasswordChange c) (failedLoginAttempts c)
     (accountLockedUntil c).

Definition set_passwordResetTokens (l : list PasswordReset.t) (c : t) : t :=
  mk (staffProfileId c) (email c) (password c) (isEmailVerified c)
     (emailVerificationToken c) (emailVerificationExpiry c)
     (refreshTokens c) l (passwordChangedAt c) (twoFactorEnabled c)
     (twoFactorSecret c) (lastPasswordChange c) (failedLoginAttempts c)
     (accountLockedUntil c).

Definition set_lockout (n : nat) (until : option Date) (c : t) : t :=
  mk (staffProfileId c) (email c) (password c) (isEmailVerified c)
     (emailVerificationToken c) (emailVerificationExpiry c)
     (refreshTokens c) (passwordResetTokens c) (passwordChangedAt c)
     (twoFactorEnabled c) (twoFactorSecret c) (lastPasswordChange c)
     n until.

(** [password], [passwordChangedAt] and [lastPasswordChange] are always
    assigned together. *)
Definition set_password (h : string) (changed last : Date) (c : t) : t :=
  mk (staffProfileId c) (email c) h (isEmailVerified c)
     (emailVerificationToken c) (emailVerificationExpiry c)
     (refreshTokens c) (passwordResetTokens c) (Some changed)
     (twoFactorEnabled c) (twoFactorSecret c) (Some last)
     (failedLoginAttempts c) (accountLockedUntil c).
End UserCredentials.

(** The persisted state the core reads and writes. *)
Record Db := mkDb {
  credentialsColl : list UserCredentials.t;
  profilesColl : gmap ObjectId StaffProfile.t;
  rolesColl : gmap ObjectId Role.t;
  permissionsColl : gmap ObjectId Permission.t;
  staffColl : gmap ObjectId Staff.t }.

Definition set_credentialsColl (l : list UserCredentials.t) (db : Db) : Db :=
  mkDb l (profilesColl db) (rolesColl db) (permissionsColl db) (staffColl db).

Definition set_profilesColl (m : gmap ObjectId StaffProfile.t) (db : Db) : Db :=
  mkDb (credentialsColl db) m (rolesColl db) (permissionsColl db) (staffColl db).

(** ** HTTP responses *)

#[local] Unset Elimination Schemes.
Inductive Value :=
  | VStr (s : string)
  | VBool (b : bool)
  | VList (l : list Value)
  | VObj (fields : list (string * Value)).
#[local] Set Elimination Schemes.

(** [res.status(status).json({ success, message, ...fields })]. *)
Record Response := mkResponse {
  status : nat;
  success : bool;
  message : string;
  fields : list (string * Value) }.

(** What a middleware does with a request. *)
Inductive Outcome :=
  | Next
  | Respond (r : Response).

(** ** Permission resolver: [checkPermission] *)

Module Resolver.

Definition populateRolePermission (db : Db) (rp : RolePermission.t)
  : RolePermission.populated :=
  RolePermission.mkPopulated
    (permissionsColl db !! RolePermission.permissionId rp)
    (RolePermission.allowedActions rp).

Definition populateRole (db : Db) (r : Role.t) : Role.populated :=
  Role.mkPopulated (Role.roleName r) (Role.level r)
    (map (populateRolePermission db) (Role.permissions r))
    (Role.isActive r) (Role.isSystemRole r).

Definition populateCustom (db : Db) (cp : StaffCustomPermission.t)
  : StaffCustomPermission.populated :=
  StaffCustomPermission.mkPopulated
    (permissionsColl db !! StaffCustomPermission.permissionId cp)
    (StaffCustomPermission.allowedActions cp)
    (StaffCustomPermission.isRevoked cp).

(** [findById(..).populate({path: "assignedRoles", populate: ..})
    .populate("customPermissions.permissionId")].  Mongoose leaves out of
    a populated array the references that resolve to no document. *)
Definition populateProfile (db : Db) (p : StaffProfile.t)
  : StaffProfile.populated :=
  StaffProfile.mkPopulated
    (omap (fun rid => populateRole db <$> rolesColl db !! rid)
          (StaffProfile.assignedRoles p))
    (map (populateCustom db) <$> StaffProfile.customPermissions p)
    (StaffProfile.isActive p).

(** The inner loop over [role.permissions].  [Some true]: the loop broke
    with [hasPermission = true]; [Some false]: it ran to the end;
    [None]: [permission.resource] was read on [null]. *)
Fixpoint scanRolePermissions (resource action : string)
    (rps : list RolePermission.populated) : option bool :=
  match rps with
  | [] => Some false
  | rolePermission :: rest =>
      match RolePermission.p_permissionId rolePermission with
      | None => None
      | Some permission =>
          if String.eqb (resource_name (Permission.resource permission)) resource
             && includes (RolePermission.p_allowedActions rolePermission) action
             && Permission.isActive permission
          then Some true
          else scanRolePermissions resource action rest
      end
  end.

(** The outer loop over [profile.assignedRoles]. *)
Fixpoint scanRoles (resource action : string)
    (roles : list Role.populated) : option bool :=
  match roles with
  | [] => Some false
  | role :: rest =>
      match scanRolePermissions resource action (Role.p_permissions role) with
      | None => None
      | Some true => Some true
      | Some false => scanRoles resource action rest
      end
  end.

(** [hasPermission] after the role loops. *)
Definition roleGrant (p : StaffProfile.populated) (resource action : string)
  : option bool :=
  scanRoles resource action (StaffProfile.p_assignedRoles p).

(** The loop over [profile.customPermissions], entered with the current
    [hasPermission]. *)
Fixpoint scanCustom (resource action : string) (hasPermission : bool)
    (cps : list StaffCustomPermission.populated) : option bool :=
  match cps with
  | [] => Some hasPermission
  | customPerm :: rest =>
      match StaffCustomPermission.p_permissionId customPerm with
      | None => None
      | Some permission =>
          if String.eqb (resource_name (Permission.resource permission)) resource
          then
            if StaffCustomPermission.p_isRevoked customPerm then Some false
            else if includes (StaffCustomPermission.p_allowedActions customPerm) action
                 then Some true
                 else scanCustom resource action hasPermission rest
          else scanCustom resource action hasPermission rest
      end
  end.

(** [hasPermission] when the decision is taken. *)
Definition resolve (p : StaffProfile.populated) (resource action : string)
  : option bool :=
  match roleGrant p resource action with
  | None => None
  | Some g =>
      match StaffProfile.p_customPermissions p with
      | None => Some g
      | Some cps => scanCustom resource action g cps
      end
  end.

Definition authenticationRequired : Response :=
  mkResponse 401 false "Authentication required" [].

Definition profileNotFound : Response :=
  mkResponse 403 false "User profile not found" [].

Definition forbidden (resource action : string) : Response :=
  mkResponse 403 false
    ("You don't have permission to " +:+ action +:+ " " +:+ resource)
    [("required", VObj [("resource", VStr resource); ("action", VStr action)])].

(** [error.message] of the [TypeError] is left abstract. *)
Definition checkFailed : Response :=
  mkResponse 500 false "Permission check failed" [("error", VStr "TypeError")].

(** [checkPermission(resource, action)] applied to a request whose
    [req.userProfile] is absent or is the profile with the given [_id]. *)
Definition checkPermission (resource action : string)
    (userProfile : option ObjectId) (db : Db) : Outcome :=
  match userProfile with
  | None => Respond authenticationRequired
  | Some _id =>
      match profilesColl db !! _id with
      | None => Respond profileNotFound
      | Some stored =>
          match resolve (populateProfile db stored) resource action with
          | None => Respond checkFailed
          | Some false => Respond (forbidden resource action)
          | Some true => Next
          end
      end
  end.

End Resolver.

(** ** Credential store: the methods of [UserCredentialsSchema]

    Each method that ends in [await this.save()] is the function from the
    document before the call to the document that is saved; the handlers
    write it back with [save]. *)

Module Credential.
Import UserCredentials.

(** [if (!this.accountLockedUntil) return false;
     return this.accountLockedUntil > new Date();] *)
Definition isAccountLocked (this : t) (now : Date) : bool :=
  match accountLockedUntil this with
  | None => false
  | Some lockedUntil => now <? lockedUntil
  end.

Definition lockDuration : Z := 30 * 60 * 1000.

(** [now] is the [Date.now()] of the locking branch. *)
Definition incrementFailedAttempts (this : t) (now : Date) : t :=
  let attempts := (failedLoginAttempts this + 1)%nat in
  if (5 <=? attempts)%nat
  then set_lockout attempts (Some (now + lockDuration)) this
  else set_lockout attempts (accountLockedUntil this) this.

Definition resetFailedAttempts (this : t) : t :=
  set_lockout 0 None this.

(** [this.refreshTokens.filter(rt => rt.expiresAt > new Date())]: the
    callback reads the clock once per record; [nowAt i] is the reading
    taken for the record at index [i]. *)
Fixpoint dropExpired (nowAt : nat -> Date) (i : nat)
    (l : list RefreshToken.t) : list RefreshToken.t :=
  match l with
  | [] => []
  | rt :: rest =>
      if nowAt i <? RefreshToken.expiresAt rt
      then rt :: dropExpired nowAt (S i) rest
      else dropExpired nowAt (S i) rest
  end.

(** [if (this.refreshTokens.length >= 5) this.refreshTokens.shift();] *)
Definition limitDevices (l : list RefreshToken.t) : list RefreshToken.t :=
  if (5 <=? length l)%nat then tail l else l.

Definition addRefreshToken (this : t) (token : string) (expiresAt : Date)
    (deviceInfo ipAddress : option string)
    (nowAt : nat -> Date) (created : Date) : t :=
  let live := dropExpired nowAt 0 (refreshTokens this) in
  let kept := limitDevices live in
  set_refreshTokens
    (kept ++ [RefreshToken.mk token expiresAt created deviceInfo ipAddress])
    this.

(** [this.refreshTokens.filter(rt => rt.token !== token)] *)
Definition removeRefreshToken (this : t) (token : string) : t :=
  set_refreshTokens
    (List.filter (fun rt => negb (String.eqb (RefreshToken.token rt) token))
                 (refreshTokens this))
    this.

Definition removeAllRefreshTokens (this : t) : t :=
  set_refreshTokens [] this.

(** The three ring operations as data, for statements about sequences of
    calls. *)
Inductive ringOp :=
  | OpAdd (token : string) (expiresAt : Date)
          (deviceInfo ipAddress : option string)
          (nowAt : nat -> Date) (created : Date)
  | OpRemove (token : string)
  | OpRemoveAll.

Definition applyOp (this : t) (op : ringOp) : t :=
  match op with
  | OpAdd token expiresAt deviceInfo ipAddress nowAt created =>
      addRefreshToken this token expiresAt deviceInfo ipAddress nowAt created
  | OpRemove token => removeRefreshToken this token
  | OpRemoveAll => removeAllRefreshTokens this
  end.

Definition applyOps (this : t) (ops : list ringOp) : t :=
  fold_left applyOp ops this.

End Credential.

(** ** [utils/password.utils.ts]: [validatePasswordStrength]

    A password is its sequence of code units; the character classes of the
    regular expressions are ranges of ASCII codes. *)

Module PasswordUtils.

Definition inRange (lo hi : nat) (c : ascii) : bool :=
  let n := nat_of_ascii c in (lo <=? n)%nat && (n <=? hi)%nat.

Definition isLower : ascii -> bool := inRange 97 122.
Definition isUpper : ascii -> bool := inRange 65 90.
Definition isDigit : ascii -> bool := inRange 48 57.

(** The punctuation class of the last test, by character code, in the
    order of the source. *)
Definition specialCodes : list nat :=
  [33; 64; 35; 36; 37; 94; 38; 42; 40; 41; 44; 46; 63; 34; 58; 123; 125;
   124; 60; 62]%nat.

Definition isSpecial (c : ascii) : bool :=
  existsb (Nat.eqb (nat_of_ascii c)) specialCodes.

(** [/[class]/.test(password)] *)
Definition test (class : ascii -> bool) (password : string) : bool :=
  existsb class (list_ascii_of_string password).

Definition errorUnless (ok : bool) (msg : string) : list string :=
  if ok then [] else [msg].

Definition passwordErrors (password : string) : list string :=
  errorUnless (negb (String.length password <? 8)%nat)
    "Password must be at least 8 characters long"
  ++ errorUnless (test isLower password)
    "Password must contain at least one lowercase letter"
  ++ errorUnless (test isUpper password)
    "Password must contain at least one uppercase letter"
  ++ errorUnless (test isDigit password)
    "Password must contain at least one number"
  ++ errorUnless (test isSpecial password)
    "Password must contain at least one special character".

Record Validation := mkValidation { isValid : bool; errors : list string }.

Definition validatePasswordStrength (password : string) : Validation :=
  let errors := passwordErrors password in
  mkValidation (Nat.eqb (length errors) 0) errors.

End PasswordUtils.

(** ** [utils/jwt.utils.ts] *)

Module JwtUtils.

Record TokenPayload := mkPayload {
  userId : string;
  email : string;
  staffId : option string;
  roles : list string }.

(** A verified payload; [exp] is in seconds. *)
Record DecodedToken := mkDecoded {
  d_userId : string;
  d_email : string;
  d_staffId : option string;
  d_roles : list string;
  exp : option Z }.

Section Verify.
(** The part of [jwt.verify(token, REFRESH_TOKEN_SECRET, {issuer,
    audience})] that does not read the clock: [None] when the
    signature, the issuer or the audience is rejected or the token is
    malformed.  The tokens signed by this service carry [exp] and no
    [nbf]. *)
Variable verifiedRefreshPayload : string -> option DecodedToken.

(** [None]: [verifyRefreshToken] throws.  [jsonwebtoken] rejects a token
    when [Math.floor(Date.now() / 1000) >= exp]. *)
Definition verifyRefreshToken (now : Date) (token : string)
  : option DecodedToken :=
  match verifiedRefreshPayload token with
  | None => None
  | Some decoded =>
      match exp decoded with
      | None => Some decoded
      | Some e => if e <=? now / 1000 then None else Some decoded
      end
  end.
End Verify.

End JwtUtils.

(** ** Session orchestrator: [AuthController] *)

Module AuthController.
Import JwtUtils.

(** [UserCredentialsModel.findOne({ email })]: the first document whose
    [email] is the given one, with its position.  The [email] path of the
    schema is declared [lowercase: true, trim: true], and Mongoose runs
    these setters on the value of a query filter as on a value it stores:
    the argument [email] is the address after that cast, lower-cased and
    trimmed, as every stored [email] is.  No handler reads the address of
    a request for anything but this lookup, so what the code does with an
    address is what these functions do with its cast. *)
Definition findByEmail (email : string) (coll : list UserCredentials.t)
  : option (nat * UserCredentials.t) :=
  list_find (fun c => UserCredentials.email c = email) coll.

(** [document.save()] of a credentials document loaded from position [i]. *)
Definition save (i : nat) (c : UserCredentials.t) (db : Db) : Db :=
  set_credentialsColl (<[i := c]> (credentialsColl db)) db.

Definition saveProfile (_id : ObjectId) (p : StaffProfile.t) (db : Db) : Db :=
  set_profilesColl (<[_id := p]> (profilesColl db)) db.

(** The filter of [resetPassword]:
    [{ "passwordResetTokens.token": hashedToken,
       "passwordResetTokens.expiresAt": { $gt: new Date() },
       "passwordResetTokens.used": false }].
    Each condition is a path into the array of embedded documents and is
    written without [$elemMatch]; MongoDB then requires of each condition
    that some element of the array satisfies it, not that one element
    satisfies all three. *)
Definition matchesResetQuery (hashedToken : string) (now : Date)
    (c : UserCredentials.t) : bool :=
  existsb (fun r => String.eqb (PasswordReset.token r) hashedToken)
          (UserCredentials.passwordResetTokens c)
  && existsb (fun r => now <? PasswordReset.expiresAt r)
             (UserCredentials.passwordResetTokens c)
  && existsb (fun r => negb (PasswordReset.used r))
             (UserCredentials.passwordResetTokens c).

Definition findByResetToken (hashedToken : string) (now : Date)
    (coll : list UserCredentials.t) : option (nat * UserCredentials.t) :=
  list_find (fun c => matchesResetQuery hashedToken now c = true) coll.

(** [passwordResetTokens.findIndex(rt => rt.token === hashedToken)]
    followed by [passwordResetTokens[tokenIndex].used = true]. *)
Definition markUsed (hashedToken : string) (c : UserCredentials.t)
  : UserCredentials.t :=
  match list_find (fun rt => PasswordReset.token rt = hashedToken)
                  (UserCredentials.passwordResetTokens c) with
  | Some (tokenIndex, rt) =>
      UserCredentials.set_passwordResetTokens
        (<[tokenIndex := PasswordReset.set_used true rt]>
           (UserCredentials.passwordResetTokens c)) c
  | None => c
  end.

(** *** Responses *)

Definition invalidEmailOrPassword : Response :=
  mkResponse 401 false "Invalid email or password" [].
Definition accountLocked : Response :=
  mkResponse 403 false
    "Account is locked due to multiple failed login attempts" [].
Definition accountInactive : Response :=
  mkResponse 403 false "Account is inactive" [].
Definition loginFailed : Response :=
  mkResponse 500 false "Login failed" [("error", VStr "TypeError")].
Definition refreshTokenRequired : Response :=
  mkResponse 400 false "Refresh token is required" [].
Definition logoutSuccessful : Response :=
  mkResponse 200 true "Logout successful" [].
Definition authenticationRequired : Response :=
  mkResponse 401 false "Authentication required" [].
Definition weakNewPassword (errors : list string) : Response :=
  mkResponse 400 false "New password does not meet requirements"
    [("errors", VList (map VStr errors))].
Definition userNotFound : Response :=
  mkResponse 404 false "User not found" [].
Definition currentPasswordIncorrect : Response :=
  mkResponse 401 false "Current password is incorrect" [].
Definition passwordChanged : Response :=
  mkResponse 200 true "Password changed successfully. Please login again." [].
Definition emailNotFoundReply : Response :=
  mkResponse 200 true "If the email exists, a reset link has been sent" [].
Definition resetLinkSent (token : string) : Response :=
  mkResponse 200 true "Password reset link has been sent to your email"
    [("resetToken", VStr token)].
Definition weakPassword (errors : list string) : Response :=
  mkResponse 400 false "Password does not meet requirements"
    [("errors", VList (map VStr errors))].
Definition invalidResetToken : Response :=
  mkResponse 400 false "Invalid or expired reset token" [].
Definition passwordResetSuccessful : Response :=
  mkResponse 200 true
    "Password reset successful. Please login with your new password." [].

Definition roleView (r : ObjectId * Role.t) : Value :=
  VObj [("_id", VStr (fst r)); ("roleName", VStr (Role.roleName (snd r)));
        ("level", VStr (Role.level (snd r)))].

(** [JSON.stringify] of the populated Staff document, which [res.json]
    runs on [staff: profile.staffId].  [StaffSchema] is declared with
    [toJSON: { virtuals: true }], so the getters of its virtuals run, and
    the getter of [addressSummary] reads [this.address.street].  [address]
    is the value of that path in the document, [None] when the selection
    of the populate left it out; the getter then throws a TypeError.
    [None]: thrown. *)
Definition staffToJSON (_id : ObjectId) (s : Staff.t) (address : option Value)
  : option Value :=
  match address with
  | None => None
  | Some address =>
      Some (VObj [("_id", VStr _id); ("firstName", VStr (Staff.firstName s));
                  ("lastName", VStr (Staff.lastName s));
                  ("email", VStr (Staff.email s)); ("address", address)])
  end.

Definition loginSuccessful (profileId : ObjectId) (staff : Value)
    (email : string) (roles : list Value) (isActive : bool)
    (accessToken refreshToken : string) : Response :=
  mkResponse 200 true "Login successful"
    [("data",
      VObj [("user",
             VObj [("id", VStr profileId); ("staff", staff);
                   ("email", VStr email); ("roles", VList roles);
                   ("isActive", VBool isActive)]);
            ("accessToken", VStr accessToken);
            ("refreshToken", VStr refreshToken)])].

(** The clock readings of one [login], in the order of the source. *)
Record LoginClock := mkLoginClock {
  atLockCheck : Date;     (* [new Date()] of [isAccountLocked] *)
  atFailure : Date;       (* [Date.now()] of [incrementFailedAttempts] *)
  atAccessSign : Date;    (* [jwt.sign] of the access token *)
  atRefreshSign : Date;   (* [jwt.sign] of the refresh token *)
  atExpiry : Date;        (* [Date.now()] of [refreshTokenExpiry] *)
  atPrune : nat -> Date;  (* [new Date()] of the filter of [addRefreshToken] *)
  atCreated : Date;       (* [createdAt: new Date()] *)
  atLastLogin : Date }.   (* [profile.lastLogin = new Date()] *)

Definition refreshTokenLifetime : Z := 7 * 24 * 60 * 60 * 1000.
Definition resetTokenLifetime : Z := 60 * 60 * 1000.

Section Handlers.
(** [bcrypt.compare(password, hashedPassword)]. *)
Variable comparePassword : string -> string -> bool.
(** [bcrypt.hash(password, salt)], the salt being drawn by
    [bcrypt.genSalt] at each call. *)
Variable hashPassword : string -> string -> string.
(** [jwt.sign] with the access and the refresh secret, at a given
    time. *)
Variable generateAccessToken : Date -> TokenPayload -> string.
Variable generateRefreshToken : Date -> TokenPayload -> string.
Variable verifiedRefreshPayload : string -> option DecodedToken.
(** [crypto.createHash("sha256").update(token).digest("hex")], which is
    both [hashResetToken] and the digest of [generateResetToken]. *)
Variable hashResetToken : string -> string.

(** [populate("assignedRoles", "roleName level")]. *)
Definition populateRoleNames (db : Db) (ids : list ObjectId)
  : list (ObjectId * Role.t) :=
  omap (fun rid => (fun r => (rid, r)) <$> rolesColl db !! rid) ids.

(** [AuthController.login]; [ip] is [req.ip].
    The staff document is populated with the selection
    ["firstName lastName email employment"], which leaves it without a
    [staffId] property ([(profile.staffId as any).staffId] is
    [undefined]) and without [address]: when the handler comes to
    [res.status(200).json], the two documents are saved, and serialising
    the body throws inside the [try]; the [catch] answers 500. *)
Definition login (clk : LoginClock) (email password : string)
    (deviceInfo ip : option string) (db : Db) : Response * Db :=
  match findByEmail email (credentialsColl db) with
  | None => (invalidEmailOrPassword, db)
  | Some (i, credentials) =>
      if Credential.isAccountLocked credentials (atLockCheck clk)
      then (accountLocked, db)
      else if negb (comparePassword password
                      (UserCredentials.password credentials))
      then
        let credentials :=
          Credential.incrementFailedAttempts credentials (atFailure clk) in
        (invalidEmailOrPassword, save i credentials db)
      else
        let credentials := Credential.resetFailedAttempts credentials in
        let db := save i credentials db in
        let profileId := UserCredentials.staffProfileId credentials in
        match profilesColl db !! profileId with
        | None => (accountInactive, db)
        | Some profile =>
            if negb (StaffProfile.isActive profile)
            then (accountInactive, db)
            else
              match staffColl db !! StaffProfile.staffId profile with
              | None => (loginFailed, db)
              | Some staff =>
                  let assignedRoles :=
                    populateRoleNames db (StaffProfile.assignedRoles profile) in
                  let tokenPayload :=
                    mkPayload (StaffProfile.staffId profile)
                      (UserCredentials.email credentials) None
                      (map (fun r => Role.roleName (snd r)) assignedRoles) in
                  let accessToken :=
                    generateAccessToken (atAccessSign clk) tokenPayload in
                  let refreshToken :=
                    generateRefreshToken (atRefreshSign clk) tokenPayload in
                  let refreshTokenExpiry :=
                    atExpiry clk + refreshTokenLifetime in
                  let credentials :=
                    Credential.addRefreshToken credentials refreshToken
                      refreshTokenExpiry deviceInfo ip
                      (atPrune clk) (atCreated clk) in
                  let db := save i credentials db in
                  let profile :=
                    StaffProfile.set_lastLogin (atLastLogin clk) profile in
                  let db := saveProfile profileId profile db in
                  (match staffToJSON (StaffProfile.staffId profile) staff None
                   with
                   | Some staffJSON =>
                       loginSuccessful profileId staffJSON
                         (UserCredentials.email credentials)
                         (map roleView assignedRoles)
                         (StaffProfile.isActive profile)
                         accessToken refreshToken
                   | None => loginFailed
                   end,
                   db)
              end
        end
  end.

(** [!refreshToken] on the body field, absent or a string. *)
Definition falsy (s : option string) : bool :=
  match s with
  | None => true
  | Some v => String.eqb v ""
  end.

(** [AuthController.logout]; [now] is the clock reading of
    [jwt.verify]. *)
Definition logout (now : Date) (refreshToken : option string) (db : Db)
  : Response * Db :=
  match refreshToken with
  | None => (refreshTokenRequired, db)
  | Some token =>
      if falsy (Some token) then (refreshTokenRequired, db)
      else
        match verifyRefreshToken verifiedRefreshPayload now token with
        | None => (logoutSuccessful, db)
        | Some decoded =>
            match findByEmail (d_email decoded) (credentialsColl db) with
            | Some (i, credentials) =>
                (logoutSuccessful,
                 save i (Credential.removeRefreshToken credentials token) db)
            | None => (logoutSuccessful, db)
            end
        end
  end.

(** [AuthController.changePassword]; [user] is [req.user], [changed]
    and [last] are the two [new Date()] of the update. *)
Definition changePassword (changed last : Date) (salt : string)
    (user : option DecodedToken) (currentPassword newPassword : string)
    (db : Db) : Response * Db :=
  match user with
  | None => (authenticationRequired, db)
  | Some user =>
      let passwordValidation :=
        PasswordUtils.validatePasswordStrength newPassword in
      if negb (PasswordUtils.isValid passwordValidation)
      then (weakNewPassword (PasswordUtils.errors passwordValidation), db)
      else
        match findByEmail (d_email user) (credentialsColl db) with
        | None => (userNotFound, db)
        | Some (i, credentials) =>
            if negb (comparePassword currentPassword
                       (UserCredentials.password credentials))
            then (currentPasswordIncorrect, db)
            else
              let credentials :=
                UserCredentials.set_password
                  (hashPassword newPassword salt) changed last credentials in
              let credentials :=
                Credential.removeAllRefreshTokens credentials in
              let db := save i credentials db in
              let db := save i credentials db in
              (passwordChanged, db)
        end
  end.

(** [AuthController.forgotPassword]; [token] is the
    [crypto.randomBytes(32).toString("hex")] of [generateResetToken],
    [atReset] and [created] are the two clock readings. *)
Definition forgotPassword (atReset created : Date) (token : string)
    (email : string) (db : Db) : Response * Db :=
  match findByEmail email (credentialsColl db) with
  | None => (emailNotFoundReply, db)
  | Some (i, credentials) =>
      let hashedToken := hashResetToken token in
      let expiresAt := atReset + resetTokenLifetime in
      let credentials :=
        UserCredentials.set_passwordResetTokens
          (UserCredentials.passwordResetTokens credentials
             ++ [PasswordReset.mk hashedToken expiresAt created false])
          credentials in
      (resetLinkSent token, save i credentials db)
  end.

(** [AuthController.resetPassword]; [atQuery] is the [new Date()] of
    the filter. *)
Definition resetPassword (atQuery changed last : Date) (salt : string)
    (token newPassword : string) (db : Db) : Response * Db :=
  let passwordValidation :=
    PasswordUtils.validatePasswordStrength newPassword in
  if negb (PasswordUtils.isValid passwordValidation)
  then (weakPassword (PasswordUtils.errors passwordValidation), db)
  else
    let hashedToken := hashResetToken token in
    match findByResetToken hashedToken atQuery (credentialsColl db) with
    | None => (invalidResetToken, db)
    | Some (i, credentials) =>
        let credentials :=
          UserCredentials.set_password
            (hashPassword newPassword salt) changed last credentials in
        let credentials := markUsed hashedToken credentials in
        let credentials := Credential.removeAllRefreshTokens credentials in
        let db := save i credentials db in
        let db := save i credentials db in
        (passwordResetSuccessful, db)
    end.

(** The requests of the session endpoints, each with the clock
    readings and the random draws of its handler. *)
Inductive Request :=
  | Login (clk : LoginClock) (email password : string)
          (deviceInfo ip : option string)
  | Logout (now : Date) (refreshToken : option string)
  | ChangePassword (changed last : Date) (salt : string)
                   (user : option DecodedToken)
                   (currentPassword newPassword : string)
  | ForgotPassword (atReset created : Date) (token email : string)
  | ResetPassword (atQuery changed last : Date) (salt : string)
                  (token newPassword : string).

Definition handle (req : Request) (db : Db) : Response * Db :=
  match req with
  | Login clk email password deviceInfo ip =>
      login clk email password deviceInfo ip db
  | Logout now refreshToken => logout now refreshToken db
  | ChangePassword changed last salt user currentPassword newPassword =>
      changePassword changed last salt user currentPassword newPassword db
  | ForgotPassword atReset created token email =>
      forgotPassword atReset created token email db
  | ResetPassword atQuery changed last salt token newPassword =>
      resetPassword atQuery changed last salt token newPassword db
  end.

End Handlers.

End AuthController.

(** ** Vocabulary of the statements *)

Module Spec.

(** [allowedActions] contains the action named [action]. *)
Definition containsAction (l : list ActionType) (action : string) : Prop :=
  exists a, a ∈ l /\ action_name a = action.

(** The entry [rp] of a role refers to an existing, active permission
    record on [resource] and allows [action]. *)
Definition entryGrants (db : Db) (resource action : string)
    (rp : RolePermission.t) : Prop :=
  exists permission,
    permissionsColl db !! RolePermission.permissionId rp = Some permission
    /\ resource_name (Permission.resource permission) = resource
    /\ containsAction (RolePermission.allowedActions rp) action
    /\ Permission.isActive permission = true.

Definition roleGrants (db : Db) (resource action : string) (role : Role.t)
  : Prop :=
  exists rp, rp ∈ Role.permissions role /\ entryGrants db resource action rp.

(** Some role assigned to the profile has a granting entry. *)
Definition someAssignedRoleGrants (db : Db) (p : StaffProfile.t)
    (resource action : string) : Prop :=
  exists rid role,
    rid ∈ StaffProfile.assignedRoles p
    /\ rolesColl db !! rid = Some role
    /\ roleGrants db resource action role.

(** The same with the condition of the specification, that the role be
    active. *)
Definition someActiveAssignedRoleGrants (db : Db) (p : StaffProfile.t)
    (resource action : string) : Prop :=
  exists rid role,
    rid ∈ StaffProfile.assignedRoles p
    /\ rolesColl db !! rid = Some role
    /\ Role.isActive role = true
    /\ roleGrants db resource action role.

(** Every permission reference of every assigned role resolves. *)
Definition rolesResolved (db : Db) (p : StaffProfile.t) : Prop :=
  forall rid role rp,
    rid ∈ StaffProfile.assignedRoles p ->
    rolesColl db !! rid = Some role ->
    rp ∈ Role.permissions role ->
    is_Some (permissionsColl db !! RolePermission.permissionId rp).

(** The stored override list; an absent field holds no entry. *)
Definition customList (p : StaffProfile.t) : list StaffCustomPermission.t :=
  default [] (StaffProfile.customPermissions p).

(** The resource of the permission record an override refers to. *)
Definition customResource (db : Db) (cp : StaffCustomPermission.t)
  : option string :=
  (fun permission => resource_name (Permission.resource permission))
    <$> permissionsColl db !! StaffCustomPermission.permissionId cp.

(** The scan goes past [cp]: its reference resolves, and it is about
    another resource or is a non-revoked entry without the action. *)
Definition passedOver (db : Db) (resource action : string)
    (cp : StaffCustomPermission.t) : Prop :=
  exists r, customResource db cp = Some r
    /\ (r = resource ->
        StaffCustomPermission.isRevoked cp = false
        /\ includes (StaffCustomPermission.allowedActions cp) action = false).

(** [cp] is about another resource. *)
Definition otherResource (db : Db) (resource : string)
    (cp : StaffCustomPermission.t) : Prop :=
  exists r, customResource db cp = Some r /\ r <> resource.

(** "Drop every stored record whose expiresAt has already passed": the
    records that are kept, in their order, are those whose [expiresAt] is
    later than the clock reading taken when the record is inspected. *)
Definition unexpired (nowAt : nat -> Date) (l : list RefreshToken.t)
  : list RefreshToken.t :=
  snd <$> filter (fun kr => nowAt kr.1 < RefreshToken.expiresAt kr.2)
                 (imap pair l).

(** "If, after pruning, 5 records remain, evict the single oldest". *)
Definition evictOldestOfFive (l : list RefreshToken.t) : list RefreshToken.t :=
  if decide (length l = 5%nat) then tail l else l.

Definition ringSize (c : UserCredentials.t) : nat :=
  length (UserCredentials.refreshTokens c).

(** "A matching, unexpired, unused reset record": one record of the
    credential has the digest, is unexpired and is unused. *)
Definition hasUsableReset (hashedToken : string) (now : Date)
    (c : UserCredentials.t) : Prop :=
  exists r, r ∈ UserCredentials.passwordResetTokens c
    /\ PasswordReset.token r = hashedToken
    /\ now < PasswordReset.expiresAt r
    /\ PasswordReset.used r = false.

(** The failure counters of the stored credentials, by position. *)
Definition counters (db : Db) : list nat :=
  UserCredentials.failedLoginAttempts <$> credentialsColl db.

(** The outcome of [checkPermission] for a decision. *)
Definition outcomeOf (resource action : string) (grant : bool) : Outcome :=
  if grant then Next else Respond (Resolver.forbidden resource action).

End Spec.

(** ** Sample data *)

Module Sample.

Definition staffRead : Permission.t :=
  Permission.mk "STAFF_READ" "Read staff" "Read staff records"
    R_staff [A_read] true.

Definition payrollExport : Permission.t :=
  Permission.mk "PAYROLL_EXPORT" "Export payroll" "Export payroll data"
    R_payroll [A_export] true.

(** A deactivated role that lists (staff, read). *)
Definition retiredClerk : Role.t :=
  Role.mk "CLERK" "Clerk" "Front desk" "staff"
    [RolePermission.mk "perm-staff" [A_read]] false false.

Definition clerk : Role.t :=
  Role.mk "CLERK" "Clerk" "Front desk" "staff"
    [RolePermission.mk "perm-staff" [A_read]] true false.

Definition permissions : gmap ObjectId Permission.t :=
  {[ "perm-staff" := staffRead; "perm-payroll" := payrollExport ]}.

Definition profileOf (roles : list ObjectId)
    (custom : list StaffCustomPermission.t) : StaffProfile.t :=
  StaffProfile.mk "staff-1" roles (Some custom) true None.

Definition dbOf (role : Role.t) (profile : StaffProfile.t) : Db :=
  mkDb [] {[ "profile-1" := profile ]} {[ "role-1" := role ]} permissions ∅.

(** Only role: the deactivated one. *)
Definition retiredProfile : StaffProfile.t := profileOf ["role-1"] [].
Definition retiredDb : Db := dbOf retiredClerk retiredProfile.

(** An active role grants (staff, read); an override revokes staff. *)
Definition revokedProfile : StaffProfile.t :=
  profileOf ["role-1"] [StaffCustomPermission.mk "perm-staff" [] true].
Definition revokedDb : Db := dbOf clerk revokedProfile.

(** No role grants (payroll, export); an override grants it. *)
Definition grantedProfile : StaffProfile.t :=
  profileOf ["role-1"]
    [StaffCustomPermission.mk "perm-payroll" [A_export] false].
Definition grantedDb : Db := dbOf clerk grantedProfile.

(** Stand-ins for [bcrypt], [jsonwebtoken] and [crypto], to run the
    handlers on concrete requests. *)
Definition compare (password hashed : string) : bool :=
  String.eqb hashed ("bcrypt:" +:+ password).
Definition hash (password salt : string) : string := "bcrypt:" +:+ password.
Definition signAccess (now : Date) (payload : JwtUtils.TokenPayload) : string :=
  "access." +:+ JwtUtils.email payload.
Definition signRefresh (now : Date) (payload : JwtUtils.TokenPayload) : string :=
  "refresh." +:+ JwtUtils.email payload.
Definition digest (token : string) : string := "sha256:" +:+ token.
Definition verified (token : string) : option JwtUtils.DecodedToken :=
  if String.eqb token "refresh.alice@x.com"
  then Some (JwtUtils.mkDecoded "staff-1" "alice@x.com" None [] (Some 700000))
  else None.

(** The credential of alice@x.com, whose password is [Secret#123]. *)
Definition alice (attempts : nat) (lockedUntil : option Date)
    (tokens : list RefreshToken.t) (resets : list PasswordReset.t)
  : UserCredentials.t :=
  UserCredentials.mk "profile-1" "alice@x.com" "bcrypt:Secret#123" true
    None None tokens resets None false None None attempts lockedUntil.

Definition authDb (c : UserCredentials.t) (active : bool) : Db :=
  mkDb [c] {[ "profile-1" := StaffProfile.mk "staff-1" [] None active None ]}
       ∅ ∅ {[ "staff-1" := Staff.mk "EMP-1" "Alice" "Archer" "alice@x.com" ]}.

(** A request during which every clock reading is [t]. *)
Definition clock (t : Date) : AuthController.LoginClock :=
  AuthController.mkLoginClock t t t t t (fun _ => t) t t.

Definition login :=
  AuthController.login compare signAccess signRefresh.
Definition logout := AuthController.logout verified.
Definition changePassword := AuthController.changePassword compare hash.
Definition forgotPassword := AuthController.forgotPassword digest.
Definition resetPassword := AuthController.resetPassword hash digest.

(** A refresh token named [name], valid until [expiresAt]. *)
Definition session (name : string) (expiresAt : Date) : RefreshToken.t :=
  RefreshToken.mk name expiresAt 0 None None.

(** Five sessions, the second of which has expired by time 100. *)
Definition staleRing : list RefreshToken.t :=
  [session "s1" 900; session "s2" 90; session "s3" 900; session "s4" 900;
   session "s5" 900].

(** Five live sessions. *)
Definition fullRing : list RefreshToken.t :=
  [session "s1" 900; session "s2" 900; session "s3" 900; session "s4" 900;
   session "s5" 900].

(** Alice after five failures, the lock having ended at time 50; her
    profile has been deactivated in the meantime. *)
Definition lapsed : UserCredentials.t := alice 5 (Some 50) [] [].
Definition deactivatedDb : Db := authDb lapsed false.

(** Alice with five open sessions. *)
Definition loggedIn : UserCredentials.t := alice 0 None fullRing [].

(** Alice after two forgot-password requests, answered with the raw
    tokens [tokenA] and [tokenB], both valid until time 5000. *)
Definition twoRequests (hashResetToken : string -> string)
  : list PasswordReset.t :=
  [PasswordReset.mk (hashResetToken "tokenA") 5000 0 false;
   PasswordReset.mk (hashResetToken "tokenB") 5000 10 false].

Definition pendingDb (hashResetToken : string -> string) : Db :=
  authDb (alice 0 None fullRing (twoRequests hashResetToken)) true.

Definition aliceToken : JwtUtils.DecodedToken :=
  JwtUtils.mkDecoded "staff-1" "alice@x.com" None [] (Some 700000).

(** Alice logged in on two devices; the first session is the one of the
    token that [verified] accepts. *)
Definition sessionDb : Db :=
  authDb (alice 0 None [session "refresh.alice@x.com" 900; session "other" 900] [])
         true.

End Sample.

(** ** Rate limiter: [rateLimitAuth] of [middleware/auth.middleware.ts] *)

Module RateLimiter.

(** A value of the module-level map [loginAttempts]. *)
Record Attempts := mkAttempts { count : nat; resetAt : Date }.

(** What the middleware does: [next()], or status 429 with the
    [retryAfter] of the body. *)
Inductive Verdict :=
  | Pass
  | TooMany (retryAfter : Z).

(** A string operand of [||]: absent and empty are falsy. *)
Definition truthy (s : option string) : option string :=
  match s with
  | Some v => if String.eqb v "" then None else Some v
  | None => None
  end.

(** [req.ip || req.socket.remoteAddress || "unknown"] *)
Definition identifier (ip remoteAddress : option string) : string :=
  match truthy ip with
  | Some v => v
  | None =>
      match truthy remoteAddress with
      | Some v => v
      | None => "unknown"
      end
  end.

(** [Math.ceil((attempts.resetAt - now) / 1000)]; the quotient of the two
    integers is exact enough in floating point for the ceiling to be the
    integer one as long as the difference is below 2^53. *)
Definition retryAfterSeconds (resetAt now : Date) : Z :=
  - ((now - resetAt) / 1000).

(** One request through the middleware returned by
    [rateLimitAuth(maxAttempts, windowMs)]; [now] is its [Date.now()],
    [loginAttempts] the map, which every limiter shares. *)
Definition rateLimitAuth (maxAttempts : nat) (windowMs : Z)
    (ip remoteAddress : option string) (now : Date)
    (loginAttempts : gmap string Attempts) : Verdict * gmap string Attempts :=
  let identifier := identifier ip remoteAddress in
  match loginAttempts !! identifier with
  | Some attempts =>
      if now <? resetAt attempts
      then
        if (maxAttempts <=? count attempts)%nat
        then (TooMany (retryAfterSeconds (resetAt attempts) now), loginAttempts)
        else (Pass,
              <[identifier := mkAttempts (S (count attempts)) (resetAt attempts)]>
                loginAttempts)
      else (Pass, <[identifier := mkAttempts 1 (now + windowMs)]> loginAttempts)
  | None => (Pass, <[identifier := mkAttempts 1 (now + windowMs)]> loginAttempts)
  end.

(** A request as the limiter sees it, with the limiter it goes through. *)
Record Hit := mkHit {
  maxAttempts : nat;
  windowMs : Z;
  ip : option string;
  remoteAddress : option string;
  now : Date }.

(** Requests served one after the other. *)
Fixpoint serve (hits : list Hit) (loginAttempts : gmap string Attempts)
  : list Verdict * gmap string Attempts :=
  match hits with
  | [] => ([], loginAttempts)
  | h :: rest =>
      let first :=
        rateLimitAuth (maxAttempts h) (windowMs h) (ip h) (remoteAddress h)
          (now h) loginAttempts in
      let others := serve rest first.2 in
      (first.1 :: others.1, others.2)
  end.

(** Requests of one client through one limiter, at the given times. *)
Definition hitsAt (maxAttempts : nat) (windowMs : Z)
    (ip remoteAddress : option string) (times : list Date) : list Hit :=
  map (mkHit maxAttempts windowMs ip remoteAddress) times.

End RateLimiter.

(** ** The rest of [utils/jwt.utils.ts] *)

Module JwtHelpers.
Import JwtUtils.

(** What [jwt.verify] does with a token at a given time: it returns the
    payload, or throws an error of the given [name]. *)
Inductive Verification :=
  | Verified (decoded : DecodedToken)
  | Thrown (name : string).

(** The message of the error that the [catch] of [verifyAccessToken]
    throws instead. *)
Definition accessErrorMessage (name : string) : string :=
  if String.eqb name "TokenExpiredError" then "Access token has expired"
  else if String.eqb name "JsonWebTokenError" then "Invalid access token"
  else "Token verification failed".

Section Tokens.
(** [jwt.verify(token, ACCESS_TOKEN_SECRET, {issuer, audience})]. *)
Variable jwtVerifyAccess : Date -> string -> Verification.
(** [jwt.decode(token)], [None] being [null]. *)
Variable jwtDecode : string -> option DecodedToken.

(** [inl message]: [verifyAccessToken] throws [new Error(message)]. *)
Definition verifyAccessToken (now : Date) (token : string)
  : string + DecodedToken :=
  match jwtVerifyAccess now token with
  | Verified decoded => inr decoded
  | Thrown name => inl (accessErrorMessage name)
  end.

Definition decodeToken (token : string) : option DecodedToken :=
  jwtDecode token.

(** [decoded?.exp ? decoded.exp * 1000 : null]: an [exp] of 0 is falsy. *)
Definition getTokenExpiry (token : string) : option Z :=
  match decodeToken token with
  | Some decoded =>
      match exp decoded with
      | Some e => if e =? 0 then None else Some (e * 1000)
      | None => None
      end
  | None => None
  end.

(** [if (!expiry) return true; return Date.now() >= expiry;] *)
Definition isTokenExpired (now : Date) (token : string) : bool :=
  match getTokenExpiry token with
  | None => true
  | Some expiry => if expiry =? 0 then true else expiry <=? now
  end.

(** [if (!expiry) return null; return Math.max(0, expiry - Date.now());] *)
Definition getTimeUntilExpiry (now : Date) (token : string) : option Z :=
  match getTokenExpiry token with
  | None => None
  | Some expiry =>
      if expiry =? 0 then None else Some (Z.max 0 (expiry - now))
  end.

End Tokens.

End JwtHelpers.

(** ** Access control: [authenticate] and [authorize] *)

Module AuthMiddleware.
Import JwtUtils JwtHelpers.

(** [s.split(" ")] *)
Fixpoint splitSpaces (s : string) : list string :=
  match s with
  | EmptyString => [EmptyString]
  | String c rest =>
      if Ascii.eqb c " "
      then EmptyString :: splitSpaces rest
      else
        match splitSpaces rest with
        | first :: others => String c first :: others
        | [] => [String c EmptyString]
        end
  end.

(** The guard [!authHeader || !authHeader.startsWith("Bearer ")] and, past
    it, [authHeader.split(" ")[1]]; [None] when the guard rejects.  A
    header that starts with ["Bearer "] has a second segment. *)
Definition bearerToken (authorization : option string) : option string :=
  match authorization with
  | None => None
  | Some authHeader =>
      if String.prefix "Bearer " authHeader
      then Some (default "" (splitSpaces authHeader !! 1%nat))
      else None
  end.

(** What [authenticate] attaches to the request: [req.user], and
    [req.userProfile] with its [_id] and its populated [assignedRoles]. *)
Record Attached := mkAttached {
  user : DecodedToken;
  userProfileId : ObjectId;
  userProfile : StaffProfile.t;
  assignedRoles : list Role.t }.

Inductive Admission :=
  | Passed (req : Attached)
  | Rejected (r : Response).

Definition tokenRequired : Response :=
  mkResponse 401 false
    "Authentication required. Please provide a valid token." [].
Definition userGone : Response :=
  mkResponse 401 false "User no longer exists" [].
Definition accountLocked : Response :=
  mkResponse 403 false "Account is locked. Please try again later." [].
Definition accountInactive : Response :=
  mkResponse 403 false "Account is inactive" [].
(** [message: error.message || "Invalid or expired token"] *)
Definition tokenRejected (errorMessage : string) : Response :=
  mkResponse 401 false
    (if String.eqb errorMessage "" then "Invalid or expired token"
     else errorMessage) [].
Definition authenticationRequired : Response :=
  mkResponse 401 false "Authentication required" [].
Definition insufficientPermissions (allowedRoles : list string) : Response :=
  mkResponse 403 false "Insufficient permissions"
    [("requiredRoles", VList (map VStr allowedRoles))].

(** [populate("assignedRoles")]: the documents of the references that
    resolve. *)
Definition populateAssignedRoles (db : Db) (ids : list ObjectId) : list Role.t :=
  omap (fun rid => rolesColl db !! rid) ids.

Section Authenticate.
Variable jwtVerifyAccess : Date -> string -> Verification.

(** [authenticate]; [authorization] is [req.headers.authorization],
    [atVerify] the clock reading of [jwt.verify], [atLockCheck] the one of
    [isAccountLocked]. *)
Definition authenticate (authorization : option string)
    (atVerify atLockCheck : Date) (db : Db) : Admission :=
  match bearerToken authorization with
  | None => Rejected tokenRequired
  | Some token =>
      match verifyAccessToken jwtVerifyAccess atVerify token with
      | inl errorMessage => Rejected (tokenRejected errorMessage)
      | inr decoded =>
          match AuthController.findByEmail (d_email decoded)
                  (credentialsColl db) with
          | None => Rejected userGone
          | Some (_, userCredentials) =>
              if Credential.isAccountLocked userCredentials atLockCheck
              then Rejected accountLocked
              else
                let _id := UserCredentials.staffProfileId userCredentials in
                match profilesColl db !! _id with
                | None => Rejected accountInactive
                | Some staffProfile =>
                    if negb (StaffProfile.isActive staffProfile)
                    then Rejected accountInactive
                    else
                      Passed
                        (mkAttached decoded _id staffProfile
                           (populateAssignedRoles db
                              (StaffProfile.assignedRoles staffProfile)))
                end
          end
      end
  end.

End Authenticate.

(** [authorize(...allowedRoles)] on a request to which [authenticate] has
    attached [req.userProfile], or nothing. *)
Definition authorize (allowedRoles : list string) (req : option Attached)
  : Outcome :=
  match req with
  | None => Respond authenticationRequired
  | Some req =>
      let userRoles := map Role.roleName (assignedRoles req) in
      let hasRole :=
        existsb (fun role => existsb (String.eqb role) userRoles) allowedRoles in
      if negb hasRole
      then Respond (insufficientPermissions allowedRoles)
      else Next
  end.

End AuthMiddleware.

(** ** Administration of roles, permissions and profiles

    The handlers of [controller/role.controller.ts],
    [controller/permission.controller.ts] and
    [controller/staffprofile.controller.ts] that change what [authenticate],
    [authorize] and [checkPermission] read.  A reply is the status and the message of the body; the [data]
    member of a 200 body, a copy of the updated document, is not part of
    it. *)

Module Administration.

Record Reply := mkReply { code : nat; text : string }.

Definition set_rolesColl (m : gmap ObjectId Role.t) (db : Db) : Db :=
  mkDb (credentialsColl db) (profilesColl db) m (permissionsColl db)
       (staffColl db).

Definition set_permissionsColl (m : gmap ObjectId Permission.t) (db : Db) : Db :=
  mkDb (credentialsColl db) (profilesColl db) (rolesColl db) m (staffColl db).

Definition role_set_isActive (b : bool) (r : Role.t) : Role.t :=
  Role.mk (Role.roleId r) (Role.roleName r) (Role.description r)
          (Role.level r) (Role.permissions r) b (Role.isSystemRole r).

Definition permission_set_isActive (b : bool) (p : Permission.t)
  : Permission.t :=
  Permission.mk (Permission.permissionId p) (Permission.name p)
                (Permission.description p) (Permission.resource p)
                (Permission.actions p) b.

Definition profile_set_assignedRoles (l : list ObjectId) (p : StaffProfile.t)
  : StaffProfile.t :=
  StaffProfile.mk (StaffProfile.staffId p) l (StaffProfile.customPermissions p)
                  (StaffProfile.isActive p) (StaffProfile.lastLogin p).

Definition profile_set_customPermissions
    (l : option (list StaffCustomPermission.t)) (p : StaffProfile.t)
  : StaffProfile.t :=
  StaffProfile.mk (StaffProfile.staffId p) (StaffProfile.assignedRoles p) l
                  (StaffProfile.isActive p) (StaffProfile.lastLogin p).

Definition profile_set_isActive (b : bool) (p : StaffProfile.t)
  : StaffProfile.t :=
  StaffProfile.mk (StaffProfile.staffId p) (StaffProfile.assignedRoles p)
                  (StaffProfile.customPermissions p) b
                  (StaffProfile.lastLogin p).

(** [{ $addToSet: { assignedRoles: { $each: roleIds } } }]: each value
    that the array does not hold yet is appended, in order. *)
Fixpoint addToSet (l : list ObjectId) (values : list ObjectId)
  : list ObjectId :=
  match values with
  | [] => l
  | v :: rest =>
      addToSet (if existsb (String.eqb v) l then l else l ++ [v]) rest
  end.

(** [{ $pull: { assignedRoles: { $in: roleIds } } }] *)
Definition pullIn (l : list ObjectId) (values : list ObjectId)
  : list ObjectId :=
  List.filter (fun x => negb (existsb (String.eqb x) values)) l.

Section Handlers.
(** [Types.ObjectId.isValid] *)
Variable isValidObjectId : string -> bool.

(** [RoleController.toggleRoleStatus] *)
Definition toggleRoleStatus (id : string) (db : Db) : Reply * Db :=
  if negb (isValidObjectId id) then (mkReply 400 "Invalid role ID", db)
  else
    match rolesColl db !! id with
    | None => (mkReply 404 "Role not found", db)
    | Some role =>
        let role := role_set_isActive (negb (Role.isActive role)) role in
        (mkReply 200
           ("Role "
            +:+ (if Role.isActive role then "activated" else "deactivated")
            +:+ " successfully"),
         set_rolesColl (<[id := role]> (rolesColl db)) db)
    end.

(** [RoleController.deleteRole] *)
Definition deleteRole (id : string) (db : Db) : Reply * Db :=
  if negb (isValidObjectId id) then (mkReply 400 "Invalid role ID", db)
  else
    match rolesColl db !! id with
    | None => (mkReply 404 "Role not found", db)
    | Some role =>
        if Role.isSystemRole role
        then (mkReply 403 "Cannot delete system roles", db)
        else (mkReply 200 "Role deleted successfully",
              set_rolesColl (delete id (rolesColl db)) db)
    end.

(** [PermissionController.deletePermission] *)
Definition deletePermission (id : string) (db : Db) : Reply * Db :=
  if negb (isValidObjectId id) then (mkReply 400 "Invalid permission ID", db)
  else
    match permissionsColl db !! id with
    | None => (mkReply 404 "Permission not found", db)
    | Some _ =>
        (mkReply 200 "Permission deleted successfully",
         set_permissionsColl (delete id (permissionsColl db)) db)
    end.

(** [PermissionController.togglePermissionStatus] *)
Definition togglePermissionStatus (id : string) (db : Db) : Reply * Db :=
  if negb (isValidObjectId id) then (mkReply 400 "Invalid permission ID", db)
  else
    match permissionsColl db !! id with
    | None => (mkReply 404 "Permission not found", db)
    | Some permission =>
        let permission :=
          permission_set_isActive (negb (Permission.isActive permission))
            permission in
        (mkReply 200
           ("Permission "
            +:+ (if Permission.isActive permission
                 then "activated" else "deactivated")
            +:+ " successfully"),
         set_permissionsColl (<[id := permission]> (permissionsColl db)) db)
    end.

(** [StaffProfileController.assignRoles]; [roleIds] is [None] when the
    body member is not an array.  Its members are ObjectIds in their
    24-digit form, as the stored references are; a member that Mongoose
    cannot cast makes the update throw, which is outside this function. *)
Definition assignRoles (id : string) (roleIds : option (list ObjectId))
    (db : Db) : Reply * Db :=
  if negb (isValidObjectId id) then (mkReply 400 "Invalid profile ID", db)
  else
    match roleIds with
    | None => (mkReply 400 "Role IDs must be a non-empty array", db)
    | Some [] => (mkReply 400 "Role IDs must be a non-empty array", db)
    | Some roleIds =>
        match profilesColl db !! id with
        | None => (mkReply 404 "Staff profile not found", db)
        | Some profile =>
            (mkReply 200 "Roles assigned successfully",
             set_profilesColl
               (<[id := profile_set_assignedRoles
                          (addToSet (StaffProfile.assignedRoles profile) roleIds)
                          profile]> (profilesColl db)) db)
        end
    end.

(** [StaffProfileController.removeRoles], for a body whose [roleIds] is an
    array of ObjectIds in their 24-digit form, as the schema of the route
    requires. *)
Definition removeRoles (id : string) (roleIds : list ObjectId) (db : Db)
  : Reply * Db :=
  if negb (isValidObjectId id) then (mkReply 400 "Invalid profile ID", db)
  else
    match profilesColl db !! id with
    | None => (mkReply 404 "Staff profile not found", db)
    | Some profile =>
        (mkReply 200 "Roles removed successfully",
         set_profilesColl
           (<[id := profile_set_assignedRoles
                      (pullIn (StaffProfile.assignedRoles profile) roleIds)
                      profile]> (profilesColl db)) db)
    end.

(** [StaffProfileController.addCustomPermissions]:
    [{ $push: { customPermissions: { $each: permissions } } }]. *)
Definition addCustomPermissions (id : string)
    (permissions : option (list StaffCustomPermission.t)) (db : Db)
  : Reply * Db :=
  if negb (isValidObjectId id) then (mkReply 400 "Invalid profile ID", db)
  else
    match permissions with
    | None => (mkReply 400 "Failed to add custom permissions", db)
    | Some permissions =>
        match profilesColl db !! id with
        | None => (mkReply 404 "Staff profile not found", db)
        | Some profile =>
            (mkReply 200 "Custom permissions added successfully",
             set_profilesColl
               (<[id := profile_set_customPermissions
                          (Some (default [] (StaffProfile.customPermissions profile)
                                 ++ permissions))
                          profile]> (profilesColl db)) db)
        end
    end.

(** [StaffProfileController.updateAccountStatus], for a boolean
    [isActive]. *)
Definition updateAccountStatus (id : string) (isActive : bool) (db : Db)
  : Reply * Db :=
  if negb (isValidObjectId id) then (mkReply 400 "Invalid profile ID", db)
  else
    match profilesColl db !! id with
    | None => (mkReply 404 "Staff profile not found", db)
    | Some profile =>
        (mkReply 200
           ("Account "
            +:+ (if isActive then "activated" else "deactivated")
            +:+ " successfully"),
         set_profilesColl
           (<[id := profile_set_isActive isActive profile]> (profilesColl db))
           db)
    end.

End Handlers.

End Administration.

(** ** Routes: a guard after [authenticate]

    [router.x(path, authenticate, authorize(...roles), handler)] and
    [router.x(path, authenticate, checkPermission(resource, action),
    handler)]: what reaches the handler. *)

Module Routes.
Import AuthMiddleware.

Section Chains.
Variable jwtVerifyAccess : Date -> string -> JwtHelpers.Verification.

Definition requireRoles (allowedRoles : list string)
    (authorization : option string) (atVerify atLockCheck : Date) (db : Db)
  : Outcome :=
  match authenticate jwtVerifyAccess authorization atVerify atLockCheck db with
  | Rejected r => Respond r
  | Passed req => authorize allowedRoles (Some req)
  end.

Definition requirePermission (resource action : string)
    (authorization : option string) (atVerify atLockCheck : Date) (db : Db)
  : Outcome :=
  match authenticate jwtVerifyAccess authorization atVerify atLockCheck db with
  | Rejected r => Respond r
  | Passed req =>
      Resolver.checkPermission resource action (Some (userProfileId req)) db
  end.

End Chains.

End Routes.

(** ** The other handlers of [AuthController] *)

Module AuthEndpoints.
Import JwtUtils AuthController.

(** [isEmailVerified = true; emailVerificationToken = undefined;
     emailVerificationExpiry = undefined]. *)
Definition set_emailVerified (c : UserCredentials.t) : UserCredentials.t :=
  UserCredentials.mk
    (UserCredentials.staffProfileId c) (UserCredentials.email c)
    (UserCredentials.password c) true None None
    (UserCredentials.refreshTokens c) (UserCredentials.passwordResetTokens c)
    (UserCredentials.passwordChangedAt c) (UserCredentials.twoFactorEnabled c)
    (UserCredentials.twoFactorSecret c) (UserCredentials.lastPasswordChange c)
    (UserCredentials.failedLoginAttempts c)
    (UserCredentials.accountLockedUntil c).

(** [credentials.refreshTokens.find((rt) => rt.token === refreshToken &&
     rt.expiresAt > new Date())]: the clock is read for the records whose
    token is the presented one; [nowAt i] is the reading for the record at
    index [i]. *)
Fixpoint findStored (refreshToken : string) (nowAt : nat -> Date) (i : nat)
    (l : list RefreshToken.t) : option RefreshToken.t :=
  match l with
  | [] => None
  | rt :: rest =>
      if String.eqb (RefreshToken.token rt) refreshToken
         && (nowAt i <? RefreshToken.expiresAt rt)
      then Some rt
      else findStored refreshToken nowAt (S i) rest
  end.

(** The filter of [verifyEmail]:
    [{ emailVerificationToken: token,
       emailVerificationExpiry: { $gt: new Date() } }], two fields of the
    document itself. *)
Definition matchesVerification (token : string) (now : Date)
    (c : UserCredentials.t) : bool :=
  match UserCredentials.emailVerificationToken c,
        UserCredentials.emailVerificationExpiry c with
  | Some stored, Some expiry => String.eqb stored token && (now <? expiry)
  | _, _ => false
  end.

Definition findByVerificationToken (token : string) (now : Date)
    (coll : list UserCredentials.t) : option (nat * UserCredentials.t) :=
  list_find (fun c => matchesVerification token now c = true) coll.

Definition invalidRefreshToken : Response :=
  mkResponse 401 false "Invalid refresh token" [].
Definition refreshTokenNotStored : Response :=
  mkResponse 401 false "Refresh token is invalid or expired" [].
Definition tokenRefreshed (accessToken : string) : Response :=
  mkResponse 200 true "Token refreshed successfully"
    [("data", VObj [("accessToken", VStr accessToken)])].
Definition tokenRefreshFailed (errorMessage : string) : Response :=
  mkResponse 401 false "Token refresh failed" [("error", VStr errorMessage)].
Definition loggedOutEverywhere : Response :=
  mkResponse 200 true "Logged out from all devices" [].
Definition invalidVerificationToken : Response :=
  mkResponse 400 false "Invalid or expired verification token" [].
Definition emailVerified : Response :=
  mkResponse 200 true "Email verified successfully" [].

Section Handlers.
Variable comparePassword : string -> string -> bool.
Variable hashPassword : string -> string -> string.
Variables generateAccessToken generateRefreshToken
  : Date -> TokenPayload -> string.
Variable verifiedRefreshPayload : string -> option DecodedToken.
(** The message of the error that [verifyRefreshToken] throws for a token
    at a time. *)
Variable refreshErrorMessage : Date -> string -> string.
Variable hashResetToken : string -> string.

(** [AuthController.refreshToken]; [presented] is the body member,
    [atVerify] the clock reading of [jwt.verify], [nowAt] the readings of
    the search in the ring, [atSign] the one of [jwt.sign].  The handler
    writes nothing. *)
Definition refreshToken (atVerify : Date) (nowAt : nat -> Date)
    (atSign : Date) (presented : option string) (db : Db) : Response :=
  match presented with
  | None => refreshTokenRequired
  | Some refreshToken =>
      if falsy (Some refreshToken) then refreshTokenRequired
      else
        match verifyRefreshToken verifiedRefreshPayload atVerify
                refreshToken with
        | None =>
            tokenRefreshFailed (refreshErrorMessage atVerify refreshToken)
        | Some decoded =>
            match findByEmail (d_email decoded) (credentialsColl db) with
            | None => invalidRefreshToken
            | Some (_, credentials) =>
                match findStored refreshToken nowAt 0
                        (UserCredentials.refreshTokens credentials) with
                | None => refreshTokenNotStored
                | Some storedToken =>
                    match profilesColl db
                            !! UserCredentials.staffProfileId credentials with
                    | None => AuthController.accountInactive
                    | Some profile =>
                        if negb (StaffProfile.isActive profile)
                        then AuthController.accountInactive
                        else
                          let tokenPayload :=
                            mkPayload (StaffProfile.staffId profile)
                              (UserCredentials.email credentials)
                              (d_staffId decoded)
                              (map (fun r => Role.roleName (snd r))
                                 (populateRoleNames db
                                    (StaffProfile.assignedRoles profile))) in
                          tokenRefreshed
                            (generateAccessToken atSign tokenPayload)
                    end
                end
            end
        end
  end.

(** [AuthController.logoutAll]; [user] is [req.user]. *)
Definition logoutAll (user : option DecodedToken) (db : Db) : Response * Db :=
  match user with
  | None => (AuthController.authenticationRequired, db)
  | Some user =>
      match findByEmail (d_email user) (credentialsColl db) with
      | Some (i, credentials) =>
          (loggedOutEverywhere,
           save i (Credential.removeAllRefreshTokens credentials) db)
      | None => (loggedOutEverywhere, db)
      end
  end.

(** [AuthController.verifyEmail], for a string [token]; [now] is the
    [new Date()] of the filter. *)
Definition verifyEmail (now : Date) (token : string) (db : Db)
  : Response * Db :=
  match findByVerificationToken token now (credentialsColl db) with
  | None => (invalidVerificationToken, db)
  | Some (i, credentials) =>
      (emailVerified, save i (set_emailVerified credentials) db)
  end.

(** Every request of the [/auth] routes that the model covers. *)
Inductive Endpoint :=
  | Session (req : Request)
  | RefreshToken (atVerify : Date) (nowAt : nat -> Date) (atSign : Date)
                 (presented : option string)
  | LogoutAll (user : option DecodedToken)
  | VerifyEmail (now : Date) (token : string).

Definition serve (e : Endpoint) (db : Db) : Response * Db :=
  match e with
  | Session req =>
      handle comparePassword hashPassword generateAccessToken
        generateRefreshToken verifiedRefreshPayload hashResetToken req db
  | RefreshToken atVerify nowAt atSign presented =>
      (refreshToken atVerify nowAt atSign presented db, db)
  | LogoutAll user => logoutAll user db
  | VerifyEmail now token => verifyEmail now token db
  end.

Definition isLogin (e : Endpoint) : bool :=
  match e with
  | Session (Login _ _ _ _ _) => true
  | _ => false
  end.

(** The requests of a list, served one after the other. *)
Fixpoint serveAll (es : list Endpoint) (db : Db) : Db :=
  match es with
  | [] => db
  | e :: rest => serveAll rest (serve e db).2
  end.

(** Logins of one email, one after the other. *)
Fixpoint loginEach (tries : list (LoginClock * string)) (email : string)
    (db : Db) : list Response * Db :=
  match tries with
  | [] => ([], db)
  | (clk, password) :: rest =>
      let first :=
        login comparePassword generateAccessToken generateRefreshToken
          clk email password None None db in
      let others := loginEach rest email first.2 in
      (first.1 :: others.1, others.2)
  end.

End Handlers.

End AuthEndpoints.

(** ** [validation/auth.validation.ts]: the [newPassword] field

    [z.string().min(8, ..).regex(passwordRegex, ..)] of
    [changePasswordSchema] and [resetPasswordSchema]: the string has at
    least eight code units and [passwordRegex.test] accepts it.  The
    expression is anchored at the start only: four lookaheads, each a run of
    characters other than line terminators followed by a character of a
    class, and then one character of the last class. *)

Module AuthValidation.
Import PasswordUtils.

(** The punctuation of the fourth lookahead and of the last class, by
    character code, in the order of the source. *)
Definition schemaSpecialCodes : list nat := [64; 36; 33; 37; 42; 63; 38]%nat.

Definition isSchemaSpecial (c : ascii) : bool :=
  existsb (Nat.eqb (nat_of_ascii c)) schemaSpecialCodes.

(** The line terminators, which the dot does not match: line feed and
    carriage return (the other two are above the codes of [ascii]). *)
Definition isLineTerminator (c : ascii) : bool :=
  let n := nat_of_ascii c in (n =? 10)%nat || (n =? 13)%nat.

(** A lookahead at the start of [s]: the dot-star run, then a character
    of [class]. *)
Fixpoint lookahead (class : ascii -> bool) (s : list ascii) : bool :=
  match s with
  | [] => false
  | c :: rest => class c || (negb (isLineTerminator c) && lookahead class rest)
  end.

(** The last class, at the first character. *)
Definition startsInClass (s : list ascii) : bool :=
  match s with
  | [] => false
  | c :: _ => isUpper c || isLower c || isDigit c || isSchemaSpecial c
  end.

Definition passwordRegex (password : string) : bool :=
  let s := list_ascii_of_string password in
  lookahead isLower s && lookahead isUpper s && lookahead isDigit s
  && lookahead isSchemaSpecial s && startsInClass s.

Definition newPasswordSchema (password : string) : bool :=
  (8 <=? String.length password)%nat && passwordRegex password.

End AuthValidation.

(** ** Vocabulary of the further statements *)

Module Terms.

(** [c'] has what [authenticate] and the lock check of [login] read of
    [c]. *)
Definition sameAccount (c c' : UserCredentials.t) : Prop :=
  UserCredentials.email c' = UserCredentials.email c
  /\ UserCredentials.staffProfileId c' = UserCredentials.staffProfileId c
  /\ UserCredentials.failedLoginAttempts c'
     = UserCredentials.failedLoginAttempts c
  /\ UserCredentials.accountLockedUntil c'
     = UserCredentials.accountLockedUntil c.

(** A lock date is stored only beside a counter of five or more. *)
Definition lockedAfterFive (c : UserCredentials.t) : Prop :=
  is_Some (UserCredentials.accountLockedUntil c) ->
  (5 <= UserCredentials.failedLoginAttempts c)%nat.

(** Every reset record of [c] is still at its index in [c'], with its
    token and its dates, and is used there if it was used. *)
Definition keepsResets (c c' : UserCredentials.t) : Prop :=
  forall k r,
    UserCredentials.passwordResetTokens c !! k = Some r ->
    exists r',
      UserCredentials.passwordResetTokens c' !! k = Some r'
      /\ PasswordReset.token r' = PasswordReset.token r
      /\ PasswordReset.expiresAt r' = PasswordReset.expiresAt r
      /\ PasswordReset.createdAt r' = PasswordReset.createdAt r
      /\ (PasswordReset.used r = true -> PasswordReset.used r' = true).

End Terms.

(** ** Further sample data *)

Module Fixture.

(** Four requests of one client to the login route (limit 3 here, window
    of one second) within the same window. *)
Definition burst : list RateLimiter.Hit :=
  RateLimiter.hitsAt 3 1000 (Some "10.0.0.1") None [0; 100; 200; 300].

(** The forgot-password limiter (3 per hour) has opened the window of the
    client; its third request is recorded. *)
Definition afterForgot : gmap string RateLimiter.Attempts :=
  {[ "10.0.0.1" := RateLimiter.mkAttempts 3 3600000 ]}.

(** Three login requests (limit 5, window of 15 minutes) of the same
    client, the last one more than 15 minutes after the window opened. *)
Definition loginHits : list RateLimiter.Hit :=
  RateLimiter.hitsAt 5 900000 (Some "10.0.0.1") None [1000; 2000; 1000000].

(** Requests of another client. *)
Definition otherHits : list RateLimiter.Hit :=
  RateLimiter.hitsAt 5 900000 None (Some "10.0.0.2") [0; 1; 2; 3; 4; 5].

(** A stand-in for [jwt.verify] with the access secret: it accepts the
    access token of alice@x.com until the [exp] of the payload. *)
Definition verifyAccess (now : Date) (token : string)
  : JwtHelpers.Verification :=
  if String.eqb token "access.alice@x.com"
  then
    if 700000 <=? now / 1000 then JwtHelpers.Thrown "TokenExpiredError"
    else JwtHelpers.Verified Sample.aliceToken
  else JwtHelpers.Thrown "JsonWebTokenError".

(** A stand-in for [Types.ObjectId.isValid]. *)
Definition isValid (id : string) : bool := negb (String.eqb id "").

Definition bearer : option string := Some "Bearer access.alice@x.com".

(** A stand-in for the message of the error of [verifyRefreshToken]. *)
Definition refreshError (now : Date) (token : string) : string :=
  match Sample.verified token with
  | Some _ => "Refresh token has expired"
  | None => "Invalid refresh token"
  end.

Definition refreshToken :=
  AuthEndpoints.refreshToken Sample.signAccess Sample.verified refreshError.

Definition serveAll :=
  AuthEndpoints.serveAll Sample.compare Sample.hash Sample.signAccess
    Sample.signRefresh Sample.verified refreshError Sample.digest.

(** Alice logs out of one session, then changes her password. *)
Definition quietRequests : list AuthEndpoints.Endpoint :=
  [AuthEndpoints.Session
     (AuthController.Logout 100 (Some "refresh.alice@x.com"));
   AuthEndpoints.Session
     (AuthController.ChangePassword 100 100 "salt" (Some Sample.aliceToken)
        "Secret#123" "N3w!Secret")].

(** Alice is locked until time 5000 and has asked for two reset tokens. *)
Definition lockedAlice : UserCredentials.t :=
  Sample.alice 5 (Some 5000) [] (Sample.twoRequests Sample.digest).
Definition lockedDb : Db := Sample.authDb lockedAlice true.

Definition resetRequest : AuthEndpoints.Endpoint :=
  AuthEndpoints.Session
    (AuthController.ResetPassword 100 100 100 "salt" "tokenA" "N3w!Secret").

(** Alice before she has verified her email; the token is valid until
    time 5000. *)
Definition unverified : UserCredentials.t :=
  UserCredentials.mk "profile-1" "alice@x.com" "bcrypt:Secret#123" false
    (Some "verify-1") (Some 5000) [] [] None false None None 0 None.
Definition unverifiedDb : Db := Sample.authDb unverified true.

(** Alice after three failed logins, and two more wrong passwords. *)
Definition threeFailures : UserCredentials.t := Sample.alice 3 None [] [].
Definition twoTries : list (AuthController.LoginClock * string) :=
  [(Sample.clock 100, "wrong"); (Sample.clock 200, "nope")].
Definition loginEach :=
  AuthEndpoints.loginEach Sample.compare Sample.signAccess Sample.signRefresh.

Definition wrongLogin : AuthEndpoints.Endpoint :=
  AuthEndpoints.Session
    (AuthController.Login (Sample.clock 100) "alice@x.com" "wrong" None None).

Definition rightLogin : AuthEndpoints.Endpoint :=
  AuthEndpoints.Session
    (AuthController.Login (Sample.clock 100) "alice@x.com" "Secret#123" None
       None).

(** What [authenticate] attaches for alice on [Sample.sessionDb]. *)
Definition aliceRequest : AuthMiddleware.Attached :=
  AuthMiddleware.mkAttached Sample.aliceToken "profile-1"
    (StaffProfile.mk "staff-1" [] None true None) [].

(** Alice after four failed logins. *)
Definition fourFailures : Db := Sample.authDb (Sample.alice 4 None [] []) true.

(** A revocation of the payroll permission. *)
Definition payrollRevoked : StaffCustomPermission.t :=
  StaffCustomPermission.mk "perm-payroll" [] true.

End Fixture.

(** * Properties *)

(** ** Permission resolver *)

Section ResolverFacts.
Import Resolver Spec.

Variable db : Db.
Variables resource action : string.

Lemma includes_containsAction (l : list ActionType) :
  includes l action = true <-> containsAction l action.
Proof.
  unfold includes, containsAction. rewrite existsb_exists.
  split; intros (a & Hin & Hname); exists a.
  - split; [by apply list_elem_of_In | by apply String.eqb_eq].
  - split; [by apply list_elem_of_In | by apply String.eqb_eq].
Qed.

(** The test of the inner role loop is [entryGrants] on the stored
    entry. *)
Lemma entry_test_grants (rp : RolePermission.t) (permission : Permission.t) :
  permissionsColl db !! RolePermission.permissionId rp = Some permission ->
  String.eqb (resource_name (Permission.resource permission)) resource
    && includes (RolePermission.allowedActions rp) action
    && Permission.isActive permission = true
  <-> entryGrants db resource action rp.
Proof.
  intros Hlook. unfold entryGrants.
  rewrite !andb_true_iff, String.eqb_eq, includes_containsAction.
  split.
  - intros [[Hres Hact] Hon]. by exists permission.
  - intros (permission' & Hlook' & Hres & Hact & Hon).
    rewrite Hlook in Hlook'. by inversion Hlook'; subst.
Qed.

Lemma scanRolePermissions_stored (rps : list RolePermission.t) :
  (forall rp, rp ∈ rps ->
     is_Some (permissionsColl db !! RolePermission.permissionId rp)) ->
  exists g,
    scanRolePermissions resource action (map (populateRolePermission db) rps)
      = Some g
    /\ (g = true <-> exists rp, rp ∈ rps /\ entryGrants db resource action rp).
Proof.
  induction rps as [|rp rest IH]; intros Hres.
  - exists false. split; [done|]. split; [done|].
    intros (rp & Hin & _). by apply elem_of_nil in Hin.
  - destruct (Hres rp) as [permission Hlook]; [by left|].
    cbn [map scanRolePermissions populateRolePermission
         RolePermission.p_permissionId RolePermission.p_allowedActions].
    rewrite Hlook.
    destruct (String.eqb _ resource && includes _ action && _) eqn:Htest.
    + exists true. split; [done|]. split; [|done]. intros _.
      exists rp. split; [by left|]. by apply (entry_test_grants rp permission).
    + destruct IH as (g & Hscan & Hg).
      { intros rp' Hin. apply Hres. by right. }
      exists g. split; [done|]. rewrite Hg. split.
      * intros (rp' & Hin & Hgr). exists rp'. split; [by right | done].
      * intros (rp' & Hin & Hgr). apply elem_of_cons in Hin as [-> | Hin].
        -- apply (entry_test_grants rp permission Hlook) in Hgr. congruence.
        -- by exists rp'.
Qed.

Lemma scanRoles_stored (ids : list ObjectId) :
  (forall rid role rp,
     rid ∈ ids -> rolesColl db !! rid = Some role ->
     rp ∈ Role.permissions role ->
     is_Some (permissionsColl db !! RolePermission.permissionId rp)) ->
  exists g,
    scanRoles resource action
      (omap (fun rid => populateRole db <$> rolesColl db !! rid) ids) = Some g
    /\ (g = true <->
        exists rid role, rid ∈ ids /\ rolesColl db !! rid = Some role
                         /\ roleGrants db resource action role).
Proof.
  induction ids as [|rid rest IH]; intros Hres.
  - exists false. split; [done|]. split; [done|].
    intros (rid & role & Hin & _). by apply elem_of_nil in Hin.
  - destruct IH as (g & Hscan & Hg).
    { intros rid' role rp Hin. apply Hres. by right. }
    cbn [omap list_omap]. destruct (rolesColl db !! rid) as [role|] eqn:Hrole.
    + cbn [fmap option_fmap option_map scanRoles populateRole Role.p_permissions].
      destruct (scanRolePermissions_stored (Role.permissions role))
        as (g0 & Hscan0 & Hg0).
      { intros rp Hin. apply (Hres rid role); [by left | done | done]. }
      rewrite Hscan0. destruct g0.
      * exists true. split; [done|]. split; [|done]. intros _.
        exists rid, role. split; [by left|]. split; [done|]. by apply Hg0.
      * exists g. split; [done|]. rewrite Hg. split.
        -- intros (rid' & role' & Hin & Hr & Hgr).
           exists rid', role'. split; [by right | done].
        -- intros (rid' & role' & Hin & Hr & Hgr).
           apply elem_of_cons in Hin as [-> | Hin].
           ++ rewrite Hrole in Hr. inversion Hr; subst.
              apply Hg0 in Hgr. congruence.
           ++ by exists rid', role'.
    + cbn [fmap option_fmap option_map]. exists g. split; [done|].
      rewrite Hg. split.
      * intros (rid' & role' & Hin & Hr & Hgr).
        exists rid', role'. split; [by right | done].
      * intros (rid' & role' & Hin & Hr & Hgr).
        apply elem_of_cons in Hin as [-> | Hin]; [congruence|].
        by exists rid', role'.
Qed.

End ResolverFacts.

(** C1, as the code has it: whenever the permission references of the
    assigned roles resolve, [roleGrant] is true if and only if some role
    assigned to the profile, active or not, has a permission entry whose
    resource is the query resource, whose allowedActions contains the query
    action and whose Permission record is active. *)
Theorem roleGrant_iff_some_assigned_role_grants
    (db : Db) (p : StaffProfile.t) (resource action : string) :
  Spec.rolesResolved db p ->
  exists g,
    Resolver.roleGrant (Resolver.populateProfile db p) resource action = Some g
    /\ (g = true <-> Spec.someAssignedRoleGrants db p resource action).
Proof.
  intros Hres. unfold Resolver.roleGrant, Spec.someAssignedRoleGrants.
  cbn [Resolver.populateProfile StaffProfile.p_assignedRoles].
  by apply scanRoles_stored.
Qed.

Lemma roleGrant_iff_some_assigned_role_grants_witness :
  Spec.rolesResolved Sample.retiredDb Sample.retiredProfile
  /\ exists g,
      Resolver.roleGrant
        (Resolver.populateProfile Sample.retiredDb Sample.retiredProfile)
        "staff" "read" = Some g
      /\ (g = true <->
          Spec.someAssignedRoleGrants Sample.retiredDb Sample.retiredProfile
            "staff" "read").
Proof.
  assert (Hres : Spec.rolesResolved Sample.retiredDb Sample.retiredProfile).
  { intros rid role rp Hrid Hrole Hrp.
    apply list_elem_of_singleton in Hrid as ->.
    vm_compute in Hrole. inversion Hrole; subst role.
    apply list_elem_of_singleton in Hrp as ->.
    vm_compute. eauto. }
  split; [exact Hres|].
  exact (roleGrant_iff_some_assigned_role_grants
           Sample.retiredDb Sample.retiredProfile "staff" "read" Hres).
Defined.

(** C1, counterexample: the only role of the profile is deactivated, yet
    [roleGrant] is true; the equivalence with "some active assigned role
    grants" fails. *)
Lemma roleGrant_counts_inactive_role :
  ~ (Resolver.roleGrant
       (Resolver.populateProfile Sample.retiredDb Sample.retiredProfile)
       "staff" "read" = Some true
     <-> Spec.someActiveAssignedRoleGrants
           Sample.retiredDb Sample.retiredProfile "staff" "read").
Proof.
  intros [Hto _].
  destruct (Hto eq_refl) as (rid & role & Hrid & Hrole & Hactive & _).
  apply list_elem_of_singleton in Hrid as ->.
  vm_compute in Hrole. inversion Hrole; subst role.
  discriminate Hactive.
Qed.

Section CustomOverrides.
Import Resolver Spec.

Variable db : Db.
Variables resource action : string.

(** Entries that the scan goes past do not change its result. *)
Lemma scanCustom_passedOver (g : bool)
    (pre rest : list StaffCustomPermission.t) :
  Forall (passedOver db resource action) pre ->
  scanCustom resource action g (map (populateCustom db) (pre ++ rest))
  = scanCustom resource action g (map (populateCustom db) rest).
Proof.
  induction 1 as [|cp pre Hcp _ IH]; [done|].
  destruct Hcp as (r & Hr & Hskip). unfold customResource in Hr.
  cbn [app map scanCustom populateCustom
       StaffCustomPermission.p_permissionId
       StaffCustomPermission.p_isRevoked
       StaffCustomPermission.p_allowedActions].
  destruct (permissionsColl db !! StaffCustomPermission.permissionId cp)
    as [permission|]; [|done].
  cbn in Hr. inversion Hr; subst r.
  destruct (String.eqb_spec (resource_name (Permission.resource permission))
              resource) as [Heq|Hne]; [|exact IH].
  destruct (Hskip Heq) as [-> ->]. exact IH.
Qed.

Lemma scanCustom_decisive (g : bool) (e : StaffCustomPermission.t)
    (post : list StaffCustomPermission.t) :
  customResource db e = Some resource ->
  scanCustom resource action g (map (populateCustom db) (e :: post))
  = if StaffCustomPermission.isRevoked e then Some false
    else if includes (StaffCustomPermission.allowedActions e) action
         then Some true
         else scanCustom resource action g (map (populateCustom db) post).
Proof.
  unfold customResource. intros Hr.
  cbn [map scanCustom populateCustom
       StaffCustomPermission.p_permissionId
       StaffCustomPermission.p_isRevoked
       StaffCustomPermission.p_allowedActions].
  destruct (permissionsColl db !! StaffCustomPermission.permissionId e)
    as [permission|]; [|done].
  cbn in Hr. inversion Hr as [Heq]. rewrite Heq.
  by rewrite String.eqb_refl.
Qed.

Lemma otherResource_passedOver (cp : StaffCustomPermission.t) :
  otherResource db resource cp -> passedOver db resource action cp.
Proof. intros (r & Hr & Hne). exists r. split; [done|]. by intros ->. Qed.

(** [resolve] on the populated profile, given the result of the role
    loops. *)
Lemma resolve_stored (p : StaffProfile.t) (g : bool) :
  roleGrant (populateProfile db p) resource action = Some g ->
  resolve (populateProfile db p) resource action
  = scanCustom resource action g (map (populateCustom db) (customList p)).
Proof.
  intros Hg. unfold resolve, customList. rewrite Hg.
  cbn [populateProfile StaffProfile.p_customPermissions].
  by destruct (StaffProfile.customPermissions p).
Qed.

End CustomOverrides.

(** C2: with [g] the result of the role loops, scan the stored overrides in
    order.  If the first entry at which the scan stops (every earlier one
    being about another resource, or non-revoked without the action) is
    about the query resource and revoked, [checkPermission] answers 403
    whatever [g] is; if it is about the query resource, not revoked and
    allows the action, the request goes through even when [g] is false;
    and if every entry is about another resource the decision is [g]. *)
Theorem custom_override_decides
    (db : Db) (_id : ObjectId) (p : StaffProfile.t)
    (resource action : string) (g : bool) :
  profilesColl db !! _id = Some p ->
  Resolver.roleGrant (Resolver.populateProfile db p) resource action = Some g ->
  (forall pre e post,
      Spec.customList p = pre ++ e :: post ->
      Forall (Spec.passedOver db resource action) pre ->
      Spec.customResource db e = Some resource ->
      (StaffCustomPermission.isRevoked e = true ->
       Resolver.checkPermission resource action (Some _id) db
       = Respond (Resolver.forbidden resource action))
      /\ (StaffCustomPermission.isRevoked e = false ->
          includes (StaffCustomPermission.allowedActions e) action = true ->
          Resolver.checkPermission resource action (Some _id) db = Next))
  /\ (Forall (Spec.otherResource db resource) (Spec.customList p) ->
      Resolver.checkPermission resource action (Some _id) db
      = Spec.outcomeOf resource action g).
Proof.
  intros Hp Hg. unfold Resolver.checkPermission. rewrite Hp.
  rewrite (resolve_stored db resource action p g Hg). split.
  - intros pre e post Hlist Hpre He. rewrite Hlist.
    rewrite (scanCustom_passedOver db resource action g pre (e :: post) Hpre).
    rewrite (scanCustom_decisive db resource action g e post He).
    split.
    + by intros ->.
    + by intros -> ->.
  - intros Hall.
    rewrite <- (app_nil_r (Spec.customList p)).
    rewrite (scanCustom_passedOver db resource action g _ []).
    + by destruct g.
    + eapply Forall_impl; [exact Hall|].
      intros cp. apply otherResource_passedOver.
Qed.

Lemma custom_override_decides_witness :
  profilesColl Sample.revokedDb !! "profile-1" = Some Sample.revokedProfile
  /\ Resolver.roleGrant
       (Resolver.populateProfile Sample.revokedDb Sample.revokedProfile)
       "staff" "read" = Some true
  /\ Resolver.checkPermission "staff" "read" (Some "profile-1") Sample.revokedDb
     = Respond (Resolver.forbidden "staff" "read").
Proof.
  assert (Hp : profilesColl Sample.revokedDb !! "profile-1"
               = Some Sample.revokedProfile) by reflexivity.
  assert (Hg : Resolver.roleGrant
                 (Resolver.populateProfile Sample.revokedDb Sample.revokedProfile)
                 "staff" "read" = Some true) by reflexivity.
  split; [exact Hp|]. split; [exact Hg|].
  destruct (custom_override_decides Sample.revokedDb "profile-1"
              Sample.revokedProfile "staff" "read" true Hp Hg) as [Hfirst _].
  destruct (Hfirst [] (StaffCustomPermission.mk "perm-staff" [] true) [])
    as [Hdeny _]; [reflexivity | constructor | reflexivity |].
  exact (Hdeny eq_refl).
Defined.

(** The two scenarios of the specification, run on the code. *)
Example staff_read_revoked_by_override :
  Resolver.checkPermission "staff" "read" (Some "profile-1") Sample.revokedDb
  = Respond (Resolver.forbidden "staff" "read").
Proof. reflexivity. Qed.

Example payroll_export_granted_by_override :
  Resolver.roleGrant
    (Resolver.populateProfile Sample.grantedDb Sample.grantedProfile)
    "payroll" "export" = Some false
  /\ Resolver.checkPermission "payroll" "export" (Some "profile-1")
       Sample.grantedDb = Next.
Proof. split; reflexivity. Qed.

(** ** Lockout state machine *)

Section CredentialStore.
Import AuthController.

Lemma findByEmail_Some (email : string) (coll : list UserCredentials.t)
    (i : nat) (c : UserCredentials.t) :
  findByEmail email coll = Some (i, c) ->
  coll !! i = Some c /\ UserCredentials.email c = email.
Proof.
  unfold findByEmail. intros Hfind.
  apply list_find_Some in Hfind as (Hi & He & _). by split.
Qed.

Lemma save_lookup_eq (i : nat) (c : UserCredentials.t) (db : Db) :
  (i < length (credentialsColl db))%nat ->
  credentialsColl (save i c db) !! i = Some c.
Proof. intros Hi. cbn. by apply list_lookup_insert_eq. Qed.

Lemma save_lookup_ne (i j : nat) (c : UserCredentials.t) (db : Db) :
  i <> j -> credentialsColl (save i c db) !! j = credentialsColl db !! j.
Proof. intros Hne. cbn. by apply list_lookup_insert_ne. Qed.

Lemma save_length (i : nat) (c : UserCredentials.t) (db : Db) :
  length (credentialsColl (save i c db)) = length (credentialsColl db).
Proof. cbn. apply length_insert. Qed.

Lemma saveProfile_credentials (_id : ObjectId) (p : StaffProfile.t) (db : Db) :
  credentialsColl (saveProfile _id p db) = credentialsColl db.
Proof. reflexivity. Qed.

(** The second [save] of a handler that saves twice writes what the
    first one wrote. *)
Lemma save_save (i : nat) (c c' : UserCredentials.t) (db : Db) :
  save i c (save i c' db) = save i c db.
Proof.
  unfold save, set_credentialsColl. cbn. by rewrite list_insert_insert_eq.
Qed.


End CredentialStore.

Section Lockout.
Import AuthController.

Variable comparePassword : string -> string -> bool.
Variables generateAccessToken generateRefreshToken
  : Date -> JwtUtils.TokenPayload -> string.

Abbreviation login :=
  (login comparePassword generateAccessToken generateRefreshToken).

(** C3: a login with a wrong password on a credential that is not locked
    (no [accountLockedUntil], or one that is not in the future) adds
    exactly 1 to [failedLoginAttempts]; when the new count is 5 or more
    the credential is locked until 30 minutes after the time of the
    failure; when it is below 5, [accountLockedUntil] is left as it was,
    hence unset if it was unset. *)
Theorem mismatch_while_unlocked_counts_and_locks
    (clk : LoginClock) (email password : string)
    (deviceInfo ip : option string) (db : Db)
    (i : nat) (c : UserCredentials.t) :
  findByEmail email (credentialsColl db) = Some (i, c) ->
  Credential.isAccountLocked c (atLockCheck clk) = false ->
  comparePassword password (UserCredentials.password c) = false ->
  exists c',
    login clk email password deviceInfo ip db
    = (invalidEmailOrPassword, save i c' db)
    /\ credentialsColl (save i c' db) !! i = Some c'
    /\ UserCredentials.failedLoginAttempts c'
       = S (UserCredentials.failedLoginAttempts c)
    /\ ((5 <= UserCredentials.failedLoginAttempts c')%nat ->
        UserCredentials.accountLockedUntil c'
        = Some (atFailure clk + 30 * 60 * 1000))
    /\ ((UserCredentials.failedLoginAttempts c' < 5)%nat ->
        UserCredentials.accountLockedUntil c'
        = UserCredentials.accountLockedUntil c
        /\ (UserCredentials.accountLockedUntil c = None ->
            UserCredentials.accountLockedUntil c' = None)).
Proof.
  intros Hfind Hunlocked Hwrong.
  exists (Credential.incrementFailedAttempts c (atFailure clk)).
  apply findByEmail_Some in Hfind as Hc. destruct Hc as [Hi _].
  split; [|split; [|split; [|split]]].
  - unfold AuthController.login. by rewrite Hfind, Hunlocked, Hwrong.
  - apply save_lookup_eq. by eapply lookup_lt_Some.
  - unfold Credential.incrementFailedAttempts.
    rewrite Nat.add_1_r. by destruct (5 <=? _)%nat.
  - unfold Credential.incrementFailedAttempts.
    destruct (5 <=? _)%nat eqn:Hcmp; [done|].
    apply Nat.leb_gt in Hcmp. cbn. lia.
  - unfold Credential.incrementFailedAttempts.
    destruct (5 <=? _)%nat eqn:Hcmp.
    + apply Nat.leb_le in Hcmp. cbn. lia.
    + cbn. intros _. split; [done|]. by intros ->.
Qed.

(** After a matching password the stored credential has a zero counter
    and no lock, whatever happens next in the handler. *)
Lemma match_resets_lockout
    (clk : LoginClock) (email password : string)
    (deviceInfo ip : option string) (db : Db)
    (i : nat) (c : UserCredentials.t) :
  findByEmail email (credentialsColl db) = Some (i, c) ->
  Credential.isAccountLocked c (atLockCheck clk) = false ->
  comparePassword password (UserCredentials.password c) = true ->
  exists c',
    credentialsColl (login clk email password deviceInfo ip db).2 !! i
    = Some c'
    /\ UserCredentials.failedLoginAttempts c' = 0%nat
    /\ UserCredentials.accountLockedUntil c' = None.
Proof.
  intros Hfind Hunlocked Hright.
  apply findByEmail_Some in Hfind as Hc. destruct Hc as [Hi _].
  apply lookup_lt_Some in Hi.
  unfold AuthController.login. rewrite Hfind, Hunlocked, Hright.
  cbn [negb].
  set (c0 := Credential.resetFailedAttempts c).
  set (db0 := save i c0 db).
  assert (Hc0 : credentialsColl db0 !! i = Some c0)
    by by apply save_lookup_eq.
  destruct (profilesColl db0 !! UserCredentials.staffProfileId c0)
    as [profile|]; [|by exists c0].
  destruct (StaffProfile.isActive profile); [|by exists c0].
  cbn [negb].
  destruct (staffColl db0 !! StaffProfile.staffId profile);
    [|by exists c0].
  eexists. split.
  - cbn [snd]. rewrite saveProfile_credentials.
    apply save_lookup_eq. unfold db0. by rewrite save_length.
  - done.
Qed.

(** With a missing or deactivated profile the login is then rejected. *)
Lemma match_rejected_without_active_profile
    (clk : LoginClock) (email password : string)
    (deviceInfo ip : option string) (db : Db)
    (i : nat) (c : UserCredentials.t) :
  findByEmail email (credentialsColl db) = Some (i, c) ->
  Credential.isAccountLocked c (atLockCheck clk) = false ->
  comparePassword password (UserCredentials.password c) = true ->
  (forall profile,
      profilesColl db !! UserCredentials.staffProfileId c = Some profile ->
      StaffProfile.isActive profile = false) ->
  login clk email password deviceInfo ip db
  = (accountInactive, save i (Credential.resetFailedAttempts c) db).
Proof.
  intros Hfind Hunlocked Hright Hoff.
  unfold AuthController.login. rewrite Hfind, Hunlocked, Hright.
  cbn [negb]. cbn [save set_credentialsColl profilesColl staffColl
                   Credential.resetFailedAttempts
                   UserCredentials.set_lockout
                   UserCredentials.staffProfileId].
  destruct (profilesColl db !! UserCredentials.staffProfileId c)
    as [profile|]; [|done].
  by rewrite (Hoff profile eq_refl).
Qed.

(** C4, as the code has it: while the lock is in the future every login
    is answered 403 whatever the password and the store is left as it
    is; once the lock has elapsed, a login with the correct password
    sets [failedLoginAttempts] to 0 and clears [accountLockedUntil], and
    when the linked profile is missing or deactivated it is then answered
    403 "Account is inactive". *)
Theorem locked_rejects_then_match_resets
    (clk : LoginClock) (email password : string)
    (deviceInfo ip : option string) (db : Db)
    (i : nat) (c : UserCredentials.t) (lockedUntil : Date) :
  findByEmail email (credentialsColl db) = Some (i, c) ->
  UserCredentials.accountLockedUntil c = Some lockedUntil ->
  (atLockCheck clk < lockedUntil ->
   login clk email password deviceInfo ip db = (accountLocked, db))
  /\ (lockedUntil <= atLockCheck clk ->
      comparePassword password (UserCredentials.password c) = true ->
      (exists c',
          credentialsColl (login clk email password deviceInfo ip db).2 !! i
          = Some c'
          /\ UserCredentials.failedLoginAttempts c' = 0%nat
          /\ UserCredentials.accountLockedUntil c' = None)
      /\ ((forall profile,
              profilesColl db !! UserCredentials.staffProfileId c
              = Some profile ->
              StaffProfile.isActive profile = false) ->
          login clk email password deviceInfo ip db
          = (accountInactive, save i (Credential.resetFailedAttempts c) db))).
Proof.
  intros Hfind Hlock. split.
  - intros Hfuture. unfold AuthController.login, Credential.isAccountLocked.
    rewrite Hfind, Hlock.
    by destruct (Z.ltb_spec (atLockCheck clk) lockedUntil); [|lia].
  - intros Hpast Hright.
    assert (Hunlocked : Credential.isAccountLocked c (atLockCheck clk) = false).
    { unfold Credential.isAccountLocked. rewrite Hlock.
      by destruct (Z.ltb_spec (atLockCheck clk) lockedUntil); [lia|]. }
    split.
    + by eapply match_resets_lockout.
    + intros Hoff. by apply match_rejected_without_active_profile.
Qed.

End Lockout.

Lemma mismatch_while_unlocked_counts_and_locks_witness :
  exists c',
    Sample.login (Sample.clock 100) "alice@x.com" "wrong" None None
      (Sample.authDb (Sample.alice 4 None [] []) true)
    = (AuthController.invalidEmailOrPassword,
       AuthController.save 0 c' (Sample.authDb (Sample.alice 4 None [] []) true))
    /\ UserCredentials.failedLoginAttempts c' = 5%nat
    /\ UserCredentials.accountLockedUntil c' = Some 1800100.
Proof.
  destruct (mismatch_while_unlocked_counts_and_locks
              Sample.compare Sample.signAccess Sample.signRefresh
              (Sample.clock 100) "alice@x.com" "wrong" None None
              (Sample.authDb (Sample.alice 4 None [] []) true)
              0%nat (Sample.alice 4 None [] []))
    as (c' & Hlogin & _ & Hcount & Hlock & _);
    [reflexivity | reflexivity | reflexivity |].
  exists c'. split; [exact Hlogin|]. split; [exact Hcount|].
  apply Hlock. rewrite Hcount. cbn. lia.
Defined.

Lemma locked_rejects_then_match_resets_witness :
  AuthController.findByEmail "alice@x.com"
    (credentialsColl Sample.deactivatedDb)
  = Some (0%nat, Sample.lapsed)
  /\ UserCredentials.accountLockedUntil Sample.lapsed = Some 50
  /\ Sample.login (Sample.clock 40) "alice@x.com" "Secret#123" None None
       Sample.deactivatedDb
     = (AuthController.accountLocked, Sample.deactivatedDb)
  /\ (exists c',
        credentialsColl
          (Sample.login (Sample.clock 100) "alice@x.com" "Secret#123" None None
             Sample.deactivatedDb).2 !! 0%nat = Some c'
        /\ UserCredentials.failedLoginAttempts c' = 0%nat
        /\ UserCredentials.accountLockedUntil c' = None)
  /\ Sample.login (Sample.clock 100) "alice@x.com" "Secret#123" None None
       Sample.deactivatedDb
     = (AuthController.accountInactive,
        AuthController.save 0
          (Credential.resetFailedAttempts Sample.lapsed) Sample.deactivatedDb).
Proof.
  assert (Hfind : AuthController.findByEmail "alice@x.com"
                    (credentialsColl Sample.deactivatedDb)
                  = Some (0%nat, Sample.lapsed)) by reflexivity.
  assert (Hlock : UserCredentials.accountLockedUntil Sample.lapsed = Some 50)
    by reflexivity.
  split; [exact Hfind|]. split; [exact Hlock|].
  split.
  - destruct (locked_rejects_then_match_resets
                Sample.compare Sample.signAccess Sample.signRefresh
                (Sample.clock 40) "alice@x.com" "Secret#123" None None
                Sample.deactivatedDb 0%nat Sample.lapsed 50
                Hfind Hlock) as [Hlocked _].
    apply Hlocked. cbn. lia.
  - destruct (locked_rejects_then_match_resets
                Sample.compare Sample.signAccess Sample.signRefresh
                (Sample.clock 100) "alice@x.com" "Secret#123" None None
                Sample.deactivatedDb 0%nat Sample.lapsed 50
                Hfind Hlock) as [_ Helapsed].
    destruct Helapsed as [Hreset Hinactive]; [cbn; lia | reflexivity |].
    split; [exact Hreset|]. apply Hinactive.
    intros profile Hprofile. vm_compute in Hprofile.
    by inversion Hprofile.
Defined.

(** C4, counterexample: the lock has elapsed and the password is right,
    but the profile is deactivated; the login is answered 403. *)
Lemma match_after_lock_rejected_for_inactive_profile :
  AuthController.findByEmail "alice@x.com"
    (credentialsColl Sample.deactivatedDb) = Some (0%nat, Sample.lapsed)
  /\ UserCredentials.accountLockedUntil Sample.lapsed = Some 50
  /\ 50 <= AuthController.atLockCheck (Sample.clock 100)
  /\ Sample.compare "Secret#123" (UserCredentials.password Sample.lapsed) = true
  /\ (Sample.login (Sample.clock 100) "alice@x.com" "Secret#123" None None
        Sample.deactivatedDb).1 = AuthController.accountInactive
  /\ status (Sample.login (Sample.clock 100) "alice@x.com" "Secret#123" None
               None Sample.deactivatedDb).1 <> 200%nat.
Proof. repeat split; try reflexivity; try (cbn; lia). by vm_compute. Qed.

(** ** The failure counter across requests *)

Section Counters.
Import AuthController Spec.

Variable comparePassword : string -> string -> bool.
Variable hashPassword : string -> string -> string.
Variables generateAccessToken generateRefreshToken
  : Date -> JwtUtils.TokenPayload -> string.
Variable verifiedRefreshPayload : string -> option JwtUtils.DecodedToken.
Variable hashResetToken : string -> string.
Variable refreshErrorMessage : Date -> string -> string.

Abbreviation login :=
  (login comparePassword generateAccessToken generateRefreshToken).
Abbreviation serve :=
  (AuthEndpoints.serve comparePassword hashPassword generateAccessToken
     generateRefreshToken verifiedRefreshPayload refreshErrorMessage
     hashResetToken).

Lemma counters_save (i : nat) (c : UserCredentials.t) (db : Db) :
  counters (save i c db)
  = <[i := UserCredentials.failedLoginAttempts c]> (counters db).
Proof. unfold counters. cbn. apply list_fmap_insert. Qed.

(** Saving a document whose counter is the stored one keeps the
    counters. *)
Lemma counters_save_same (i : nat) (c c' : UserCredentials.t) (db : Db) :
  credentialsColl db !! i = Some c ->
  UserCredentials.failedLoginAttempts c'
  = UserCredentials.failedLoginAttempts c ->
  counters (save i c' db) = counters db.
Proof.
  intros Hi Heq. rewrite counters_save, Heq.
  apply list_insert_id. unfold counters.
  by rewrite list_lookup_fmap, Hi.
Qed.

Lemma counters_saveProfile (_id : ObjectId) (p : StaffProfile.t) (db : Db) :
  counters (saveProfile _id p db) = counters db.
Proof. reflexivity. Qed.

Lemma findByResetToken_Some (hashed : string) (now : Date)
    (coll : list UserCredentials.t) (i : nat) (c : UserCredentials.t) :
  findByResetToken hashed now coll = Some (i, c) ->
  coll !! i = Some c /\ matchesResetQuery hashed now c = true.
Proof.
  unfold findByResetToken. intros Hfind.
  apply list_find_Some in Hfind as (Hi & Hm & _). by split.
Qed.

Lemma markUsed_counter (hashed : string) (c : UserCredentials.t) :
  UserCredentials.failedLoginAttempts (markUsed hashed c)
  = UserCredentials.failedLoginAttempts c.
Proof. unfold markUsed. by destruct (list_find _ _) as [[? ?]|]. Qed.

(** What one login does to the counters. *)
Lemma login_counters (clk : LoginClock) (email password : string)
    (deviceInfo ip : option string) (db : Db) :
  counters (login clk email password deviceInfo ip db).2 = counters db
  \/ exists i c,
      findByEmail email (credentialsColl db) = Some (i, c)
      /\ Credential.isAccountLocked c (atLockCheck clk) = false
      /\ ((comparePassword password (UserCredentials.password c) = false
           /\ counters (login clk email password deviceInfo ip db).2
              = <[i := S (UserCredentials.failedLoginAttempts c)]> (counters db))
          \/ (comparePassword password (UserCredentials.password c) = true
              /\ counters (login clk email password deviceInfo ip db).2
                 = <[i := 0%nat]> (counters db))).
Proof.
  unfold AuthController.login.
  destruct (findByEmail email (credentialsColl db)) as [[i c]|] eqn:Hfind;
    [|by left].
  destruct (Credential.isAccountLocked c (atLockCheck clk)) eqn:Hunlocked;
    [by left|].
  right. exists i, c. split; [done|]. split; [done|].
  destruct (comparePassword password (UserCredentials.password c)).
  - right. split; [done|]. cbn [negb].
    set (c0 := Credential.resetFailedAttempts c).
    destruct (profilesColl (save i c0 db) !! UserCredentials.staffProfileId c0)
      as [profile|]; [|cbn [snd]; by rewrite counters_save].
    destruct (StaffProfile.isActive profile);
      [|cbn [negb snd]; by rewrite counters_save].
    cbn [negb].
    destruct (staffColl (save i c0 db) !! StaffProfile.staffId profile);
      [|cbn [snd]; by rewrite counters_save].
    cbn [snd]. rewrite counters_saveProfile, !counters_save.
    by rewrite list_insert_insert_eq.
  - left. split; [done|]. cbn [negb snd]. rewrite counters_save.
    unfold Credential.incrementFailedAttempts.
    rewrite Nat.add_1_r. by destruct (5 <=? _)%nat.
Qed.

(** The other handlers leave every counter as it is. *)
Lemma logout_counters (now : Date) (refreshToken : option string) (db : Db) :
  counters (logout verifiedRefreshPayload now refreshToken db).2 = counters db.
Proof.
  unfold logout. destruct refreshToken as [token|]; [|done].
  destruct (falsy (Some token)); [done|].
  destruct (JwtUtils.verifyRefreshToken _ now token) as [decoded|]; [|done].
  destruct (findByEmail _ _) as [[i c]|] eqn:Hfind; [|done].
  apply findByEmail_Some in Hfind as [Hi _].
  by apply (counters_save_same i c).
Qed.

Lemma changePassword_counters (changed last : Date) (salt : string)
    (user : option JwtUtils.DecodedToken)
    (currentPassword newPassword : string) (db : Db) :
  counters (changePassword comparePassword hashPassword changed last salt
              user currentPassword newPassword db).2 = counters db.
Proof.
  unfold changePassword. destruct user as [user|]; [|done].
  destruct (PasswordUtils.isValid _); [|done]. cbn [negb].
  destruct (findByEmail _ _) as [[i c]|] eqn:Hfind; [|done].
  apply findByEmail_Some in Hfind as [Hi _].
  destruct (comparePassword _ _); [|done]. cbn [negb snd].
  rewrite save_save. by apply (counters_save_same i c).
Qed.

Lemma forgotPassword_counters (atReset created : Date)
    (token email : string) (db : Db) :
  counters (forgotPassword hashResetToken atReset created token email db).2
  = counters db.
Proof.
  unfold forgotPassword.
  destruct (findByEmail _ _) as [[i c]|] eqn:Hfind; [|done].
  apply findByEmail_Some in Hfind as [Hi _].
  by apply (counters_save_same i c).
Qed.

Lemma resetPassword_counters (atQuery changed last : Date) (salt : string)
    (token newPassword : string) (db : Db) :
  counters (resetPassword hashPassword hashResetToken atQuery changed last
              salt token newPassword db).2 = counters db.
Proof.
  unfold resetPassword.
  destruct (PasswordUtils.isValid _); [|done]. cbn [negb].
  destruct (findByResetToken _ _ _) as [[i c]|] eqn:Hfind; [|done].
  apply findByResetToken_Some in Hfind as [Hi _]. cbn [snd].
  rewrite save_save.
  apply (counters_save_same i c); [done|].
  cbn. by rewrite markUsed_counter.
Qed.

Lemma logoutAll_counters (user : option JwtUtils.DecodedToken) (db : Db) :
  counters (AuthEndpoints.logoutAll user db).2 = counters db.
Proof.
  unfold AuthEndpoints.logoutAll. destruct user as [user|]; [|done].
  destruct (findByEmail _ _) as [[i c]|] eqn:Hfind; [|done].
  apply findByEmail_Some in Hfind as [Hi _].
  by apply (counters_save_same i c).
Qed.

Lemma verifyEmail_counters (now : Date) (token : string) (db : Db) :
  counters (AuthEndpoints.verifyEmail now token db).2 = counters db.
Proof.
  unfold AuthEndpoints.verifyEmail.
  destruct (AuthEndpoints.findByVerificationToken _ _ _) as [[i c]|] eqn:Hfind;
    [|done].
  apply list_find_Some in Hfind as (Hi & _ & _).
  by apply (counters_save_same i c).
Qed.

(** C10: when the lock of a credential has elapsed and its counter is
    still 5 or more, one login with a wrong password locks it again until
    30 minutes after that failure, the counter going up by one; and
    whatever the request to whichever endpoint that writes a credential
    (login, logout, logout-all, change-password, forgot-password,
    reset-password, verify-email; refresh writes nothing), a counter that
    goes from a non-zero value to 0 does so in a login whose password
    matched that credential. *)
Theorem lock_expiry_keeps_counter :
  (forall (clk : LoginClock) (email password : string)
          (deviceInfo ip : option string) (db : Db)
          (i : nat) (c : UserCredentials.t) (lockedUntil : Date),
      findByEmail email (credentialsColl db) = Some (i, c) ->
      UserCredentials.accountLockedUntil c = Some lockedUntil ->
      lockedUntil <= atLockCheck clk ->
      (5 <= UserCredentials.failedLoginAttempts c)%nat ->
      comparePassword password (UserCredentials.password c) = false ->
      exists c',
        login clk email password deviceInfo ip db
        = (invalidEmailOrPassword, save i c' db)
        /\ credentialsColl (save i c' db) !! i = Some c'
        /\ UserCredentials.accountLockedUntil c'
           = Some (atFailure clk + 30 * 60 * 1000)
        /\ UserCredentials.failedLoginAttempts c'
           = S (UserCredentials.failedLoginAttempts c))
  /\ (forall (e : AuthEndpoints.Endpoint) (db : Db) (j n : nat),
        counters db !! j = Some n ->
        n <> 0%nat ->
        counters (serve e db).2 !! j = Some 0%nat ->
        exists clk email password deviceInfo ip c,
          e = AuthEndpoints.Session (Login clk email password deviceInfo ip)
          /\ findByEmail email (credentialsColl db) = Some (j, c)
          /\ Credential.isAccountLocked c (atLockCheck clk) = false
          /\ comparePassword password (UserCredentials.password c) = true).
Proof.
  split.
  - intros clk email password deviceInfo ip db i c lockedUntil
           Hfind Hlock Hpast Hcount Hwrong.
    exists (Credential.incrementFailedAttempts c (atFailure clk)).
    apply findByEmail_Some in Hfind as Hc. destruct Hc as [Hi _].
    assert (Hunlocked : Credential.isAccountLocked c (atLockCheck clk) = false).
    { unfold Credential.isAccountLocked. rewrite Hlock.
      by destruct (Z.ltb_spec (atLockCheck clk) lockedUntil); [lia|]. }
    assert (Hfive : (5 <=? UserCredentials.failedLoginAttempts c + 1)%nat = true)
      by (apply Nat.leb_le; lia).
    split; [|split; [|split]].
    + unfold AuthController.login. by rewrite Hfind, Hunlocked, Hwrong.
    + apply save_lookup_eq. by eapply lookup_lt_Some.
    + unfold Credential.incrementFailedAttempts. by rewrite Hfive.
    + unfold Credential.incrementFailedAttempts. rewrite Hfive. cbn. lia.
  - intros e db j n Hbefore Hnz Hafter.
    destruct e as [[clk email password deviceInfo ip | now refreshToken
                   | changed last salt user currentPassword newPassword
                   | atReset created token email
                   | atQuery changed last salt token newPassword]
                  | atVerify nowAt atSign presented
                  | user
                  | now token];
      cbn [AuthEndpoints.serve AuthController.handle snd] in Hafter.
    + destruct (login_counters clk email password deviceInfo ip db)
        as [Hsame | (i & c & Hfind & Hunlocked
                     & [[Hwrong Hc] | [Hright Hc]])];
        rewrite ?Hsame, ?Hc in Hafter.
      * congruence.
      * destruct (decide (i = j)) as [-> | Hne].
        -- rewrite list_lookup_insert_eq in Hafter
             by by eapply lookup_lt_Some.
           discriminate.
        -- rewrite list_lookup_insert_ne in Hafter by done. congruence.
      * destruct (decide (i = j)) as [-> | Hne].
        -- by exists clk, email, password, deviceInfo, ip, c.
        -- rewrite list_lookup_insert_ne in Hafter by done. congruence.
    + rewrite logout_counters in Hafter. congruence.
    + rewrite changePassword_counters in Hafter. congruence.
    + rewrite forgotPassword_counters in Hafter. congruence.
    + rewrite resetPassword_counters in Hafter. congruence.
    + congruence.
    + rewrite logoutAll_counters in Hafter. congruence.
    + rewrite verifyEmail_counters in Hafter. congruence.
Qed.

End Counters.

Lemma lock_expiry_keeps_counter_witness :
  (exists c',
      Sample.login (Sample.clock 100) "alice@x.com" "wrong" None None
        (Sample.authDb Sample.lapsed true)
      = (AuthController.invalidEmailOrPassword,
         AuthController.save 0 c' (Sample.authDb Sample.lapsed true))
      /\ UserCredentials.accountLockedUntil c' = Some 1800100
      /\ UserCredentials.failedLoginAttempts c' = 6%nat)
  /\ (exists clk email password deviceInfo ip c,
        Fixture.rightLogin
        = AuthEndpoints.Session
            (AuthController.Login clk email password deviceInfo ip)
        /\ AuthController.findByEmail email
             (credentialsColl (Sample.authDb Sample.lapsed true))
           = Some (0%nat, c)
        /\ Credential.isAccountLocked c (AuthController.atLockCheck clk)
           = false
        /\ Sample.compare password (UserCredentials.password c) = true).
Proof.
  destruct (lock_expiry_keeps_counter Sample.compare Sample.hash
              Sample.signAccess Sample.signRefresh Sample.verified
              Sample.digest Fixture.refreshError) as [Hrelock Honly].
  split.
  - destruct (Hrelock (Sample.clock 100) "alice@x.com" "wrong" None None
                (Sample.authDb Sample.lapsed true) 0%nat Sample.lapsed 50)
      as (c' & Hlogin & _ & Hlock & Hcount);
      [reflexivity | reflexivity | cbn; lia | cbn; lia | reflexivity |].
    exists c'. split; [exact Hlogin|]. split; [exact Hlock | exact Hcount].
  - apply (Honly Fixture.rightLogin (Sample.authDb Sample.lapsed true)
             0%nat 5%nat); [reflexivity | discriminate | reflexivity].
Defined.

(** ** Refresh-token ring *)

Section Ring.
Import Credential Spec.

Lemma dropExpired_from (nowAt : nat -> Date) (k : nat)
    (l : list RefreshToken.t) :
  dropExpired nowAt k l
  = snd <$> filter (fun kr => nowAt kr.1 < RefreshToken.expiresAt kr.2)
                   (imap (fun j => pair (k + j)%nat) l).
Proof.
  revert k. induction l as [|rt rest IH]; intros k; [done|].
  cbn [dropExpired]. rewrite imap_cons, filter_cons.
  cbn [fst snd]. rewrite Nat.add_0_r.
  rewrite (imap_ext _ (fun j => pair (S k + j)%nat))
    by (intros j x _; cbn; f_equal; lia).
  rewrite IH.
  destruct (Z.ltb_spec (nowAt k) (RefreshToken.expiresAt rt));
    destruct (decide (nowAt k < RefreshToken.expiresAt rt)); try lia; done.
Qed.

(** The filter of [addRefreshToken] keeps exactly the unexpired records. *)
Lemma dropExpired_unexpired (nowAt : nat -> Date) (l : list RefreshToken.t) :
  dropExpired nowAt 0 l = unexpired nowAt l.
Proof. apply dropExpired_from. Qed.

(** When the whole filter runs at one instant it is the plain filter. *)
Lemma dropExpired_at_instant (now : Date) (k : nat) (l : list RefreshToken.t) :
  dropExpired (fun _ => now) k l
  = List.filter (fun rt => now <? RefreshToken.expiresAt rt) l.
Proof.
  revert k. induction l as [|rt rest IH]; intros k; [done|].
  cbn. by rewrite IH.
Qed.

(** Every record that is kept expires after the call started, provided
    the clock does not run backwards. *)
Lemma dropExpired_kept_live (nowAt : nat -> Date) (k : nat)
    (l : list RefreshToken.t) (rt : RefreshToken.t) :
  (forall a b, (a <= b)%nat -> nowAt a <= nowAt b) ->
  rt ∈ dropExpired nowAt k l -> nowAt k < RefreshToken.expiresAt rt.
Proof.
  intros Hmono. revert k. induction l as [|x rest IH]; intros k Hin.
  - by apply elem_of_nil in Hin.
  - cbn [dropExpired] in Hin.
    assert (Hrest : rt ∈ dropExpired nowAt (S k) rest ->
                    nowAt k < RefreshToken.expiresAt rt).
    { intros Hin'. apply IH in Hin'.
      specialize (Hmono k (S k)). lia. }
    destruct (Z.ltb_spec (nowAt k) (RefreshToken.expiresAt x)); [|auto].
    apply elem_of_cons in Hin as [-> | Hin]; auto.
Qed.

Lemma length_dropExpired (nowAt : nat -> Date) (k : nat)
    (l : list RefreshToken.t) :
  (length (dropExpired nowAt k l) <= length l)%nat.
Proof.
  revert k. induction l as [|x rest IH]; intros k; [done|].
  cbn [dropExpired]. specialize (IH (S k)).
  destruct (nowAt k <? RefreshToken.expiresAt x); cbn; lia.
Qed.

(** On at most five records, [>= 5] is [= 5]. *)
Lemma limitDevices_evict (l : list RefreshToken.t) :
  (length l <= 5)%nat -> limitDevices l = evictOldestOfFive l.
Proof.
  intros Hlen. unfold limitDevices, evictOldestOfFive.
  destruct (Nat.leb_spec 5 (length l)); destruct (decide (length l = 5%nat));
    (done || lia).
Qed.

Lemma length_limitDevices (l : list RefreshToken.t) :
  (length (limitDevices l) <= Nat.max 4 (length l - 1))%nat
  /\ (length (limitDevices l) <= length l)%nat.
Proof.
  unfold limitDevices. destruct (Nat.leb_spec 5 (length l)).
  - destruct l; cbn in *; lia.
  - lia.
Qed.

(** An addition never takes the ring above five records, nor above its
    previous size when that was already more. *)
Lemma addRefreshToken_size (this : UserCredentials.t) (token : string)
    (expiresAt : Date) (deviceInfo ipAddress : option string)
    (nowAt : nat -> Date) (created : Date) :
  (ringSize (addRefreshToken this token expiresAt deviceInfo ipAddress
               nowAt created)
   <= Nat.max 5 (ringSize this))%nat.
Proof.
  unfold ringSize, addRefreshToken. cbn. rewrite length_app. cbn.
  pose proof (length_dropExpired nowAt 0 (UserCredentials.refreshTokens this)).
  pose proof (length_limitDevices
                (dropExpired nowAt 0 (UserCredentials.refreshTokens this))).
  lia.
Qed.

Lemma removeRefreshToken_size (this : UserCredentials.t) (token : string) :
  (ringSize (removeRefreshToken this token) <= ringSize this)%nat.
Proof.
  unfold ringSize, removeRefreshToken. cbn.
  induction (UserCredentials.refreshTokens this) as [|rt rest IH]; [done|].
  cbn. destruct (negb _); cbn; lia.
Qed.

Lemma applyOp_size (this : UserCredentials.t) (op : ringOp) :
  (ringSize this <= 5)%nat -> (ringSize (applyOp this op) <= 5)%nat.
Proof.
  intros Hsize.
  destruct op as [token expiresAt deviceInfo ipAddress nowAt created
                 | token |]; cbn [applyOp].
  - pose proof (addRefreshToken_size this token expiresAt deviceInfo
                  ipAddress nowAt created). lia.
  - pose proof (removeRefreshToken_size this token). lia.
  - unfold ringSize. cbn. lia.
Qed.

Lemma applyOps_size (ops : list ringOp) (this : UserCredentials.t) :
  (ringSize this <= 5)%nat -> (ringSize (applyOps this ops) <= 5)%nat.
Proof.
  revert this. induction ops as [|op ops IH]; intros this Hsize; [done|].
  cbn [applyOps fold_left]. apply IH. by apply applyOp_size.
Qed.

(** C5: on a ring of at most 5 records, [addRefreshToken] keeps the
    records that have not expired when they are inspected (so, the clock
    not running backwards, none that had expired when the call started),
    then drops the first of them if exactly 5 are left, then appends the
    new record; and after any sequence of [addRefreshToken],
    [removeRefreshToken] and [removeAllRefreshTokens] the ring holds at
    most 5 records. *)
Theorem addRefreshToken_prunes_evicts_appends
    (this : UserCredentials.t) (token : string) (expiresAt : Date)
    (deviceInfo ipAddress : option string)
    (nowAt : nat -> Date) (created : Date) :
  (ringSize this <= 5)%nat ->
  UserCredentials.refreshTokens
    (addRefreshToken this token expiresAt deviceInfo ipAddress nowAt created)
  = evictOldestOfFive (unexpired nowAt (UserCredentials.refreshTokens this))
    ++ [RefreshToken.mk token expiresAt created deviceInfo ipAddress]
  /\ ((forall a b, (a <= b)%nat -> nowAt a <= nowAt b) ->
      forall rt, RefreshToken.expiresAt rt <= nowAt 0%nat ->
                 rt ∉ unexpired nowAt (UserCredentials.refreshTokens this))
  /\ (forall ops, (ringSize (applyOps this ops) <= 5)%nat).
Proof.
  intros Hsize. split; [|split].
  - unfold addRefreshToken. cbn [UserCredentials.set_refreshTokens
                                 UserCredentials.refreshTokens].
    rewrite limitDevices_evict, dropExpired_unexpired; [done|].
    pose proof (length_dropExpired nowAt 0 (UserCredentials.refreshTokens this)).
    unfold ringSize in Hsize. lia.
  - intros Hmono rt Hpast Hin. rewrite <- dropExpired_unexpired in Hin.
    apply dropExpired_kept_live in Hin; [lia | done].
  - intros ops. by apply applyOps_size.
Qed.

End Ring.

Lemma addRefreshToken_prunes_evicts_appends_witness :
  UserCredentials.refreshTokens
    (Credential.addRefreshToken (Sample.alice 0 None Sample.fullRing [])
       "s6" 990 None None (fun _ => 100) 100)
  = [Sample.session "s2" 900; Sample.session "s3" 900; Sample.session "s4" 900;
     Sample.session "s5" 900; RefreshToken.mk "s6" 990 100 None None].
Proof.
  destruct (addRefreshToken_prunes_evicts_appends
              (Sample.alice 0 None Sample.fullRing [])
              "s6" 990 None None (fun _ => 100) 100) as [Hadd _].
  - cbn. lia.
  - exact Hadd.
Defined.

(** A ring with an expired record: pruning frees the slot, nothing live is
    evicted. *)
Example add_to_stale_ring :
  UserCredentials.refreshTokens
    (Credential.addRefreshToken (Sample.alice 0 None Sample.staleRing [])
       "s6" 990 None None (fun _ => 100) 100)
  = [Sample.session "s1" 900; Sample.session "s3" 900; Sample.session "s4" 900;
     Sample.session "s5" 900; RefreshToken.mk "s6" 990 100 None None].
Proof. reflexivity. Qed.

(** ** Password change and reset *)

Section PasswordOperations.
Import AuthController.

Variable comparePassword : string -> string -> bool.
Variable hashPassword : string -> string -> string.
Variable hashResetToken : string -> string.

Abbreviation changePassword := (changePassword comparePassword hashPassword).
Abbreviation resetPassword := (resetPassword hashPassword hashResetToken).

Lemma markUsed_refreshTokens (hashed : string) (c : UserCredentials.t) :
  UserCredentials.refreshTokens (markUsed hashed c)
  = UserCredentials.refreshTokens c
  /\ UserCredentials.email (markUsed hashed c) = UserCredentials.email c.
Proof. unfold markUsed. by destruct (list_find _ _) as [[? ?]|]. Qed.

(** C7: a [changePassword] and a [resetPassword] that answer 200 each
    leave the credential they acted on stored with an empty refresh-token
    list, whatever the list held before; and each of them does answer 200,
    storing the new password hash with the empty list, as soon as the new
    password passes the strength check and, for the change, the user is
    authenticated, has a credential and gives its current password, for
    the reset, the token finds a credential. *)
Theorem password_change_and_reset_clear_ring :
  (forall (changed last : Date) (salt : string)
          (user : option JwtUtils.DecodedToken)
          (currentPassword newPassword : string) (db : Db),
      status (changePassword changed last salt user currentPassword
                newPassword db).1 = 200%nat ->
      exists u i c c',
        user = Some u
        /\ findByEmail (JwtUtils.d_email u) (credentialsColl db) = Some (i, c)
        /\ credentialsColl (changePassword changed last salt user
                              currentPassword newPassword db).2 !! i = Some c'
        /\ UserCredentials.email c' = UserCredentials.email c
        /\ UserCredentials.refreshTokens c' = [])
  /\ (forall (atQuery changed last : Date) (salt token newPassword : string)
             (db : Db),
        status (resetPassword atQuery changed last salt token newPassword
                  db).1 = 200%nat ->
        exists i c c',
          findByResetToken (hashResetToken token) atQuery (credentialsColl db)
          = Some (i, c)
          /\ credentialsColl (resetPassword atQuery changed last salt token
                                newPassword db).2 !! i = Some c'
          /\ UserCredentials.email c' = UserCredentials.email c
          /\ UserCredentials.refreshTokens c' = [])
  /\ (forall (changed last : Date) (salt : string)
             (u : JwtUtils.DecodedToken)
             (currentPassword newPassword : string) (db : Db)
             (i : nat) (c : UserCredentials.t),
        PasswordUtils.isValid
          (PasswordUtils.validatePasswordStrength newPassword) = true ->
        findByEmail (JwtUtils.d_email u) (credentialsColl db) = Some (i, c) ->
        comparePassword currentPassword (UserCredentials.password c) = true ->
        exists c',
          changePassword changed last salt (Some u) currentPassword
            newPassword db
          = (passwordChanged, save i c' db)
          /\ credentialsColl (save i c' db) !! i = Some c'
          /\ UserCredentials.password c' = hashPassword newPassword salt
          /\ UserCredentials.refreshTokens c' = [])
  /\ (forall (atQuery changed last : Date) (salt token newPassword : string)
             (db : Db) (i : nat) (c : UserCredentials.t),
        PasswordUtils.isValid
          (PasswordUtils.validatePasswordStrength newPassword) = true ->
        findByResetToken (hashResetToken token) atQuery (credentialsColl db)
        = Some (i, c) ->
        exists c',
          resetPassword atQuery changed last salt token newPassword db
          = (passwordResetSuccessful, save i c' db)
          /\ credentialsColl (save i c' db) !! i = Some c'
          /\ UserCredentials.password c' = hashPassword newPassword salt
          /\ UserCredentials.refreshTokens c' = []).
Proof.
  split; [|split; [|split]].
  - intros changed last salt user currentPassword newPassword db.
    unfold AuthController.changePassword.
    destruct user as [u|]; [|cbn; lia].
    destruct (PasswordUtils.isValid _); [|cbn; lia]. cbn [negb].
    destruct (findByEmail _ _) as [[i c]|] eqn:Hfind; [|cbn; lia].
    destruct (comparePassword _ _); [|cbn; lia]. cbn [negb fst snd].
    intros _. apply findByEmail_Some in Hfind as Hc. destruct Hc as [Hi _].
    eexists u, i, c, _. split; [done|]. split; [done|]. split.
    + rewrite save_save. apply save_lookup_eq. by eapply lookup_lt_Some.
    + done.
  - intros atQuery changed last salt token newPassword db.
    unfold AuthController.resetPassword.
    destruct (PasswordUtils.isValid _); [|cbn; lia]. cbn [negb].
    destruct (findByResetToken _ _ _) as [[i c]|] eqn:Hfind; [|cbn; lia].
    cbn [fst snd]. intros _.
    apply findByResetToken_Some in Hfind as Hc. destruct Hc as [Hi _].
    eexists i, c, _. split; [done|]. split; [|split].
    + rewrite save_save. apply save_lookup_eq. by eapply lookup_lt_Some.
    + cbn. by rewrite (proj2 (markUsed_refreshTokens _ _)).
    + done.
  - intros changed last salt u currentPassword newPassword db i c
           Hvalid Hfind Hright.
    apply findByEmail_Some in Hfind as Hc. destruct Hc as [Hi _].
    eexists. split; [|split; [|split]].
    + unfold AuthController.changePassword.
      rewrite Hvalid, Hfind, Hright. cbn [negb]. by rewrite save_save.
    + apply save_lookup_eq. by eapply lookup_lt_Some.
    + done.
    + done.
  - intros atQuery changed last salt token newPassword db i c Hvalid Hfind.
    apply findByResetToken_Some in Hfind as Hc. destruct Hc as [Hi _].
    eexists. split; [|split; [|split]].
    + unfold AuthController.resetPassword.
      rewrite Hvalid, Hfind. cbn [negb]. by rewrite save_save.
    + apply save_lookup_eq. by eapply lookup_lt_Some.
    + cbn. unfold markUsed. by destruct (list_find _ _) as [[? ?]|].
    + done.
Qed.

End PasswordOperations.

Lemma password_change_and_reset_clear_ring_witness :
  UserCredentials.refreshTokens Sample.loggedIn = Sample.fullRing
  /\ (exists c',
        Sample.changePassword 100 100 "salt" (Some Sample.aliceToken)
          "Secret#123" "N3w!Secret" (Sample.authDb Sample.loggedIn true)
        = (AuthController.passwordChanged,
           AuthController.save 0 c' (Sample.authDb Sample.loggedIn true))
        /\ UserCredentials.refreshTokens c' = [])
  /\ (exists c',
        Sample.resetPassword 100 100 100 "salt" "tokenA" "Str0ng!pw"
          (Sample.pendingDb Sample.digest)
        = (AuthController.passwordResetSuccessful,
           AuthController.save 0 c' (Sample.pendingDb Sample.digest))
        /\ UserCredentials.password c' = Sample.hash "Str0ng!pw" "salt"
        /\ UserCredentials.refreshTokens c' = []).
Proof.
  split; [reflexivity|].
  destruct (password_change_and_reset_clear_ring Sample.compare Sample.hash
              Sample.digest) as (_ & _ & Hchange & Hreset).
  split.
  - destruct (Hchange 100 100 "salt" Sample.aliceToken
                "Secret#123" "N3w!Secret" (Sample.authDb Sample.loggedIn true)
                0%nat Sample.loggedIn)
      as (c' & Hdone & _ & _ & Hempty);
      [reflexivity | reflexivity | reflexivity |].
    exists c'. split; [exact Hdone | exact Hempty].
  - destruct (Hreset 100 100 100 "salt" "tokenA" "Str0ng!pw"
                (Sample.pendingDb Sample.digest) 0%nat
                (Sample.alice 0 None Sample.fullRing
                   (Sample.twoRequests Sample.digest)))
      as (c' & Hdone & _ & Hpassword & Hempty);
      [reflexivity | reflexivity |].
    exists c'. split; [exact Hdone|]. split; [exact Hpassword | exact Hempty].
Defined.

(** The same on a reset: the five sessions are gone. *)
Example reset_clears_sessions :
  UserCredentials.refreshTokens
    <$> credentialsColl
          (Sample.resetPassword 100 100 100 "salt" "tokenA" "Str0ng!pw"
             (Sample.pendingDb Sample.digest)).2
  = [[]].
Proof. reflexivity. Qed.

(** ** Logout *)

Section Logout.
Import AuthController.

Variable verifiedRefreshPayload : string -> option JwtUtils.DecodedToken.

Abbreviation logout := (logout verifiedRefreshPayload).
Abbreviation verifyRefreshToken :=
  (JwtUtils.verifyRefreshToken verifiedRefreshPayload).


Lemma filter_all {A : Type} (f : A -> bool) (l : list A) :
  (forall x, x ∈ l -> f x = true) -> List.filter f l = l.
Proof.
  induction l as [|x l IH]; intros Hall; [done|].
  cbn. rewrite (Hall x) by by left.
  rewrite IH; [done|]. intros y Hy. apply Hall. by right.
Qed.




(** A saved document with the same email is found at the same place. *)
Lemma findByEmail_save (email : string) (db : Db) (i : nat)
    (c c' : UserCredentials.t) :
  findByEmail email (credentialsColl db) = Some (i, c) ->
  UserCredentials.email c' = UserCredentials.email c ->
  findByEmail email (credentialsColl (save i c' db)) = Some (i, c').
Proof.
  unfold findByEmail. intros Hfind Hemail.
  apply list_find_Some in Hfind as (Hi & He & Hfirst).
  apply list_find_Some. split; [|split].
  - apply save_lookup_eq. by eapply lookup_lt_Some.
  - congruence.
  - intros j y Hj Hlt. rewrite save_lookup_ne in Hj by lia. by eapply Hfirst.
Qed.

(** An expired token stays expired. *)
Lemma verifyRefreshToken_expired (now1 now2 : Date) (token : string) :
  now1 <= now2 ->
  verifyRefreshToken now1 token = None ->
  verifyRefreshToken now2 token = None.
Proof.
  unfold JwtUtils.verifyRefreshToken. intros Hle.
  destruct (verifiedRefreshPayload token) as [decoded|]; [|done].
  destruct (JwtUtils.exp decoded) as [e|]; [|done].
  pose proof (Z.div_le_mono now1 now2 1000 ltac:(lia) Hle).
  destruct (Z.leb_spec e (now1 / 1000)); [|done].
  destruct (Z.leb_spec e (now2 / 1000)); [done | lia].
Qed.

Lemma verifyRefreshToken_payload (now1 now2 : Date) (token : string)
    (d1 d2 : JwtUtils.DecodedToken) :
  verifyRefreshToken now1 token = Some d1 ->
  verifyRefreshToken now2 token = Some d2 ->
  d1 = d2.
Proof.
  unfold JwtUtils.verifyRefreshToken.
  destruct (verifiedRefreshPayload token) as [decoded|]; [|done].
  destruct (JwtUtils.exp decoded) as [e|]; [|congruence].
  destruct (e <=? now1 / 1000); [done|].
  destruct (e <=? now2 / 1000); [done|]. congruence.
Qed.



End Logout.


(** The first logout of the sample did remove the session. *)
Example logout_removes_session :
  UserCredentials.refreshTokens
    <$> credentialsColl
          (Sample.logout 100 (Some "refresh.alice@x.com") Sample.sessionDb).2
  = [[Sample.session "other" 900]].
Proof. reflexivity. Qed.


(** ** Forgot password *)

Section ForgotPassword.
Import AuthController.

Variable hashResetToken : string -> string.

Abbreviation forgotPassword := (forgotPassword hashResetToken).

Lemma findByEmail_head (c : UserCredentials.t) (rest : list UserCredentials.t) :
  findByEmail (UserCredentials.email c) (c :: rest) = Some (0%nat, c).
Proof.
  unfold findByEmail. apply list_find_Some.
  split; [done|]. split; [done|]. intros j y _ Hlt. lia.
Qed.

(** C8 fails on the code: for the email of a stored credential the answer
    carries another message than for an email that no credential has, and
    a [resetToken] field holding the raw token. *)
Theorem forgotPassword_reveals_account
    (atReset created : Date) (token : string)
    (c : UserCredentials.t) (rest : list UserCredentials.t)
    (profiles : gmap ObjectId StaffProfile.t) (roles : gmap ObjectId Role.t)
    (permissions : gmap ObjectId Permission.t) (staff : gmap ObjectId Staff.t) :
  (forgotPassword atReset created token (UserCredentials.email c)
     (mkDb (c :: rest) profiles roles permissions staff)).1
  = resetLinkSent token
  /\ (forgotPassword atReset created token (UserCredentials.email c)
        (mkDb [] profiles roles permissions staff)).1
     = emailNotFoundReply
  /\ message (resetLinkSent token) <> message emailNotFoundReply
  /\ fields (resetLinkSent token) = [("resetToken", VStr token)]
  /\ fields emailNotFoundReply = [].
Proof.
  split; [|split; [|split; [|split]]].
  - unfold AuthController.forgotPassword. cbn [credentialsColl].
    by rewrite findByEmail_head.
  - done.
  - discriminate.
  - done.
  - done.
Qed.

End ForgotPassword.

(** ** Password reset tokens *)

Section ResetTokens.
Import AuthController.

Variable hashPassword : string -> string -> string.
Variable hashResetToken : string -> string.

Abbreviation resetPassword := (resetPassword hashPassword hashResetToken).

(** The filter holds as soon as three records, not necessarily the same,
    satisfy one condition each. *)
Lemma matchesResetQuery_iff (hashed : string) (now : Date)
    (c : UserCredentials.t) :
  matchesResetQuery hashed now c = true
  <-> (exists r, r ∈ UserCredentials.passwordResetTokens c
                 /\ PasswordReset.token r = hashed)
      /\ (exists r, r ∈ UserCredentials.passwordResetTokens c
                    /\ now < PasswordReset.expiresAt r)
      /\ (exists r, r ∈ UserCredentials.passwordResetTokens c
                    /\ PasswordReset.used r = false).
Proof.
  unfold matchesResetQuery. rewrite !andb_true_iff, !existsb_exists.
  setoid_rewrite <- list_elem_of_In.
  setoid_rewrite String.eqb_eq. setoid_rewrite Z.ltb_lt.
  setoid_rewrite negb_true_iff. tauto.
Qed.

(** A record of the kind the specification asks for makes the filter
    hold; the converse fails. *)
Lemma hasUsableReset_matches (hashed : string) (now : Date)
    (c : UserCredentials.t) :
  Spec.hasUsableReset hashed now c -> matchesResetQuery hashed now c = true.
Proof.
  intros (r & Hin & Htok & Hexp & Hused). apply matchesResetQuery_iff.
  repeat split; by exists r.
Qed.

(** A spent record with the digest and any other fresh record make the
    filter hold. *)
Lemma spent_token_matches_beside_fresh_record (hashed : string) (now : Date)
    (c : UserCredentials.t) (spent fresh : PasswordReset.t) :
  spent ∈ UserCredentials.passwordResetTokens c ->
  PasswordReset.token spent = hashed ->
  fresh ∈ UserCredentials.passwordResetTokens c ->
  now < PasswordReset.expiresAt fresh ->
  PasswordReset.used fresh = false ->
  matchesResetQuery hashed now c = true.
Proof.
  intros Hspent Htok Hfresh Hexp Hused. apply matchesResetQuery_iff.
  split; [by exists spent|]. split; by exists fresh.
Qed.

Lemma findByResetToken_single (hashed : string) (now : Date)
    (c : UserCredentials.t) :
  matchesResetQuery hashed now c = true ->
  findByResetToken hashed now [c] = Some (0%nat, c).
Proof.
  intros Hm. unfold findByResetToken. apply list_find_Some.
  split; [done|]. split; [done|]. intros j y _ Hlt. lia.
Qed.

Lemma markUsed_head (hashed : string) (c : UserCredentials.t)
    (r : PasswordReset.t) (rest : list PasswordReset.t) :
  UserCredentials.passwordResetTokens c = r :: rest ->
  PasswordReset.token r = hashed ->
  markUsed hashed c
  = UserCredentials.set_passwordResetTokens
      (PasswordReset.set_used true r :: rest) c.
Proof.
  intros Hlist Htok. unfold markUsed. rewrite Hlist.
  assert (Hfind : list_find (fun rt => PasswordReset.token rt = hashed)
                            (r :: rest) = Some (0%nat, r)).
  { apply list_find_Some. split; [done|]. split; [done|].
    intros j y _ Hlt. lia. }
  by rewrite Hfind.
Qed.

Lemma markUsed_password (hashed : string) (c : UserCredentials.t) :
  UserCredentials.password (markUsed hashed c) = UserCredentials.password c.
Proof. unfold markUsed. by destruct (list_find _ _) as [[? ?]|]. Qed.

(** A reset with a strong password on a collection holding one matching
    credential. *)
Lemma resetPassword_single (atQuery changed last : Date)
    (salt token newPassword : string) (c : UserCredentials.t) (db : Db) :
  PasswordUtils.isValid (PasswordUtils.validatePasswordStrength newPassword)
  = true ->
  credentialsColl db = [c] ->
  matchesResetQuery (hashResetToken token) atQuery c = true ->
  resetPassword atQuery changed last salt token newPassword db
  = (passwordResetSuccessful,
     set_credentialsColl
       [Credential.removeAllRefreshTokens
          (markUsed (hashResetToken token)
             (UserCredentials.set_password (hashPassword newPassword salt)
                changed last c))] db).
Proof.
  intros Hvalid Hcoll Hm. unfold AuthController.resetPassword.
  rewrite Hvalid, Hcoll, (findByResetToken_single _ _ _ Hm). cbn [negb].
  rewrite save_save. unfold save. by rewrite Hcoll.
Qed.

(** C6 fails on the code: after two forgot-password requests, the raw
    token of the first request resets the password at time 100, and the
    same raw token resets it again at time 200, although its record is
    marked used: the filter is satisfied by the digest of the used record
    together with the unused, unexpired record of the second request. *)
Theorem reset_token_accepted_twice :
  (resetPassword 100 100 100 "salt1" "tokenA" "Str0ng!pw"
     (Sample.pendingDb hashResetToken)).1 = passwordResetSuccessful
  /\ ((fun c => PasswordReset.used <$> UserCredentials.passwordResetTokens c)
        <$> credentialsColl
              (resetPassword 100 100 100 "salt1" "tokenA" "Str0ng!pw"
                 (Sample.pendingDb hashResetToken)).2)
     = [[true; false]]
  /\ (resetPassword 200 200 200 "salt2" "tokenA" "An0ther!pw"
        (resetPassword 100 100 100 "salt1" "tokenA" "Str0ng!pw"
           (Sample.pendingDb hashResetToken)).2).1
     = passwordResetSuccessful
  /\ (UserCredentials.password
        <$> credentialsColl
              (resetPassword 200 200 200 "salt2" "tokenA" "An0ther!pw"
                 (resetPassword 100 100 100 "salt1" "tokenA" "Str0ng!pw"
                    (Sample.pendingDb hashResetToken)).2).2)
     = [hashPassword "An0ther!pw" "salt2"].
Proof.
  set (c0 := Sample.alice 0 None Sample.fullRing
               (Sample.twoRequests hashResetToken)).
  assert (Hm0 : matchesResetQuery (hashResetToken "tokenA") 100 c0 = true).
  { apply hasUsableReset_matches.
    exists (PasswordReset.mk (hashResetToken "tokenA") 5000 0 false).
    split; [by left|]. by repeat split. }
  rewrite (resetPassword_single 100 100 100 "salt1" "tokenA" "Str0ng!pw" c0)
    by done.
  cbn [fst snd].
  rewrite (markUsed_head (hashResetToken "tokenA") _
             (PasswordReset.mk (hashResetToken "tokenA") 5000 0 false)
             [PasswordReset.mk (hashResetToken "tokenB") 5000 10 false])
    by done.
  set (c1 := Credential.removeAllRefreshTokens _).
  assert (Hm1 : matchesResetQuery (hashResetToken "tokenA") 200 c1 = true).
  { apply (spent_token_matches_beside_fresh_record _ _ _
             (PasswordReset.mk (hashResetToken "tokenA") 5000 0 true)
             (PasswordReset.mk (hashResetToken "tokenB") 5000 10 false)).
    - by left.
    - done.
    - right. by left.
    - done.
    - done. }
  rewrite (resetPassword_single 200 200 200 "salt2" "tokenA" "An0ther!pw" c1)
    by done.
  cbn [fst snd]. split; [done|]. split; [done|]. split; [done|].
  cbn. by rewrite markUsed_password.
Qed.

End ResetTokens.

(** With distinct digests, no record of the credential is usable for
    [tokenA] at the second call: its own record is used, the other one has
    another digest. *)
Example second_reset_has_no_usable_record :
  forall c,
    c ∈ credentialsColl
          (Sample.resetPassword 100 100 100 "salt1" "tokenA" "Str0ng!pw"
             (Sample.pendingDb Sample.digest)).2 ->
    ~ Spec.hasUsableReset (Sample.digest "tokenA") 200 c.
Proof.
  intros c Hc (r & Hr & Htok & _ & Hused).
  vm_compute in Hc. apply list_elem_of_singleton in Hc. subst c.
  cbn in Hr. apply elem_of_cons in Hr as [-> | Hr]; [discriminate|].
  apply list_elem_of_singleton in Hr. subst r. discriminate.
Qed.

(** * Further properties *)

(** ** Rate limiter *)

Section RateLimiterFacts.
Import RateLimiter.

Lemma serve_cons (h : Hit) (rest : list Hit) (s : gmap string Attempts) :
  serve (h :: rest) s
  = ((rateLimitAuth (maxAttempts h) (windowMs h) (ip h) (remoteAddress h)
        (now h) s).1
     :: (serve rest (rateLimitAuth (maxAttempts h) (windowMs h) (ip h)
                       (remoteAddress h) (now h) s).2).1,
     (serve rest (rateLimitAuth (maxAttempts h) (windowMs h) (ip h)
                    (remoteAddress h) (now h) s).2).2).
Proof. reflexivity. Qed.

(** One request inside a live window. *)
Lemma rateLimitAuth_live (m : nat) (w : Z) (ipa remote : option string)
    (t : Date) (s : gmap string Attempts) (c : nat) (r : Date) :
  s !! identifier ipa remote = Some (mkAttempts c r) ->
  t < r ->
  rateLimitAuth m w ipa remote t s
  = if (m <=? c)%nat
    then (TooMany (retryAfterSeconds r t), s)
    else (Pass, <[identifier ipa remote := mkAttempts (S c) r]> s).
Proof.
  intros Hs Ht. unfold rateLimitAuth. rewrite Hs. cbn [resetAt count].
  by destruct (Z.ltb_spec t r); [|lia].
Qed.

(** One request when no window is live. *)
Lemma rateLimitAuth_fresh (m : nat) (w : Z) (ipa remote : option string)
    (t : Date) (s : gmap string Attempts) :
  (forall a, s !! identifier ipa remote = Some a -> resetAt a <= t) ->
  rateLimitAuth m w ipa remote t s
  = (Pass, <[identifier ipa remote := mkAttempts 1 (t + w)]> s).
Proof.
  intros Hs. unfold rateLimitAuth.
  destruct (s !! identifier ipa remote) as [a|] eqn:Ha; [|done].
  specialize (Hs a eq_refl).
  by destruct (Z.ltb_spec t (resetAt a)); [lia|].
Qed.

(** Requests inside a live window. *)
Lemma serve_live_window
    (id : string) (m : nat) (hits : list Hit)
    (s : gmap string Attempts) (c : nat) (r : Date) :
  s !! id = Some (mkAttempts c r) ->
  Forall (fun h => identifier (ip h) (remoteAddress h) = id
                   /\ maxAttempts h = m /\ now h < r) hits ->
  (forall k v, (serve hits s).1 !! k = Some v ->
               (v = Pass <-> (c + k < m)%nat))
  /\ (serve hits s).2 !! id
     = Some (mkAttempts (c + Nat.min (length hits) (m - c)) r).
Proof.
  revert s c. induction hits as [|h hits IH]; intros s c Hs Hall.
  - cbn. split.
    + intros k v Hk. by rewrite lookup_nil in Hk.
    + by rewrite Nat.add_0_r.
  - apply Forall_cons in Hall as [(Hid & Hm & Ht) Hall].
    rewrite serve_cons.
    rewrite <- Hid in Hs.
    rewrite (rateLimitAuth_live _ _ _ _ _ s c r Hs Ht), Hm.
    rewrite Hid in Hs. rewrite Hid.
    destruct (Nat.leb_spec m c) as [Hfull | Hroom]; cbn [fst snd].
    + destruct (IH s c Hs Hall) as [Hv Hend]. split.
      * intros [|k] v Hk; cbn in Hk.
        -- inversion Hk; subst v. split; [done | lia].
        -- apply Hv in Hk. rewrite Hk. lia.
      * rewrite Hend. f_equal. f_equal. cbn [length]. lia.
    + destruct (IH (<[id := mkAttempts (S c) r]> s) (S c)) as [Hv Hend];
        [by rewrite lookup_insert_eq | done |].
      split.
      * intros [|k] v Hk; cbn in Hk.
        -- inversion Hk; subst v. split; [lia | done].
        -- apply Hv in Hk. rewrite Hk. lia.
      * rewrite Hend. f_equal. f_equal. cbn [length]. lia.
Qed.

(** X1. A limiter admits at most [max 1 maxAttempts] requests of a client
    per window: when no window of the client is live, the first request
    opens one of length [windowMs] and passes, and of the requests that
    follow before the window ends, the one of rank [k] (the opener having
    rank 0) passes iff [k < max 1 maxAttempts]. *)
Theorem fresh_window_admits_up_to_limit
    (id : string) (m : nat) (h0 : Hit) (hits : list Hit)
    (s : gmap string Attempts) :
  (forall a, s !! id = Some a -> resetAt a <= now h0) ->
  Forall (fun h => identifier (ip h) (remoteAddress h) = id
                   /\ maxAttempts h = m) (h0 :: hits) ->
  Forall (fun h => now h < now h0 + windowMs h0) hits ->
  forall k v, (serve (h0 :: hits) s).1 !! k = Some v ->
              (v = Pass <-> (k < Nat.max 1 m)%nat).
Proof.
  intros Hfresh Hall Hin k v Hk.
  apply Forall_cons in Hall as [[Hid Hm] Hall].
  rewrite serve_cons in Hk. rewrite <- Hid in Hfresh.
  rewrite (rateLimitAuth_fresh _ _ _ _ _ s Hfresh) in Hk.
  cbn [fst snd] in Hk. destruct k as [|k]; cbn in Hk.
  - inversion Hk. split; [lia | done].
  - destruct (serve_live_window id m hits
                (<[id := mkAttempts 1 (now h0 + windowMs h0)]> s) 1
                (now h0 + windowMs h0)) as [Hv _].
    + by rewrite lookup_insert_eq.
    + apply Forall_forall. intros h Hh.
      rewrite Forall_forall in Hall. rewrite Forall_forall in Hin.
      destruct (Hall h Hh). by split; [|split; [|apply Hin]].
    + rewrite Hid in Hk. apply Hv in Hk. rewrite Hk. lia.
Qed.

(** Requests of other clients leave the entry of a client as it is. *)
Lemma serve_other_clients (id : string) (hits : list Hit)
    (s : gmap string Attempts) :
  Forall (fun h => identifier (ip h) (remoteAddress h) <> id) hits ->
  (serve hits s).2 !! id = s !! id.
Proof.
  revert s. induction hits as [|h hits IH]; intros s Hall; [done|].
  apply Forall_cons in Hall as [Hne Hall].
  rewrite serve_cons. cbn [snd]. rewrite IH by done.
  unfold rateLimitAuth.
  destruct (s !! identifier (ip h) (remoteAddress h)) as [a|]; cbn [snd].
  - destruct (now h <? resetAt a); [destruct (_ <=? _)%nat|]; cbn [snd];
      by rewrite ?lookup_insert_ne.
  - by rewrite lookup_insert_ne.
Qed.

(** X2. The map is shared and the window is fixed: while the entry of a
    client is live (count [c], end [r]), requests of that client through
    limiters of limit [m], whatever their own window length, pass exactly
    while the count they find is below [m]; each pass adds one to the
    count, no request moves the end of the window, and the entries of the
    other clients stay as they are. *)
Theorem live_window_counts_every_limiter
    (id : string) (m : nat) (hits : list Hit)
    (s : gmap string Attempts) (c : nat) (r : Date) :
  s !! id = Some (mkAttempts c r) ->
  Forall (fun h => identifier (ip h) (remoteAddress h) = id
                   /\ maxAttempts h = m /\ now h < r) hits ->
  (forall k v, (serve hits s).1 !! k = Some v ->
               (v = Pass <-> (c + k < m)%nat))
  /\ (serve hits s).2 !! id
     = Some (mkAttempts (c + Nat.min (length hits) (m - c)) r)
  /\ (forall other, other <> id -> (serve hits s).2 !! other = s !! other).
Proof.
  intros Hs Hall.
  destruct (serve_live_window id m hits s c r Hs Hall) as [Hverdicts Hentry].
  split; [exact Hverdicts|]. split; [exact Hentry|].
  intros other Hother. apply serve_other_clients.
  eapply Forall_impl; [exact Hall|].
  intros h (Hid & _ & _). by rewrite Hid.
Qed.

(** The verdict and the new entry of a client depend on its own entry
    only. *)
Lemma rateLimitAuth_local (m : nat) (w : Z) (ipa remote : option string)
    (t : Date) (s s' : gmap string Attempts) :
  s' !! identifier ipa remote = s !! identifier ipa remote ->
  (rateLimitAuth m w ipa remote t s').1 = (rateLimitAuth m w ipa remote t s).1
  /\ (rateLimitAuth m w ipa remote t s').2 !! identifier ipa remote
     = (rateLimitAuth m w ipa remote t s).2 !! identifier ipa remote.
Proof.
  intros Heq. unfold rateLimitAuth. rewrite Heq.
  destruct (s !! identifier ipa remote) as [a|] eqn:Ha; cbn [fst snd].
  - destruct (t <? resetAt a); [destruct (_ <=? _)%nat|]; cbn [fst snd];
      rewrite ?lookup_insert_eq; by rewrite ?Heq.
  - by rewrite !lookup_insert_eq.
Qed.

(** X3. Clients do not interfere: whatever requests other clients make
    in between, through whatever limiters, a client gets the verdict and
    the entry it would have got without them. *)
Theorem other_clients_do_not_interfere
    (m : nat) (w : Z) (ipa remote : option string) (t : Date)
    (hits : list Hit) (s : gmap string Attempts) :
  Forall (fun h => identifier (ip h) (remoteAddress h)
                   <> identifier ipa remote) hits ->
  (rateLimitAuth m w ipa remote t (serve hits s).2).1
  = (rateLimitAuth m w ipa remote t s).1
  /\ (rateLimitAuth m w ipa remote t (serve hits s).2).2
       !! identifier ipa remote
     = (rateLimitAuth m w ipa remote t s).2 !! identifier ipa remote.
Proof.
  intros Hall. apply rateLimitAuth_local. by apply serve_other_clients.
Qed.

(** X4. A rejection changes nothing and tells how long to wait: the map
    is left as it is (the window is not extended), the client already has
    [maxAttempts] or more in a window that is still open, and
    [retryAfter] is the remaining time rounded up to whole seconds, at
    least 1. *)
Theorem rejection_leaves_map_and_reports_wait
    (m : nat) (w : Z) (ipa remote : option string) (t : Date)
    (s s' : gmap string Attempts) (retry : Z) :
  rateLimitAuth m w ipa remote t s = (TooMany retry, s') ->
  s' = s
  /\ exists a, s !! identifier ipa remote = Some a
       /\ (m <= count a)%nat
       /\ t < resetAt a
       /\ 1 <= retry
       /\ 1000 * (retry - 1) < resetAt a - t <= 1000 * retry.
Proof.
  unfold rateLimitAuth.
  destruct (s !! identifier ipa remote) as [a|]; [|done].
  destruct (Z.ltb_spec t (resetAt a)); [|done].
  destruct (Nat.leb_spec m (count a)); [|done].
  intros Heq. inversion Heq; subst. split; [done|].
  exists a. split; [done|]. split; [done|]. split; [done|].
  unfold retryAfterSeconds.
  pose proof (Z.div_mod (t - resetAt a) 1000 ltac:(lia)).
  pose proof (Z.mod_pos_bound (t - resetAt a) 1000 ltac:(lia)).
  lia.
Qed.

End RateLimiterFacts.

Lemma fresh_window_admits_up_to_limit_witness :
  (RateLimiter.serve Fixture.burst ∅).1
  = [RateLimiter.Pass; RateLimiter.Pass; RateLimiter.Pass;
     RateLimiter.TooMany 1]
  /\ (RateLimiter.TooMany 1 = RateLimiter.Pass <-> (3 < Nat.max 1 3)%nat).
Proof.
  split; [reflexivity|].
  apply (fresh_window_admits_up_to_limit "10.0.0.1" 3
           (RateLimiter.mkHit 3 1000 (Some "10.0.0.1") None 0)
           (RateLimiter.hitsAt 3 1000 (Some "10.0.0.1") None [100; 200; 300])
           ∅).
  - intros a Ha. by rewrite lookup_empty in Ha.
  - repeat constructor.
  - repeat constructor; cbn; lia.
  - reflexivity.
Defined.

Lemma live_window_counts_every_limiter_witness :
  (RateLimiter.serve Fixture.loginHits Fixture.afterForgot).1
  = [RateLimiter.Pass; RateLimiter.Pass; RateLimiter.TooMany 2600]
  /\ (RateLimiter.serve Fixture.loginHits Fixture.afterForgot).2 !! "10.0.0.1"
     = Some (RateLimiter.mkAttempts (3 + Nat.min 3 (5 - 3)) 3600000).
Proof.
  split; [reflexivity|].
  destruct (live_window_counts_every_limiter "10.0.0.1" 5 Fixture.loginHits
              Fixture.afterForgot 3 3600000) as (_ & Hentry & _).
  - reflexivity.
  - repeat constructor; cbn; lia.
  - exact Hentry.
Defined.

Lemma other_clients_do_not_interfere_witness :
  (RateLimiter.rateLimitAuth 5 900000 (Some "10.0.0.1") None 2000
     (RateLimiter.serve Fixture.otherHits Fixture.afterForgot).2).1
  = (RateLimiter.rateLimitAuth 5 900000 (Some "10.0.0.1") None 2000
       Fixture.afterForgot).1.
Proof.
  apply (other_clients_do_not_interfere 5 900000 (Some "10.0.0.1") None 2000
           Fixture.otherHits Fixture.afterForgot).
  repeat constructor; discriminate.
Defined.

Lemma rejection_leaves_map_and_reports_wait_witness :
  exists a,
    Fixture.afterForgot !! RateLimiter.identifier (Some "10.0.0.1") None
    = Some a
    /\ (3 <= RateLimiter.count a)%nat
    /\ 1500 < RateLimiter.resetAt a
    /\ 1 <= 3599
    /\ 1000 * (3599 - 1) < RateLimiter.resetAt a - 1500 <= 1000 * 3599.
Proof.
  apply (rejection_leaves_map_and_reports_wait 3 3600000 (Some "10.0.0.1")
           None 1500 Fixture.afterForgot Fixture.afterForgot 3599).
  reflexivity.
Defined.

(** ** Access control *)

Section AccessFacts.
Import JwtUtils JwtHelpers AuthMiddleware.

Variable jwtVerifyAccess : Date -> string -> Verification.

Abbreviation authenticate := (authenticate jwtVerifyAccess).

(** What an admission went through. *)
Lemma authenticate_Passed (authorization : option string)
    (atVerify atLockCheck : Date) (db : Db) (req : Attached) :
  authenticate authorization atVerify atLockCheck db = Passed req ->
  exists token i c,
    bearerToken authorization = Some token
    /\ verifyAccessToken jwtVerifyAccess atVerify token = inr (user req)
    /\ AuthController.findByEmail (d_email (user req)) (credentialsColl db)
       = Some (i, c)
    /\ Credential.isAccountLocked c atLockCheck = false
    /\ userProfileId req = UserCredentials.staffProfileId c
    /\ profilesColl db !! userProfileId req = Some (userProfile req)
    /\ StaffProfile.isActive (userProfile req) = true
    /\ assignedRoles req
       = populateAssignedRoles db
           (StaffProfile.assignedRoles (userProfile req)).
Proof.
  unfold AuthMiddleware.authenticate.
  destruct (bearerToken authorization) as [token|]; [|done].
  destruct (verifyAccessToken _ atVerify token) as [msg|decoded] eqn:Hverify;
    [done|].
  destruct (AuthController.findByEmail _ _) as [[i c]|] eqn:Hfind; [|done].
  destruct (Credential.isAccountLocked c atLockCheck) eqn:Hlock; [done|].
  destruct (profilesColl db !! UserCredentials.staffProfileId c)
    as [profile|] eqn:Hprofile; [|done].
  destruct (StaffProfile.isActive profile) eqn:Hactive; [|done].
  cbn [negb]. intros Heq. inversion Heq; subst req. cbn.
  by exists token, i, c.
Qed.

(** X5. [authenticate] lets a request through exactly when its header
    is a bearer header whose token verifies as an access token, a
    credential with the email of the token exists and is not locked at the
    time of the check, and the profile that credential links to exists and
    is active; what it attaches is the verified payload and that profile
    with the roles that its references resolve to. *)
Theorem authenticate_admits_only_checked_requests
    (authorization : option string) (atVerify atLockCheck : Date)
    (db : Db) (req : Attached) :
  authenticate authorization atVerify atLockCheck db = Passed req
  <-> exists token i c,
        bearerToken authorization = Some token
        /\ verifyAccessToken jwtVerifyAccess atVerify token = inr (user req)
        /\ AuthController.findByEmail (d_email (user req)) (credentialsColl db)
           = Some (i, c)
        /\ Credential.isAccountLocked c atLockCheck = false
        /\ userProfileId req = UserCredentials.staffProfileId c
        /\ profilesColl db !! userProfileId req = Some (userProfile req)
        /\ StaffProfile.isActive (userProfile req) = true
        /\ assignedRoles req
           = populateAssignedRoles db
               (StaffProfile.assignedRoles (userProfile req)).
Proof.
  split; [apply authenticate_Passed|].
  intros (token & i & c & Hbearer & Hverify & Hfind & Hfree & Hlink
          & Hprofile & Hactive & Hroles).
  unfold AuthMiddleware.authenticate.
  rewrite Hbearer, Hverify, Hfind, Hfree. rewrite <- Hlink.
  unfold ObjectId in *. rewrite Hprofile, Hactive. cbn [negb].
  destruct req as [u pid prof roles]. cbn in *. by subst.
Qed.

(** [hasRole] of [authorize]. *)
Lemma hasRole_iff (allowedRoles userRoles : list string) :
  existsb (fun role => existsb (String.eqb role) userRoles) allowedRoles = true
  <-> exists name, name ∈ allowedRoles /\ name ∈ userRoles.
Proof.
  rewrite existsb_exists. setoid_rewrite existsb_exists.
  setoid_rewrite <- list_elem_of_In. split.
  - intros (role & Hrole & name & Hname & Heq).
    apply String.eqb_eq in Heq. subst name. by exists role.
  - intros (name & Hallowed & Huser). exists name. split; [done|].
    exists name. split; [done|]. apply String.eqb_refl.
Qed.

(** X6. [authorize(...allowedRoles)] lets an authenticated request
    through iff one of the allowed names is the [roleName] of a role
    assigned to the profile, active or not; otherwise it answers 403 with
    the list of the required roles.  In particular an empty list of
    allowed roles lets nothing through. *)
Theorem authorize_iff_role_name_allowed
    (allowedRoles : list string) (req : Attached) :
  (authorize allowedRoles (Some req) = Next
   <-> exists role, role ∈ assignedRoles req
                    /\ Role.roleName role ∈ allowedRoles)
  /\ (authorize allowedRoles (Some req) = Next
      \/ authorize allowedRoles (Some req)
         = Respond (insufficientPermissions allowedRoles))
  /\ authorize [] (Some req) = Respond (insufficientPermissions []).
Proof.
  unfold authorize.
  destruct (existsb _ allowedRoles) eqn:Hhas; cbn [negb].
  - apply hasRole_iff in Hhas as (name & Hallowed & Huser).
    apply list_elem_of_fmap in Huser as (role & -> & Hrole).
    split; [|split; [by left | done]].
    split; [|done]. intros _. by exists role.
  - split; [|split; [by right | done]].
    split; [done|]. intros (role & Hrole & Hallowed).
    assert (Htrue : existsb
              (fun role0 => existsb (String.eqb role0)
                              (map Role.roleName (assignedRoles req)))
              allowedRoles = true).
    { apply hasRole_iff. exists (Role.roleName role). split; [done|].
      apply list_elem_of_fmap. by exists role. }
    congruence.
Qed.

End AccessFacts.

Lemma authenticate_admits_only_checked_requests_witness :
  exists token i c,
    AuthMiddleware.bearerToken Fixture.bearer = Some token
    /\ JwtHelpers.verifyAccessToken Fixture.verifyAccess 100 token
       = inr Sample.aliceToken
    /\ AuthController.findByEmail "alice@x.com"
         (credentialsColl Sample.sessionDb) = Some (i, c)
    /\ Credential.isAccountLocked c 200 = false
    /\ "profile-1" = UserCredentials.staffProfileId c
    /\ profilesColl Sample.sessionDb !! "profile-1"
       = Some (AuthMiddleware.userProfile Fixture.aliceRequest)
    /\ StaffProfile.isActive (AuthMiddleware.userProfile Fixture.aliceRequest)
       = true
    /\ AuthMiddleware.assignedRoles Fixture.aliceRequest
       = AuthMiddleware.populateAssignedRoles Sample.sessionDb [].
Proof.
  apply (proj1 (authenticate_admits_only_checked_requests
                  Fixture.verifyAccess Fixture.bearer 100 200
                  Sample.sessionDb Fixture.aliceRequest)).
  reflexivity.
Defined.

(** ** Bearer header *)

Section BearerFacts.
Import AuthMiddleware.

Lemma splitSpaces_no_space (t : string) :
  ~ In " "%char (list_ascii_of_string t) -> splitSpaces t = [t].
Proof.
  induction t as [|c t IH]; intros Hno; [done|].
  cbn [splitSpaces]. cbn in Hno.
  destruct (Ascii.eqb_spec c " ") as [-> | Hc]; [tauto|].
  rewrite IH by tauto. done.
Qed.

Lemma splitSpaces_segment (t rest : string) :
  ~ In " "%char (list_ascii_of_string t) ->
  splitSpaces (t +:+ String " " rest) = t :: splitSpaces rest.
Proof.
  induction t as [|c t IH]; intros Hno; [done|].
  simpl. simpl in Hno.
  destruct (Ascii.eqb_spec c " ") as [-> | Hc]; [tauto|].
  rewrite IH by tauto. done.
Qed.

Lemma prefix_append (p s : string) : String.prefix p (p +:+ s) = true.
Proof.
  induction p as [|c p IH]; [by destruct s|].
  simpl. by destruct (ascii_dec c c).
Qed.

(** X9. The token of a bearer header is what stands between the first
    and the second space: a header ["Bearer " + token] with a token
    without space yields the token, and so does the same header followed
    by a space and anything else. *)
Theorem bearerToken_reads_second_segment (token rest : string) :
  ~ In " "%char (list_ascii_of_string token) ->
  bearerToken (Some ("Bearer " +:+ token)) = Some token
  /\ bearerToken (Some ("Bearer " +:+ token +:+ String " " rest)) = Some token.
Proof.
  intros Hno.
  assert (Hword : ~ In " "%char (list_ascii_of_string "Bearer")).
  { cbn. intros H. repeat (destruct H as [H|H]; [discriminate|]). done. }
  unfold bearerToken. split.
  - rewrite prefix_append.
    change ("Bearer " +:+ token) with ("Bearer" +:+ String " " token).
    by rewrite splitSpaces_segment, splitSpaces_no_space.
  - change ("Bearer " +:+ token +:+ String " " rest)
      with ("Bearer " +:+ (token +:+ String " " rest)).
    rewrite prefix_append.
    change ("Bearer " +:+ (token +:+ String " " rest))
      with ("Bearer" +:+ String " " (token +:+ String " " rest)).
    by rewrite !splitSpaces_segment.
Qed.

End BearerFacts.

Lemma bearerToken_reads_second_segment_witness :
  AuthMiddleware.bearerToken (Some "Bearer abc.def.ghi") = Some "abc.def.ghi"
  /\ AuthMiddleware.bearerToken (Some "Bearer abc.def.ghi and more")
     = Some "abc.def.ghi".
Proof.
  apply (bearerToken_reads_second_segment "abc.def.ghi" "and more").
  cbn. intros H. repeat (destruct H as [H|H]; [discriminate|]). done.
Defined.

(** ** Access control and the stored state *)

Section AccessAndStore.
Import JwtUtils JwtHelpers AuthMiddleware AuthController.

Variable comparePassword : string -> string -> bool.
Variables generateAccessToken generateRefreshToken
  : Date -> TokenPayload -> string.
Variable jwtVerifyAccess : Date -> string -> Verification.
Variable isValidObjectId : string -> bool.

Abbreviation login :=
  (login comparePassword generateAccessToken generateRefreshToken).
Abbreviation authenticate := (AuthMiddleware.authenticate jwtVerifyAccess).

Lemma incrementFailedAttempts_email (c : UserCredentials.t) (now : Date) :
  UserCredentials.email (Credential.incrementFailedAttempts c now)
  = UserCredentials.email c.
Proof.
  unfold Credential.incrementFailedAttempts. by destruct (5 <=? _)%nat.
Qed.

(** X7. Locking an account also suspends its sessions: after the failed
    login that brings the counter of a credential to 5 or more, and until
    30 minutes after that failure, [authenticate] lets no request through
    as that account, and a request whose access token verifies for the
    account is answered 403 "Account is locked". *)
Theorem failed_login_locks_out_sessions
    (clk : LoginClock) (email password : string)
    (deviceInfo ip : option string) (db : Db)
    (i : nat) (c : UserCredentials.t)
    (authorization : option string) (atVerify atCheck : Date) :
  findByEmail email (credentialsColl db) = Some (i, c) ->
  Credential.isAccountLocked c (atLockCheck clk) = false ->
  comparePassword password (UserCredentials.password c) = false ->
  (4 <= UserCredentials.failedLoginAttempts c)%nat ->
  atCheck < atFailure clk + 30 * 60 * 1000 ->
  (forall req,
      authenticate authorization atVerify atCheck
        (login clk email password deviceInfo ip db).2 = Passed req ->
      d_email (user req) <> email)
  /\ (forall token decoded,
        bearerToken authorization = Some token ->
        verifyAccessToken jwtVerifyAccess atVerify token = inr decoded ->
        d_email decoded = email ->
        authenticate authorization atVerify atCheck
          (login clk email password deviceInfo ip db).2
        = Rejected AuthMiddleware.accountLocked).
Proof.
  intros Hfind Hunlocked Hwrong Hcount Hsoon.
  set (c' := Credential.incrementFailedAttempts c (atFailure clk)).
  assert (Hdb : (login clk email password deviceInfo ip db).2 = save i c' db).
  { unfold AuthController.login. by rewrite Hfind, Hunlocked, Hwrong. }
  assert (Hfind' : findByEmail email (credentialsColl (save i c' db))
                   = Some (i, c')).
  { apply (findByEmail_save email db i c c' Hfind).
    apply incrementFailedAttempts_email. }
  assert (Hlocked : Credential.isAccountLocked c' atCheck = true).
  { unfold c', Credential.incrementFailedAttempts, Credential.isAccountLocked.
    destruct (Nat.leb_spec 5 (UserCredentials.failedLoginAttempts c + 1));
      [|lia].
    cbn. unfold Credential.lockDuration. apply Z.ltb_lt. lia. }
  rewrite Hdb. split.
  - intros req Hadmit Hemail.
    apply authenticate_Passed in Hadmit
      as (token & j & cj & _ & _ & Hj & Hfree & _).
    rewrite Hemail, Hfind' in Hj. inversion Hj; subst. congruence.
  - intros token decoded Hbearer Hverify Hemail.
    unfold AuthMiddleware.authenticate.
    by rewrite Hbearer, Hverify, Hemail, Hfind', Hlocked.
Qed.

(** X8. A deactivated profile is shut out: once [updateAccountStatus] has
    set [isActive] to false on a profile, [authenticate] lets no request
    through as that profile, and a login to a credential linked to it is
    not answered 200, whatever the password; with the right password and
    no lock in force it is answered 403 "Account is inactive". *)
Theorem deactivated_profile_is_shut_out
    (id : string) (db : Db) :
  Administration.code
    (Administration.updateAccountStatus isValidObjectId id false db).1
  = 200%nat ->
  (forall authorization atVerify atCheck req,
      authenticate authorization atVerify atCheck
        (Administration.updateAccountStatus isValidObjectId id false db).2
      = Passed req ->
      userProfileId req <> id)
  /\ (forall clk email password deviceInfo ip i c,
        findByEmail email
          (credentialsColl
             (Administration.updateAccountStatus isValidObjectId id false db).2)
        = Some (i, c) ->
        UserCredentials.staffProfileId c = id ->
        status
          (login clk email password deviceInfo ip
             (Administration.updateAccountStatus isValidObjectId id false db).2).1
        <> 200%nat)
  /\ (forall clk email password deviceInfo ip i c,
        findByEmail email
          (credentialsColl
             (Administration.updateAccountStatus isValidObjectId id false db).2)
        = Some (i, c) ->
        UserCredentials.staffProfileId c = id ->
        Credential.isAccountLocked c (atLockCheck clk) = false ->
        comparePassword password (UserCredentials.password c) = true ->
        (login clk email password deviceInfo ip
           (Administration.updateAccountStatus isValidObjectId id false db).2).1
        = AuthController.accountInactive).
Proof.
  unfold Administration.updateAccountStatus.
  destruct (isValidObjectId id); [|cbn; lia]. cbn [negb].
  destruct (profilesColl db !! id) as [profile|] eqn:Hprofile; [|cbn; lia].
  cbn [fst snd]. intros _.
  set (db' := set_profilesColl _ db).
  assert (Hoff : exists p, profilesColl db' !! id = Some p
                           /\ StaffProfile.isActive p = false).
  { eexists. split; [apply lookup_insert_eq | done]. }
  destruct Hoff as (p & Hp & Hoff). subst db'. split; [|split].
  - intros authorization atVerify atCheck req Hadmit Hid.
    apply authenticate_Passed in Hadmit
      as (token & j & cj & _ & _ & _ & _ & _ & Hlook & Hactive & _).
    rewrite Hid in Hlook.
    assert (Hsame : Some p = Some (userProfile req)).
    { etransitivity; [symmetry; exact Hp | exact Hlook]. }
    inversion Hsame; subst. congruence.
  - intros clk email password deviceInfo ip i c Hfind Hlink.
    unfold AuthController.login. rewrite Hfind.
    destruct (Credential.isAccountLocked c (atLockCheck clk)); [cbn; lia|].
    destruct (comparePassword password (UserCredentials.password c));
      [|cbn; lia].
    cbn [negb]. cbn [save set_credentialsColl profilesColl
                     Credential.resetFailedAttempts
                     UserCredentials.set_lockout
                     UserCredentials.staffProfileId].
    rewrite Hlink. cbn [set_profilesColl profilesColl] in Hp.
    match goal with
    | |- context [match ?look with Some _ => _ | None => _ end] =>
        replace look with (Some p) by (symmetry; exact Hp)
    end.
    rewrite Hoff. cbn. lia.
  - intros clk email password deviceInfo ip i c Hfind Hlink Hunlocked Hright.
    unfold AuthController.login. rewrite Hfind, Hunlocked, Hright.
    cbn [negb]. cbn [save set_credentialsColl profilesColl
                     Credential.resetFailedAttempts
                     UserCredentials.set_lockout
                     UserCredentials.staffProfileId].
    rewrite Hlink. cbn [set_profilesColl profilesColl] in Hp.
    match goal with
    | |- context [match ?look with Some _ => _ | None => _ end] =>
        replace look with (Some p) by (symmetry; exact Hp)
    end.
    by rewrite Hoff.
Qed.

End AccessAndStore.

Lemma failed_login_locks_out_sessions_witness :
  AuthMiddleware.authenticate Fixture.verifyAccess Fixture.bearer 200 1800099
    (Sample.login (Sample.clock 100) "alice@x.com" "wrong" None None
       Fixture.fourFailures).2
  = AuthMiddleware.Rejected AuthMiddleware.accountLocked.
Proof.
  destruct (failed_login_locks_out_sessions
              Sample.compare Sample.signAccess Sample.signRefresh
              Fixture.verifyAccess
              (Sample.clock 100) "alice@x.com" "wrong" None None
              Fixture.fourFailures 0%nat (Sample.alice 4 None [] [])
              Fixture.bearer 200 1800099) as [_ Hlocked].
  - reflexivity.
  - reflexivity.
  - reflexivity.
  - cbn. lia.
  - cbn. lia.
  - apply (Hlocked "access.alice@x.com" Sample.aliceToken); reflexivity.
Defined.

Lemma deactivated_profile_is_shut_out_witness :
  status
    (Sample.login (Sample.clock 100) "alice@x.com" "Secret#123" None None
       (Administration.updateAccountStatus Fixture.isValid "profile-1" false
          Sample.sessionDb).2).1
  <> 200%nat
  /\ (Sample.login (Sample.clock 100) "alice@x.com" "Secret#123" None None
        (Administration.updateAccountStatus Fixture.isValid "profile-1" false
           Sample.sessionDb).2).1
     = AuthController.accountInactive.
Proof.
  destruct (deactivated_profile_is_shut_out
              Sample.compare Sample.signAccess Sample.signRefresh
              Fixture.verifyAccess Fixture.isValid
              "profile-1" Sample.sessionDb) as (_ & Hlogin & Hreply).
  - reflexivity.
  - split.
    + apply (Hlogin (Sample.clock 100) "alice@x.com" "Secret#123" None None
               0%nat
               (Sample.alice 0 None
                  [Sample.session "refresh.alice@x.com" 900;
                   Sample.session "other" 900] []));
        reflexivity.
    + apply (Hreply (Sample.clock 100) "alice@x.com" "Secret#123" None None
               0%nat
               (Sample.alice 0 None
                  [Sample.session "refresh.alice@x.com" 900;
                   Sample.session "other" 900] []));
        reflexivity.
Defined.

(** ** Administration and access control *)

Section AdministrationFacts.
Import JwtUtils JwtHelpers AuthMiddleware Administration Routes.

Variable jwtVerifyAccess : Date -> string -> Verification.
Variable isValidObjectId : string -> bool.

Abbreviation authenticate := (AuthMiddleware.authenticate jwtVerifyAccess).
Abbreviation requireRoles := (requireRoles jwtVerifyAccess).
Abbreviation requirePermission := (requirePermission jwtVerifyAccess).

(** Two stores with the same profiles and permissions, whose roles have
    the same permission lists, give [checkPermission] the same outcome. *)
Lemma checkPermission_same_role_permissions (db db' : Db) :
  profilesColl db' = profilesColl db ->
  permissionsColl db' = permissionsColl db ->
  (forall rid : ObjectId,
      Role.permissions <$> rolesColl db' !! rid
      = Role.permissions <$> rolesColl db !! rid) ->
  forall resource action userProfile,
    Resolver.checkPermission resource action userProfile db'
    = Resolver.checkPermission resource action userProfile db.
Proof.
  intros Hprofiles Hperms Hroles resource action userProfile.
  unfold Resolver.checkPermission. destruct userProfile as [_id|]; [|done].
  rewrite Hprofiles. destruct (profilesColl db !! _id) as [stored|]; [|done].
  assert (Hscan : forall ids,
    Resolver.scanRoles resource action
      (omap (fun rid => Resolver.populateRole db' <$> rolesColl db' !! rid) ids)
    = Resolver.scanRoles resource action
        (omap (fun rid => Resolver.populateRole db <$> rolesColl db !! rid) ids)).
  { induction ids as [|rid ids IH]; [done|].
    cbn [omap list_omap]. specialize (Hroles rid).
    destruct (rolesColl db' !! rid) as [role'|];
      destruct (rolesColl db !! rid) as [role|]; cbn in Hroles;
      try discriminate; cbn [fmap option_fmap option_map]; [|exact IH].
    inversion Hroles as [Hsame].
    cbn [Resolver.scanRoles Resolver.populateRole Role.p_permissions].
    rewrite Hsame, IH. unfold Resolver.populateRolePermission.
    by rewrite Hperms. }
  unfold Resolver.resolve, Resolver.roleGrant.
  cbn [Resolver.populateProfile StaffProfile.p_assignedRoles
       StaffProfile.p_customPermissions].
  rewrite Hscan. unfold Resolver.populateCustom. by rewrite Hperms.
Qed.

(** What [authenticate] answers on a store with the same credentials and
    profiles. *)
Lemma authenticate_same_accounts (db db' : Db)
    (authorization : option string) (atVerify atCheck : Date) :
  credentialsColl db' = credentialsColl db ->
  profilesColl db' = profilesColl db ->
  authenticate authorization atVerify atCheck db'
  = match authenticate authorization atVerify atCheck db with
    | Rejected r => Rejected r
    | Passed req =>
        Passed
          (mkAttached (user req) (userProfileId req) (userProfile req)
             (populateAssignedRoles db'
                (StaffProfile.assignedRoles (userProfile req))))
    end.
Proof.
  intros Hcreds Hprofiles. unfold AuthMiddleware.authenticate.
  rewrite Hcreds, Hprofiles.
  destruct (bearerToken authorization) as [token|]; [|done].
  destruct (verifyAccessToken _ atVerify token) as [msg|decoded]; [done|].
  destruct (AuthController.findByEmail _ _) as [[i c]|]; [|done].
  destruct (Credential.isAccountLocked c atCheck); [done|].
  destruct (profilesColl db !! UserCredentials.staffProfileId c)
    as [profile|]; [|done].
  by destruct (StaffProfile.isActive profile).
Qed.

Lemma roleNames_same (db db' : Db) (ids : list ObjectId) :
  (forall rid : ObjectId,
      Role.roleName <$> rolesColl db' !! rid
      = Role.roleName <$> rolesColl db !! rid) ->
  map Role.roleName (populateAssignedRoles db' ids)
  = map Role.roleName (populateAssignedRoles db ids).
Proof.
  intros Hroles. unfold populateAssignedRoles.
  induction ids as [|rid ids IH]; [done|].
  cbn [omap list_omap]. specialize (Hroles rid).
  destruct (rolesColl db' !! rid) as [role'|];
    destruct (rolesColl db !! rid) as [role|]; cbn in Hroles;
    try discriminate; [|exact IH].
  inversion Hroles as [Hsame]. cbn [map]. by rewrite Hsame, IH.
Qed.

(** What [toggleRoleStatus] leaves as it is. *)
Lemma toggleRoleStatus_keeps (id : string) (db : Db) :
  credentialsColl (toggleRoleStatus isValidObjectId id db).2
  = credentialsColl db
  /\ profilesColl (toggleRoleStatus isValidObjectId id db).2 = profilesColl db
  /\ permissionsColl (toggleRoleStatus isValidObjectId id db).2
     = permissionsColl db
  /\ (forall rid : ObjectId,
        Role.permissions
          <$> rolesColl (toggleRoleStatus isValidObjectId id db).2 !! rid
        = Role.permissions <$> rolesColl db !! rid)
  /\ (forall rid : ObjectId,
        Role.roleName
          <$> rolesColl (toggleRoleStatus isValidObjectId id db).2 !! rid
        = Role.roleName <$> rolesColl db !! rid).
Proof.
  unfold toggleRoleStatus. destruct (isValidObjectId id); [|done].
  cbn [negb]. destruct (rolesColl db !! id) as [role|] eqn:Hrole; [|done].
  cbn [snd set_rolesColl credentialsColl profilesColl permissionsColl
       rolesColl].
  unfold ObjectId in *.
  split; [done|]. split; [done|]. split; [done|].
  split; intros rid; rewrite lookup_insert; case_decide; subst;
    by rewrite ?Hrole.
Qed.

(** X10. Deactivating or reactivating a role changes no authorization
    decision: after [toggleRoleStatus], [checkPermission], a route guarded
    by [authenticate] and [checkPermission], and a route guarded by
    [authenticate] and [authorize] all answer what they answered
    before. *)
Theorem toggleRoleStatus_changes_no_decision
    (id : string) (db : Db) (resource action : string)
    (allowedRoles : list string) (userProfile : option ObjectId)
    (authorization : option string) (atVerify atCheck : Date) :
  Resolver.checkPermission resource action userProfile
    (toggleRoleStatus isValidObjectId id db).2
  = Resolver.checkPermission resource action userProfile db
  /\ requirePermission resource action authorization atVerify atCheck
       (toggleRoleStatus isValidObjectId id db).2
     = requirePermission resource action authorization atVerify atCheck db
  /\ requireRoles allowedRoles authorization atVerify atCheck
       (toggleRoleStatus isValidObjectId id db).2
     = requireRoles allowedRoles authorization atVerify atCheck db.
Proof.
  destruct (toggleRoleStatus_keeps id db)
    as (Hcreds & Hprofiles & Hperms & Hrolep & Hrolen).
  pose proof (checkPermission_same_role_permissions db _ Hprofiles Hperms Hrolep)
    as Hcheck.
  split; [apply Hcheck|]. split.
  - unfold Routes.requirePermission.
    rewrite (authenticate_same_accounts db _ _ _ _ Hcreds Hprofiles).
    destruct (authenticate authorization atVerify atCheck db) as [req|r];
      [apply Hcheck | done].
  - unfold Routes.requireRoles.
    rewrite (authenticate_same_accounts db _ _ _ _ Hcreds Hprofiles).
    destruct (authenticate authorization atVerify atCheck db) as [req|r]
      eqn:Hauth; [|done].
    apply authenticate_Passed in Hauth as (_ & _ & _ & _ & _ & _ & _ & _ & _ & _ & Hroles).
    unfold authorize. cbn [assignedRoles]. rewrite Hroles.
    by rewrite (roleNames_same db _ _ Hrolen).
Qed.

End AdministrationFacts.

Section ProfileAdministration.
Import Administration.

Variable isValidObjectId : string -> bool.

(** Changing the profiles changes neither the roles nor the permissions
    that a populate reads. *)
Lemma populateProfile_set_profilesColl
    (m : gmap ObjectId StaffProfile.t) (db : Db) (p : StaffProfile.t) :
  Resolver.populateProfile (set_profilesColl m db) p
  = Resolver.populateProfile db p.
Proof. reflexivity. Qed.

(** X11. Overrides are appended, and the first deciding entry wins: when
    the stored overrides of a profile already hold an entry that decides
    a query (about the resource, and revoked or allowing the action, every
    earlier entry being passed over), [addCustomPermissions] does not
    change what [checkPermission] answers to that query, whatever entries
    it adds.  A later revocation does not undo an earlier grant. *)
Theorem appended_override_cannot_overturn
    (id : string) (permissions : list StaffCustomPermission.t) (db : Db)
    (p : StaffProfile.t) (resource action : string) (g : bool)
    (pre post : list StaffCustomPermission.t) (e : StaffCustomPermission.t) :
  profilesColl db !! id = Some p ->
  Resolver.roleGrant (Resolver.populateProfile db p) resource action = Some g ->
  Spec.customList p = pre ++ e :: post ->
  Forall (Spec.passedOver db resource action) pre ->
  Spec.customResource db e = Some resource ->
  StaffCustomPermission.isRevoked e = true
  \/ includes (StaffCustomPermission.allowedActions e) action = true ->
  Resolver.checkPermission resource action (Some id)
    (addCustomPermissions isValidObjectId id (Some permissions) db).2
  = Resolver.checkPermission resource action (Some id) db.
Proof.
  intros Hp Hg Hlist Hpre He Hdecides.
  unfold addCustomPermissions. destruct (isValidObjectId id); [|done].
  cbn [negb]. unfold Resolver.checkPermission. unfold ObjectId in *.
  rewrite Hp. cbn [snd].
  cbn [set_profilesColl profilesColl]. rewrite lookup_insert_eq.
  rewrite populateProfile_set_profilesColl.
  set (p' := profile_set_customPermissions _ p).
  assert (Hg' : Resolver.roleGrant (Resolver.populateProfile db p')
                  resource action = Some g) by exact Hg.
  rewrite (resolve_stored db resource action p' g Hg').
  rewrite (resolve_stored db resource action p g Hg).
  assert (Hlist' : Spec.customList p' = pre ++ e :: (post ++ permissions)).
  { unfold p', Spec.customList in *. cbn.
    rewrite Hlist. by rewrite <- app_assoc. }
  rewrite Hlist', Hlist.
  rewrite !(scanCustom_passedOver db resource action g pre _ Hpre).
  rewrite !(scanCustom_decisive db resource action g e _ He).
  destruct (StaffCustomPermission.isRevoked e); [done|].
  destruct Hdecides as [|Hinc]; [done|]. by rewrite Hinc.
Qed.

Lemma addToSet_keeps (l values : list ObjectId) (x : ObjectId) :
  x ∈ l -> x ∈ addToSet l values.
Proof.
  revert l. induction values as [|v values IH]; intros l Hx; [done|].
  cbn [addToSet]. apply IH.
  destruct (existsb (String.eqb v) l); [done|].
  apply elem_of_app. by left.
Qed.

Lemma existsb_eqb_elem (v : string) (l : list string) :
  existsb (String.eqb v) l = true <-> v ∈ l.
Proof.
  rewrite existsb_exists. setoid_rewrite <- list_elem_of_In.
  setoid_rewrite String.eqb_eq. split.
  - by intros (x & Hx & ->).
  - intros Hv. by exists v.
Qed.

Lemma addToSet_adds (l values : list ObjectId) (x : ObjectId) :
  x ∈ values -> x ∈ addToSet l values.
Proof.
  revert l. induction values as [|v values IH]; intros l Hx.
  - by apply elem_of_nil in Hx.
  - cbn [addToSet]. apply elem_of_cons in Hx as [-> | Hx]; [|by apply IH].
    apply addToSet_keeps.
    destruct (existsb (String.eqb v) l) eqn:Hin.
    + by apply existsb_eqb_elem.
    + apply elem_of_app. right. by left.
Qed.

(** Values that the array holds already add nothing. *)
Lemma addToSet_present (l values : list ObjectId) :
  (forall x, x ∈ values -> x ∈ l) -> addToSet l values = l.
Proof.
  induction values as [|v values IH]; intros Hall; [done|].
  cbn [addToSet].
  assert (Hv : existsb (String.eqb v) l = true).
  { apply existsb_eqb_elem, Hall. by left. }
  rewrite Hv. apply IH. intros x Hx. apply Hall. by right.
Qed.

Lemma addToSet_NoDup (l values : list ObjectId) :
  NoDup l -> NoDup (addToSet l values).
Proof.
  revert l. induction values as [|v values IH]; intros l Hl; [done|].
  cbn [addToSet]. apply IH.
  destruct (existsb (String.eqb v) l) eqn:Hin; [done|].
  apply NoDup_app. split; [done|]. split.
  - intros x Hx Hx'. apply list_elem_of_singleton in Hx'. subst x.
    apply existsb_eqb_elem in Hx. congruence.
  - apply NoDup_singleton.
Qed.

Lemma addToSet_elem (l values : list ObjectId) (x : ObjectId) :
  x ∈ addToSet l values -> x ∈ l \/ x ∈ values.
Proof.
  revert l. induction values as [|v values IH]; intros l Hin; [by left|].
  cbn [addToSet] in Hin. apply IH in Hin as [Hin | Hin].
  - destruct (existsb (String.eqb v) l); [by left|].
    apply elem_of_app in Hin as [Hin | Hin]; [by left|].
    apply list_elem_of_singleton in Hin. subst. right. by left.
  - right. by right.
Qed.

(** An [assignRoles] that finds the profile. *)
Lemma assignRoles_found (id : string) (roleIds : list ObjectId) (db : Db)
    (p : StaffProfile.t) :
  isValidObjectId id = true ->
  roleIds <> [] ->
  profilesColl db !! id = Some p ->
  assignRoles isValidObjectId id (Some roleIds) db
  = (mkReply 200 "Roles assigned successfully",
     set_profilesColl
       (<[id := profile_set_assignedRoles
                  (addToSet (StaffProfile.assignedRoles p) roleIds) p]>
          (profilesColl db)) db).
Proof.
  intros Hvalid Hne Hp. unfold assignRoles. rewrite Hvalid. cbn [negb].
  destruct roleIds as [|r0 rs]; [done|].
  unfold ObjectId in *. by rewrite Hp.
Qed.

(** X12. [assignRoles] treats the assigned roles as a set: after it,
    every role that was assigned and every requested role is assigned,
    and no other; a list without duplicates stays without duplicates; and
    assigning the same roles a second time changes nothing. *)
Theorem assignRoles_is_a_set_union
    (id : string) (roleIds : list ObjectId) (db : Db) (p : StaffProfile.t) :
  isValidObjectId id = true ->
  roleIds <> [] ->
  profilesColl db !! id = Some p ->
  exists p',
    profilesColl (assignRoles isValidObjectId id (Some roleIds) db).2 !! id
    = Some p'
    /\ (forall rid, rid ∈ StaffProfile.assignedRoles p'
                    <-> rid ∈ StaffProfile.assignedRoles p \/ rid ∈ roleIds)
    /\ (NoDup (StaffProfile.assignedRoles p) ->
        NoDup (StaffProfile.assignedRoles p'))
    /\ (assignRoles isValidObjectId id (Some roleIds)
          (assignRoles isValidObjectId id (Some roleIds) db).2).2
       = (assignRoles isValidObjectId id (Some roleIds) db).2.
Proof.
  intros Hvalid Hne Hp.
  rewrite (assignRoles_found id roleIds db p Hvalid Hne Hp). cbn [snd].
  set (p' := profile_set_assignedRoles
               (addToSet (StaffProfile.assignedRoles p) roleIds) p).
  assert (Hp' : profilesColl
                  (set_profilesColl (<[id := p']> (profilesColl db)) db) !! id
                = Some p').
  { cbn. unfold ObjectId in *. apply lookup_insert_eq. }
  exists p'. split; [exact Hp'|]. split; [|split].
  - intros rid. split.
    + apply addToSet_elem.
    + intros [Hin | Hin]; [by apply addToSet_keeps | by apply addToSet_adds].
  - apply addToSet_NoDup.
  - rewrite (assignRoles_found id roleIds _ p' Hvalid Hne Hp'). cbn [snd].
    unfold set_profilesColl. cbn. unfold ObjectId in *.
    rewrite insert_insert_eq. do 2 f_equal.
    unfold p', profile_set_assignedRoles. cbn. f_equal.
    apply addToSet_present. intros x Hx. by apply addToSet_adds.
Qed.

Lemma pullIn_addToSet (l values among : list ObjectId) :
  (forall v, v ∈ values -> v ∈ among) ->
  pullIn (addToSet l values) among = pullIn l among.
Proof.
  revert l. induction values as [|v values IH]; intros l Hsub; [done|].
  cbn [addToSet]. rewrite IH by (intros x Hx; apply Hsub; by right).
  destruct (existsb (String.eqb v) l); [done|].
  unfold pullIn. rewrite List.filter_app. cbn [List.filter].
  assert (Hv : existsb (String.eqb v) among = true).
  { apply existsb_eqb_elem, Hsub. by left. }
  rewrite Hv. cbn [negb]. apply app_nil_r.
Qed.

Lemma pullIn_disjoint (l values : list ObjectId) :
  (forall rid, rid ∈ values -> rid ∉ l) -> pullIn l values = l.
Proof.
  intros Hdisjoint. apply filter_all. intros x Hx.
  apply negb_true_iff, not_true_is_false. intros Hin.
  apply existsb_eqb_elem in Hin. by apply (Hdisjoint x).
Qed.

Lemma set_profilesColl_id (db : Db) (id : string) (p : StaffProfile.t) :
  profilesColl db !! id = Some p ->
  set_profilesColl (<[id := p]> (profilesColl db)) db = db.
Proof.
  intros Hp. destruct db as [creds profiles roles perms staff].
  unfold set_profilesColl. cbn in *. f_equal. by apply insert_id.
Qed.

(** X13. [removeRoles] after [assignRoles] of the same list is
    [removeRoles] alone, reply included: the roles of the list that the
    profile held before the assignment are removed with the others.  Only
    when the profile held none of them is the store afterwards the store
    before. *)
Theorem removeRoles_after_assignRoles
    (id : string) (roleIds : list ObjectId) (db : Db) :
  removeRoles isValidObjectId id roleIds
    (assignRoles isValidObjectId id (Some roleIds) db).2
  = removeRoles isValidObjectId id roleIds db
  /\ (forall p,
        profilesColl db !! id = Some p ->
        (forall rid, rid ∈ roleIds -> rid ∉ StaffProfile.assignedRoles p) ->
        (removeRoles isValidObjectId id roleIds
           (assignRoles isValidObjectId id (Some roleIds) db).2).2 = db).
Proof.
  assert (Hfirst :
    removeRoles isValidObjectId id roleIds
      (assignRoles isValidObjectId id (Some roleIds) db).2
    = removeRoles isValidObjectId id roleIds db).
  { destruct (isValidObjectId id) eqn:Hvalid;
      [|unfold assignRoles; by rewrite Hvalid].
    destruct roleIds as [|r0 rs] eqn:Hids;
      [unfold assignRoles; by rewrite Hvalid|].
    rewrite <- Hids.
    destruct (profilesColl db !! id) as [p|] eqn:Hp.
    - rewrite (assignRoles_found id roleIds db p Hvalid ltac:(by subst) Hp).
      cbn [snd]. unfold removeRoles. rewrite Hvalid. cbn [negb].
      cbn [set_profilesColl profilesColl]. unfold ObjectId in *.
      rewrite lookup_insert_eq, Hp, insert_insert_eq.
      unfold set_profilesColl, profile_set_assignedRoles.
      cbn [StaffProfile.assignedRoles StaffProfile.staffId
           StaffProfile.customPermissions StaffProfile.isActive
           StaffProfile.lastLogin credentialsColl profilesColl rolesColl
           permissionsColl staffColl].
      by rewrite pullIn_addToSet.
    - unfold assignRoles. rewrite Hvalid, Hids. cbn [negb].
      unfold ObjectId in *. by rewrite Hp. }
  split; [exact Hfirst|]. intros p Hp Hdisjoint. rewrite Hfirst.
  unfold removeRoles. destruct (isValidObjectId id); [|done]. cbn [negb].
  unfold ObjectId in *. rewrite Hp. cbn [snd].
  rewrite (pullIn_disjoint _ _ Hdisjoint).
  replace (profile_set_assignedRoles (StaffProfile.assignedRoles p) p)
    with p by by destruct p.
  by apply set_profilesColl_id.
Qed.

Lemma addToSet_app (l values : list ObjectId) :
  exists extra, addToSet l values = l ++ extra.
Proof.
  revert l. induction values as [|v values IH]; intros l.
  - exists []. by rewrite app_nil_r.
  - cbn [addToSet]. destruct (existsb (String.eqb v) l); [apply IH|].
    destruct (IH (l ++ [v])) as (extra & ->). exists ([v] ++ extra).
    by rewrite app_assoc.
Qed.

(** The role loops stop at the first grant. *)
Lemma scanRoles_app_true (resource action : string)
    (roles others : list Role.populated) :
  Resolver.scanRoles resource action roles = Some true ->
  Resolver.scanRoles resource action (roles ++ others) = Some true.
Proof.
  induction roles as [|role roles IH]; [done|].
  cbn [Resolver.scanRoles app].
  destruct (Resolver.scanRolePermissions _ _ _) as [[|]|]; auto.
Qed.

(** X14. [assignRoles] takes no role grant away: the new references are
    appended and the role loops stop at the first grant, so a query that the
    roles of a profile granted before is answered by [checkPermission] as
    before, whatever roles are assigned, even a role whose permission
    references are dangling. *)
Theorem assignRoles_keeps_role_grants
    (id : string) (roleIds : option (list ObjectId)) (db : Db)
    (p : StaffProfile.t) (resource action : string) :
  profilesColl db !! id = Some p ->
  Resolver.roleGrant (Resolver.populateProfile db p) resource action
  = Some true ->
  Resolver.checkPermission resource action (Some id)
    (assignRoles isValidObjectId id roleIds db).2
  = Resolver.checkPermission resource action (Some id) db.
Proof.
  intros Hp Hg. unfold assignRoles.
  destruct (isValidObjectId id); [|done]. cbn [negb].
  destruct roleIds as [[|r0 rs]|]; [done| |done].
  unfold Resolver.checkPermission. unfold ObjectId in *. rewrite Hp.
  cbn [snd set_profilesColl profilesColl]. rewrite lookup_insert_eq.
  rewrite populateProfile_set_profilesColl.
  set (p' := profile_set_assignedRoles _ p).
  assert (Hg' : Resolver.roleGrant (Resolver.populateProfile db p')
                  resource action = Some true).
  { unfold Resolver.roleGrant in *.
    cbn [Resolver.populateProfile StaffProfile.p_assignedRoles] in *.
    unfold p'. cbn [profile_set_assignedRoles StaffProfile.assignedRoles].
    destruct (addToSet_app (StaffProfile.assignedRoles p) (r0 :: rs))
      as (extra & ->).
    rewrite omap_app. by apply scanRoles_app_true. }
  rewrite (resolve_stored db resource action p' true Hg').
  by rewrite (resolve_stored db resource action p true Hg).
Qed.

End ProfileAdministration.

Lemma appended_override_cannot_overturn_witness :
  Resolver.checkPermission "payroll" "export" (Some "profile-1")
    (Administration.addCustomPermissions Fixture.isValid "profile-1"
       (Some [Fixture.payrollRevoked]) Sample.grantedDb).2
  = Resolver.checkPermission "payroll" "export" (Some "profile-1")
      Sample.grantedDb.
Proof.
  apply (appended_override_cannot_overturn Fixture.isValid "profile-1"
           [Fixture.payrollRevoked] Sample.grantedDb Sample.grantedProfile
           "payroll" "export" false []
           []
           (StaffCustomPermission.mk "perm-payroll" [A_export] false)).
  - reflexivity.
  - reflexivity.
  - reflexivity.
  - constructor.
  - reflexivity.
  - right. reflexivity.
Defined.

Lemma assignRoles_is_a_set_union_witness :
  exists p',
    profilesColl
      (Administration.assignRoles Fixture.isValid "profile-1"
         (Some ["role-1"; "role-2"]) Sample.grantedDb).2 !! "profile-1"
    = Some p'
    /\ (forall rid, rid ∈ StaffProfile.assignedRoles p'
                    <-> rid ∈ StaffProfile.assignedRoles Sample.grantedProfile
                        \/ rid ∈ ["role-1"; "role-2"])
    /\ (NoDup (StaffProfile.assignedRoles Sample.grantedProfile) ->
        NoDup (StaffProfile.assignedRoles p'))
    /\ (Administration.assignRoles Fixture.isValid "profile-1"
          (Some ["role-1"; "role-2"])
          (Administration.assignRoles Fixture.isValid "profile-1"
             (Some ["role-1"; "role-2"]) Sample.grantedDb).2).2
       = (Administration.assignRoles Fixture.isValid "profile-1"
            (Some ["role-1"; "role-2"]) Sample.grantedDb).2.
Proof.
  apply (assignRoles_is_a_set_union Fixture.isValid "profile-1"
           ["role-1"; "role-2"] Sample.grantedDb Sample.grantedProfile).
  - reflexivity.
  - discriminate.
  - reflexivity.
Defined.

Lemma removeRoles_after_assignRoles_witness :
  (Administration.removeRoles Fixture.isValid "profile-1" ["role-2"]
     (Administration.assignRoles Fixture.isValid "profile-1" (Some ["role-2"])
        Sample.grantedDb).2).2
  = Sample.grantedDb.
Proof.
  destruct (removeRoles_after_assignRoles Fixture.isValid "profile-1"
              ["role-2"] Sample.grantedDb) as [_ Hback].
  apply (Hback Sample.grantedProfile); [reflexivity|].
  intros rid Hin Hheld.
  apply list_elem_of_singleton in Hin. apply list_elem_of_singleton in Hheld.
  congruence.
Defined.

Lemma assignRoles_keeps_role_grants_witness :
  Resolver.checkPermission "staff" "read" (Some "profile-1")
    (Administration.assignRoles Fixture.isValid "profile-1"
       (Some ["role-2"]) Sample.revokedDb).2
  = Resolver.checkPermission "staff" "read" (Some "profile-1")
      Sample.revokedDb.
Proof.
  apply (assignRoles_keeps_role_grants Fixture.isValid "profile-1"
           (Some ["role-2"]) Sample.revokedDb Sample.revokedProfile
           "staff" "read"); reflexivity.
Defined.

(** ** Activation switches *)

Section Switches.
Import Administration.

Variable isValidObjectId : string -> bool.

Lemma set_rolesColl_id (db : Db) (id : string) (role : Role.t) :
  rolesColl db !! id = Some role ->
  set_rolesColl (<[id := role]> (rolesColl db)) db = db.
Proof.
  intros Hrole. destruct db as [creds profiles roles perms staff].
  unfold set_rolesColl. cbn in *. f_equal. by apply insert_id.
Qed.

Lemma set_permissionsColl_id (db : Db) (id : string) (perm : Permission.t) :
  permissionsColl db !! id = Some perm ->
  set_permissionsColl (<[id := perm]> (permissionsColl db)) db = db.
Proof.
  intros Hperm. destruct db as [creds profiles roles perms staff].
  unfold set_permissionsColl. cbn in *. f_equal. by apply insert_id.
Qed.

(** X15. The two activation switches are involutions on the store:
    [toggleRoleStatus] twice on the same id, and
    [togglePermissionStatus] twice on the same id, leave the store as it
    was, whether or not the id is valid or names a document. *)
Theorem toggle_twice_restores_store (id : string) (db : Db) :
  (toggleRoleStatus isValidObjectId id
     (toggleRoleStatus isValidObjectId id db).2).2 = db
  /\ (togglePermissionStatus isValidObjectId id
        (togglePermissionStatus isValidObjectId id db).2).2 = db.
Proof.
  split.
  - unfold toggleRoleStatus.
    destruct (isValidObjectId id) eqn:Hvalid; cbn [negb];
      [|by rewrite ?Hvalid].
    destruct (rolesColl db !! id) as [role|] eqn:Hrole; cbn [snd].
    + rewrite ?Hvalid. cbn [negb set_rolesColl rolesColl].
      unfold ObjectId in *. rewrite lookup_insert_eq. cbn [snd].
      unfold set_rolesColl. cbn. rewrite insert_insert_eq.
      replace (role_set_isActive _ (role_set_isActive _ role)) with role
        by (destruct role as [? ? ? ? ? []]; reflexivity).
      by apply set_rolesColl_id.
    + rewrite ?Hvalid. cbn [negb]. unfold ObjectId in *. by rewrite Hrole.
  - unfold togglePermissionStatus.
    destruct (isValidObjectId id) eqn:Hvalid; cbn [negb];
      [|by rewrite ?Hvalid].
    destruct (permissionsColl db !! id) as [perm|] eqn:Hperm; cbn [snd].
    + rewrite ?Hvalid. cbn [negb set_permissionsColl permissionsColl].
      unfold ObjectId in *. rewrite lookup_insert_eq. cbn [snd].
      unfold set_permissionsColl. cbn. rewrite insert_insert_eq.
      replace (permission_set_isActive _ (permission_set_isActive _ perm))
        with perm by (destruct perm as [? ? ? ? ? []]; reflexivity).
      by apply set_permissionsColl_id.
    + rewrite ?Hvalid. cbn [negb]. unfold ObjectId in *. by rewrite Hperm.
Qed.

(** The override loop reads the resource of a permission record and
    nothing else of it. *)
Lemma scanCustom_reads_resource (db db' : Db) (resource action : string) :
  (forall pid : ObjectId,
      Permission.resource <$> permissionsColl db' !! pid
      = Permission.resource <$> permissionsColl db !! pid) ->
  forall (g : bool) (l : list StaffCustomPermission.t),
    Resolver.scanCustom resource action g (map (Resolver.populateCustom db') l)
    = Resolver.scanCustom resource action g
        (map (Resolver.populateCustom db) l).
Proof.
  intros Hsame g l. induction l as [|cp l IH]; [done|].
  cbn [map Resolver.scanCustom Resolver.populateCustom
       StaffCustomPermission.p_permissionId
       StaffCustomPermission.p_isRevoked
       StaffCustomPermission.p_allowedActions].
  specialize (Hsame (StaffCustomPermission.permissionId cp)).
  destruct (permissionsColl db' !! StaffCustomPermission.permissionId cp)
    as [perm'|];
    destruct (permissionsColl db !! StaffCustomPermission.permissionId cp)
      as [perm|]; cbn in Hsame; try discriminate; [|done].
  inversion Hsame as [Hresource]. by rewrite Hresource, IH.
Qed.

Lemma togglePermissionStatus_keeps (id : string) (db : Db) :
  profilesColl (togglePermissionStatus isValidObjectId id db).2
  = profilesColl db
  /\ (forall pid : ObjectId,
        Permission.resource
          <$> permissionsColl (togglePermissionStatus isValidObjectId id db).2
              !! pid
        = Permission.resource <$> permissionsColl db !! pid).
Proof.
  unfold togglePermissionStatus. destruct (isValidObjectId id); [|done].
  cbn [negb]. destruct (permissionsColl db !! id) as [perm|] eqn:Hperm;
    [|done].
  cbn [snd set_permissionsColl profilesColl permissionsColl].
  unfold ObjectId in *. split; [done|].
  intros pid. rewrite lookup_insert. case_decide; subst; by rewrite ?Hperm.
Qed.

(** X16. A custom override keeps its force when its permission record is
    deactivated: the override loop never reads [isActive] of the record, so
    if the role loops give the same result before and after
    [togglePermissionStatus], [checkPermission] answers the same, and for a
    profile without roles it always does. *)
Theorem togglePermissionStatus_spares_overrides
    (id : string) (db : Db) (profileId : ObjectId) (p : StaffProfile.t)
    (resource action : string) :
  profilesColl db !! profileId = Some p ->
  Resolver.roleGrant
    (Resolver.populateProfile (togglePermissionStatus isValidObjectId id db).2 p)
    resource action
  = Resolver.roleGrant (Resolver.populateProfile db p) resource action ->
  Resolver.checkPermission resource action (Some profileId)
    (togglePermissionStatus isValidObjectId id db).2
  = Resolver.checkPermission resource action (Some profileId) db.
Proof.
  intros Hp Hg.
  destruct (togglePermissionStatus_keeps id db) as [Hprofiles Hresource].
  unfold Resolver.checkPermission. rewrite Hprofiles.
  unfold ObjectId in *. rewrite Hp.
  unfold Resolver.resolve. rewrite Hg.
  destruct (Resolver.roleGrant (Resolver.populateProfile db p) resource action)
    as [g|]; [|done].
  cbn [Resolver.populateProfile StaffProfile.p_customPermissions].
  destruct (StaffProfile.customPermissions p) as [l|]; [|done].
  cbn [fmap option_fmap option_map].
  by rewrite (scanCustom_reads_resource db _ resource action Hresource).
Qed.

End Switches.

Lemma togglePermissionStatus_spares_overrides_witness :
  Permission.isActive
    <$> permissionsColl
          (Administration.togglePermissionStatus Fixture.isValid
             "perm-payroll" Sample.grantedDb).2 !! "perm-payroll"
  = Some false
  /\ Resolver.checkPermission "payroll" "export" (Some "profile-1")
       (Administration.togglePermissionStatus Fixture.isValid "perm-payroll"
          Sample.grantedDb).2
     = Resolver.checkPermission "payroll" "export" (Some "profile-1")
         Sample.grantedDb.
Proof.
  split; [reflexivity|].
  apply (togglePermissionStatus_spares_overrides Fixture.isValid
           "perm-payroll" Sample.grantedDb "profile-1" Sample.grantedProfile
           "payroll" "export"); reflexivity.
Defined.

(** ** Token refresh *)

Section RefreshFacts.
Import JwtUtils AuthController AuthEndpoints.

Variable comparePassword : string -> string -> bool.
Variable hashPassword : string -> string -> string.
Variables generateAccessToken generateRefreshToken
  : Date -> TokenPayload -> string.
Variable verifiedRefreshPayload : string -> option DecodedToken.
Variable refreshErrorMessage : Date -> string -> string.

Abbreviation refreshToken :=
  (AuthEndpoints.refreshToken generateAccessToken verifiedRefreshPayload
     refreshErrorMessage).
Abbreviation logout := (AuthController.logout verifiedRefreshPayload).
Abbreviation login :=
  (AuthController.login comparePassword generateAccessToken
     generateRefreshToken).
Abbreviation changePassword :=
  (AuthController.changePassword comparePassword hashPassword).
Abbreviation verifyRefreshToken :=
  (JwtUtils.verifyRefreshToken verifiedRefreshPayload).

Lemma findStored_absent (token : string) (nowAt : nat -> Date) (i : nat)
    (l : list RefreshToken.t) :
  (forall rt, rt ∈ l -> RefreshToken.token rt <> token) ->
  findStored token nowAt i l = None.
Proof.
  revert i. induction l as [|rt l IH]; intros i Habsent; [done|].
  cbn [findStored].
  assert (Hne : String.eqb (RefreshToken.token rt) token = false).
  { apply String.eqb_neq, Habsent. by left. }
  rewrite Hne. cbn [andb]. apply IH. intros rt' Hin. apply Habsent. by right.
Qed.

Lemma findStored_present (token : string) (nowAt : nat -> Date) (i : nat)
    (l : list RefreshToken.t) (rt : RefreshToken.t) :
  rt ∈ l ->
  RefreshToken.token rt = token ->
  (forall k, nowAt k < RefreshToken.expiresAt rt) ->
  is_Some (findStored token nowAt i l).
Proof.
  intros Hin Htoken Hlive. revert i.
  induction l as [|rt' l IH]; intros i; [by apply elem_of_nil in Hin|].
  cbn [findStored].
  destruct (String.eqb (RefreshToken.token rt') token
            && (nowAt i <? RefreshToken.expiresAt rt')) eqn:Htest; [eauto|].
  apply elem_of_cons in Hin as [<- | Hin]; [|by apply IH].
  rewrite Htoken, String.eqb_refl in Htest. cbn [andb] in Htest.
  apply Z.ltb_ge in Htest. specialize (Hlive i). lia.
Qed.

Lemma findStored_Some (token : string) (nowAt : nat -> Date) (i : nat)
    (l : list RefreshToken.t) (rt : RefreshToken.t) :
  findStored token nowAt i l = Some rt ->
  exists k, l !! k = Some rt
            /\ RefreshToken.token rt = token
            /\ nowAt (i + k)%nat < RefreshToken.expiresAt rt.
Proof.
  revert i. induction l as [|rt' l IH]; intros i; [done|].
  cbn [findStored].
  destruct (String.eqb (RefreshToken.token rt') token
            && (nowAt i <? RefreshToken.expiresAt rt')) eqn:Htest.
  - intros Heq. inversion Heq; subst rt'.
    apply andb_true_iff in Htest as [Htoken Hlive].
    apply String.eqb_eq in Htoken. apply Z.ltb_lt in Hlive.
    exists 0%nat. by rewrite Nat.add_0_r.
  - intros Hfind. apply IH in Hfind as (k & Hk & Htoken & Hlive).
    exists (S k). split; [done|]. split; [done|].
    by replace (i + S k)%nat with (S i + k)%nat by lia.
Qed.

Lemma verifyRefreshToken_verified (now : Date) (token : string)
    (decoded : DecodedToken) :
  verifyRefreshToken now token = Some decoded ->
  verifiedRefreshPayload token = Some decoded.
Proof.
  unfold JwtUtils.verifyRefreshToken.
  destruct (verifiedRefreshPayload token) as [d|]; [|done].
  destruct (exp d) as [e|]; [|done]. by destruct (e <=? now / 1000).
Qed.

(** When [refreshToken] answers 200. *)
Lemma refreshToken_200 (atVerify : Date) (nowAt : nat -> Date) (atSign : Date)
    (presented : option string) (db : Db) :
  status (refreshToken atVerify nowAt atSign presented db) = 200%nat
  <-> exists token decoded i c rt p,
        presented = Some token
        /\ token <> ""
        /\ verifyRefreshToken atVerify token = Some decoded
        /\ findByEmail (d_email decoded) (credentialsColl db) = Some (i, c)
        /\ findStored token nowAt 0 (UserCredentials.refreshTokens c) = Some rt
        /\ profilesColl db !! UserCredentials.staffProfileId c = Some p
        /\ StaffProfile.isActive p = true.
Proof.
  unfold AuthEndpoints.refreshToken, falsy. split.
  - destruct presented as [token|]; [|cbn; lia].
    destruct (String.eqb_spec token "") as [|Hne]; [cbn; lia|].
    destruct (JwtUtils.verifyRefreshToken _ atVerify token) as [decoded|]
      eqn:Hverify; [|cbn; lia].
    destruct (findByEmail _ _) as [[i c]|] eqn:Hfind; [|cbn; lia].
    destruct (findStored _ _ _ _) as [rt|] eqn:Hstored; [|cbn; lia].
    destruct (profilesColl db !! UserCredentials.staffProfileId c) as [p|]
      eqn:Hp; [|cbn; lia].
    destruct (StaffProfile.isActive p) eqn:Hactive; [|cbn; lia].
    intros _. by exists token, decoded, i, c, rt, p.
  - intros (token & decoded & i & c & rt & p & -> & Hne & Hverify & Hfind
            & Hstored & Hp & Hactive).
    apply String.eqb_neq in Hne. rewrite Hne, Hverify, Hfind, Hstored.
    unfold ObjectId in *. by rewrite Hp, Hactive.
Qed.

(** X17. [refreshToken] issues an access token exactly when the presented
    token is a non-empty string that verifies as a refresh token at the
    time of the check, the credential with the email of its payload holds
    a record with that token that is unexpired when the record is
    inspected, and the profile of the credential exists and is active.  In
    particular a token that verifies but is not in the ring is refused:
    the ring is a list of the sessions that are still allowed. *)
Theorem refreshToken_issues_iff_stored_session
    (atVerify : Date) (nowAt : nat -> Date) (atSign : Date)
    (presented : option string) (db : Db) :
  status (refreshToken atVerify nowAt atSign presented db) = 200%nat
  <-> exists token decoded i c k rt p,
        presented = Some token
        /\ token <> ""
        /\ verifyRefreshToken atVerify token = Some decoded
        /\ findByEmail (d_email decoded) (credentialsColl db) = Some (i, c)
        /\ UserCredentials.refreshTokens c !! k = Some rt
        /\ RefreshToken.token rt = token
        /\ nowAt k < RefreshToken.expiresAt rt
        /\ (forall j rt', (j < k)%nat ->
              UserCredentials.refreshTokens c !! j = Some rt' ->
              RefreshToken.token rt' = token ->
              RefreshToken.expiresAt rt' <= nowAt j)
        /\ profilesColl db !! UserCredentials.staffProfileId c = Some p
        /\ StaffProfile.isActive p = true.
Proof.
  rewrite refreshToken_200. split.
  - intros (token & decoded & i & c & rt & p & Hpres & Hne & Hverify & Hfind
            & Hstored & Hp & Hactive).
    assert (Hfirst : forall l n rt0,
      findStored token nowAt n l = Some rt0 ->
      exists k, l !! k = Some rt0
        /\ RefreshToken.token rt0 = token
        /\ nowAt (n + k)%nat < RefreshToken.expiresAt rt0
        /\ forall j rt', (j < k)%nat -> l !! j = Some rt' ->
             RefreshToken.token rt' = token ->
             RefreshToken.expiresAt rt' <= nowAt (n + j)%nat).
    { induction l as [|r l IH]; intros n rt0; [done|]. cbn [findStored].
      destruct (String.eqb (RefreshToken.token r) token
                && (nowAt n <? RefreshToken.expiresAt r)) eqn:Htest.
      - intros Heq. inversion Heq; subst r.
        apply andb_true_iff in Htest as [Htoken Hlive].
        apply String.eqb_eq in Htoken. apply Z.ltb_lt in Hlive.
        exists 0%nat. rewrite Nat.add_0_r.
        repeat split; try done. intros j rt' Hj. lia.
      - intros Hfind'. apply IH in Hfind' as (k & Hk & Htoken & Hlive & Hbefore).
        exists (S k). split; [done|]. split; [done|].
        replace (n + S k)%nat with (S n + k)%nat by lia. split; [done|].
        intros [|j] rt' Hj Hlook Htok'.
        + cbn in Hlook. inversion Hlook; subst rt'.
          rewrite Htok', String.eqb_refl in Htest. cbn [andb] in Htest.
          apply Z.ltb_ge in Htest. by rewrite Nat.add_0_r.
        + replace (n + S j)%nat with (S n + j)%nat by lia.
          apply (Hbefore j rt'); [lia | done | done]. }
    apply Hfirst in Hstored as (k & Hk & Htoken & Hlive & Hbefore).
    exists token, decoded, i, c, k, rt, p. repeat split; try done.
  - intros (token & decoded & i & c & k & rt & p & Hpres & Hne & Hverify
            & Hfind & Hk & Htoken & Hlive & Hbefore & Hp & Hactive).
    assert (Hfound : forall l n,
      l !! k = Some rt ->
      nowAt (n + k)%nat < RefreshToken.expiresAt rt ->
      (forall j rt', (j < k)%nat -> l !! j = Some rt' ->
         RefreshToken.token rt' = token ->
         RefreshToken.expiresAt rt' <= nowAt (n + j)%nat) ->
      findStored token nowAt n l = Some rt).
    { clear Hk Hlive Hbefore. revert k.
      induction k as [|k IH]; intros [|r l] n Hk Hlive Hbefore; try done.
      - cbn in Hk. inversion Hk; subst r. cbn [findStored].
        rewrite Htoken, String.eqb_refl. rewrite Nat.add_0_r in Hlive.
        apply Z.ltb_lt in Hlive. by rewrite Hlive.
      - cbn [findStored].
        destruct (String.eqb (RefreshToken.token r) token
                  && (nowAt n <? RefreshToken.expiresAt r)) eqn:Htest.
        + apply andb_true_iff in Htest as [Htok' Hlive'].
          apply String.eqb_eq in Htok'. apply Z.ltb_lt in Hlive'.
          specialize (Hbefore 0%nat r ltac:(lia) eq_refl Htok').
          rewrite Nat.add_0_r in Hbefore. lia.
        + apply IH; [done | by replace (S n + k)%nat with (n + S k)%nat by lia|].
          intros j rt' Hj Hlook Htok'.
          replace (S n + j)%nat with (n + S j)%nat by lia.
          apply (Hbefore (S j) rt'); [lia | done | done]. }
    exists token, decoded, i, c, rt, p. repeat split; try done.
    by apply Hfound.
Qed.

(** X18. A logout ends the session: after [logout] of a token, that token
    is refused by [refreshToken] from then on, whatever else the token or
    the store is. *)
Theorem logout_ends_session
    (now1 now2 : Date) (nowAt : nat -> Date) (atSign : Date)
    (token : string) (db : Db) :
  now1 <= now2 ->
  status (refreshToken now2 nowAt atSign (Some token)
            (logout now1 (Some token) db).2) <> 200%nat.
Proof.
  intros Hlater Hissued.
  apply refreshToken_200 in Hissued
    as (token' & decoded & i & c & rt & p & Hpres & Hne & Hverify & Hfind
        & Hstored & _).
  inversion Hpres; subst token'.
  apply findStored_Some in Hstored as (k & Hk & Htoken & _).
  revert Hfind. unfold AuthController.logout, falsy.
  apply String.eqb_neq in Hne. rewrite Hne.
  destruct (JwtUtils.verifyRefreshToken _ now1 token) as [d1|] eqn:Hverify1.
  - rewrite (verifyRefreshToken_payload _ _ _ _ _ _ Hverify1 Hverify).
    destruct (findByEmail (d_email decoded) (credentialsColl db))
      as [[j cj]|] eqn:Hfind1; cbn [snd]; [|congruence].
    rewrite (findByEmail_save _ db j cj
               (Credential.removeRefreshToken cj token) Hfind1 eq_refl).
    intros Heq. inversion Heq; subst i c.
    apply list_elem_of_lookup_2 in Hk.
    cbn in Hk. apply list_elem_of_In, filter_In in Hk as [_ Hkept].
    apply negb_true_iff, String.eqb_neq in Hkept. done.
  - pose proof (verifyRefreshToken_expired _ _ _ _ Hlater Hverify1).
    congruence.
Qed.

(** A credential with an empty ring refreshes nothing. *)
Lemma empty_ring_refuses (atVerify : Date) (nowAt : nat -> Date)
    (atSign : Date) (token : string) (decoded : DecodedToken) (db : Db)
    (i : nat) (c : UserCredentials.t) :
  verifiedRefreshPayload token = Some decoded ->
  findByEmail (d_email decoded) (credentialsColl db) = Some (i, c) ->
  UserCredentials.refreshTokens c = [] ->
  status (refreshToken atVerify nowAt atSign (Some token) db) <> 200%nat.
Proof.
  intros Hpayload Hfind Hempty Hissued.
  apply refreshToken_200 in Hissued
    as (token' & d & j & cj & rt & p & Hpres & _ & Hverify & Hfind'
        & Hstored & _).
  inversion Hpres; subst token'.
  apply verifyRefreshToken_verified in Hverify.
  assert (d = decoded) by congruence. subst d.
  assert (cj = c) by congruence. subst cj.
  rewrite Hempty in Hstored. done.
Qed.

Lemma no_credential_refuses (atVerify : Date) (nowAt : nat -> Date)
    (atSign : Date) (token : string) (decoded : DecodedToken) (db : Db) :
  verifiedRefreshPayload token = Some decoded ->
  findByEmail (d_email decoded) (credentialsColl db) = None ->
  status (refreshToken atVerify nowAt atSign (Some token) db) <> 200%nat.
Proof.
  intros Hpayload Hfind Hissued.
  apply refreshToken_200 in Hissued
    as (token' & d & j & cj & rt & p & Hpres & _ & Hverify & Hfind' & _).
  inversion Hpres; subst token'.
  apply verifyRefreshToken_verified in Hverify. congruence.
Qed.

(** X19. [logoutAll] and a successful [changePassword] end every session
    of the account: afterwards [refreshToken] refuses every token whose
    payload carries the email of the user, at any time. *)
Theorem emptied_ring_ends_every_session
    (atVerify : Date) (nowAt : nat -> Date) (atSign : Date)
    (token : string) (decoded user : DecodedToken) (db : Db) :
  verifiedRefreshPayload token = Some decoded ->
  d_email decoded = d_email user ->
  status (refreshToken atVerify nowAt atSign (Some token)
            (logoutAll (Some user) db).2) <> 200%nat
  /\ (forall changed last salt currentPassword newPassword,
        status (changePassword changed last salt (Some user) currentPassword
                  newPassword db).1 = 200%nat ->
        status (refreshToken atVerify nowAt atSign (Some token)
                  (changePassword changed last salt (Some user)
                     currentPassword newPassword db).2) <> 200%nat).
Proof.
  intros Hpayload Hemail. split.
  - unfold logoutAll. rewrite <- Hemail.
    destruct (findByEmail (d_email decoded) (credentialsColl db))
      as [[i c]|] eqn:Hfind; cbn [snd].
    + apply (empty_ring_refuses _ _ _ _ decoded _ i
               (Credential.removeAllRefreshTokens c)); [done | | done].
      by apply (findByEmail_save _ db i c).
    + by apply (no_credential_refuses _ _ _ _ decoded).
  - intros changed last salt currentPassword newPassword.
    unfold AuthController.changePassword. rewrite <- Hemail.
    destruct (negb (PasswordUtils.isValid _)); [cbn; lia|].
    destruct (findByEmail (d_email decoded) (credentialsColl db))
      as [[i c]|] eqn:Hfind; [|cbn; lia].
    destruct (negb (comparePassword _ _)); [cbn; lia|]. cbn [fst snd].
    intros _. rewrite save_save.
    apply (empty_ring_refuses _ _ _ _ decoded _ i
             (Credential.removeAllRefreshTokens
                (UserCredentials.set_password
                   (hashPassword newPassword salt) changed last c)));
      [done | | done].
    by apply (findByEmail_save _ db i c).
Qed.

(** No login is answered 200. *)
Lemma login_not_200 (clk : LoginClock) (email password : string)
    (deviceInfo ip : option string) (db : Db) :
  status (login clk email password deviceInfo ip db).1 <> 200%nat.
Proof.
  unfold AuthController.login.
  destruct (findByEmail email (credentialsColl db)) as [[i c]|]; [|cbn; lia].
  destruct (Credential.isAccountLocked c (atLockCheck clk)); [cbn; lia|].
  destruct (negb (comparePassword password (UserCredentials.password c)));
    [cbn; lia|].
  destruct (profilesColl _ !! _) as [profile|]; [|cbn; lia].
  destruct (negb (StaffProfile.isActive profile)); [cbn; lia|].
  destruct (staffColl _ !! _) as [staff|]; cbn; lia.
Qed.

(** X20. A login with the right password opens a session that it never
    hands out.  On an unlocked credential whose profile is active and whose
    staff record exists, [login] resets the counter, stores the refresh
    token it has signed and sets [lastLogin], and then answers 500 "Login
    failed": serialising the populated staff document of the 200 body
    throws.  The stored record is a session all the same, which
    [refreshToken] accepts until the expiry that the login stored.  No
    login at all is answered 200. *)
Theorem login_stores_session_and_answers_500
    (clk : LoginClock) (email password : string)
    (deviceInfo ip : option string) (db : Db)
    (i : nat) (c : UserCredentials.t) (profile : StaffProfile.t)
    (staff : Staff.t) (token : string) :
  findByEmail email (credentialsColl db) = Some (i, c) ->
  Credential.isAccountLocked c (atLockCheck clk) = false ->
  comparePassword password (UserCredentials.password c) = true ->
  profilesColl db !! UserCredentials.staffProfileId c = Some profile ->
  StaffProfile.isActive profile = true ->
  staffColl db !! StaffProfile.staffId profile = Some staff ->
  token
  = generateRefreshToken (atRefreshSign clk)
      (mkPayload (StaffProfile.staffId profile) (UserCredentials.email c) None
         (map (fun r => Role.roleName r.2)
            (populateRoleNames db (StaffProfile.assignedRoles profile)))) ->
  (login clk email password deviceInfo ip db).1 = loginFailed
  /\ (exists c' profile',
        credentialsColl (login clk email password deviceInfo ip db).2 !! i
        = Some c'
        /\ UserCredentials.failedLoginAttempts c' = 0%nat
        /\ UserCredentials.refreshTokens c'
           = Credential.limitDevices
               (Credential.dropExpired (atPrune clk) 0
                  (UserCredentials.refreshTokens c))
             ++ [RefreshToken.mk token (atExpiry clk + refreshTokenLifetime)
                   (atCreated clk) deviceInfo ip]
        /\ profilesColl (login clk email password deviceInfo ip db).2
             !! UserCredentials.staffProfileId c = Some profile'
        /\ StaffProfile.lastLogin profile' = Some (atLastLogin clk))
  /\ (forall (atVerify : Date) (nowAt : nat -> Date) (atSign : Date)
             (decoded : DecodedToken),
        token <> "" ->
        verifyRefreshToken atVerify token = Some decoded ->
        d_email decoded = UserCredentials.email c ->
        (forall k, nowAt k < atExpiry clk + refreshTokenLifetime) ->
        status (refreshToken atVerify nowAt atSign (Some token)
                  (login clk email password deviceInfo ip db).2) = 200%nat)
  /\ (forall clk' email' password' deviceInfo' ip' db',
        status (login clk' email' password' deviceInfo' ip' db').1
        <> 200%nat).
Proof.
  intros Hfind Hunlocked Hright Hprofile Hactive Hstaff Htoken.
  apply findByEmail_Some in Hfind as Hc. destruct Hc as [Hi Hemail].
  set (c0 := Credential.resetFailedAttempts c).
  set (c1 := Credential.addRefreshToken c0 token
               (atExpiry clk + refreshTokenLifetime) deviceInfo ip
               (atPrune clk) (atCreated clk)).
  set (profile' := StaffProfile.set_lastLogin (atLastLogin clk) profile).
  assert (Hlogin : login clk email password deviceInfo ip db
                   = (loginFailed,
                      saveProfile (UserCredentials.staffProfileId c) profile'
                        (save i c1 (save i c0 db)))).
  { unfold AuthController.login. rewrite Hfind, Hunlocked, Hright.
    cbn [negb]. cbn [save set_credentialsColl profilesColl staffColl
                     Credential.resetFailedAttempts
                     UserCredentials.set_lockout
                     UserCredentials.staffProfileId].
    rewrite Hprofile, Hactive. cbn [negb]. rewrite Hstaff.
    cbn [staffToJSON]. unfold c1, c0, profile'. by rewrite Htoken. }
  rewrite Hlogin. cbn [fst snd]. split; [done|]. split; [|split].
  - exists c1, profile'. split; [|split; [|split; [|split]]]; try done.
    + rewrite saveProfile_credentials, save_save.
      apply save_lookup_eq. by eapply lookup_lt_Some.
    + cbn [saveProfile set_profilesColl profilesColl]. unfold ObjectId in *.
      apply lookup_insert_eq.
  - intros atVerify nowAt atSign decoded Hne Hverify Hdecoded Hlive.
    apply refreshToken_200.
    assert (Hfind1 : findByEmail (d_email decoded)
                       (credentialsColl
                          (saveProfile (UserCredentials.staffProfileId c)
                             profile' (save i c1 (save i c0 db))))
                     = Some (i, c1)).
    { rewrite Hdecoded, Hemail, saveProfile_credentials.
      apply (findByEmail_save email (save i c0 db) i c0); [|done].
      by apply (findByEmail_save email db i c). }
    assert (Hstored : is_Some
              (findStored token nowAt 0 (UserCredentials.refreshTokens c1))).
    { unfold c1, Credential.addRefreshToken.
      cbn [UserCredentials.set_refreshTokens UserCredentials.refreshTokens].
      apply (findStored_present token nowAt 0 _
               (RefreshToken.mk token (atExpiry clk + refreshTokenLifetime)
                  (atCreated clk) deviceInfo ip));
        [|reflexivity|exact Hlive].
      apply elem_of_app. right. by left. }
    destruct Hstored as [rt Hstored].
    exists token, decoded, i, c1, rt, profile'.
    repeat split; try done.
    cbn [saveProfile set_profilesColl profilesColl]. unfold ObjectId in *.
    apply lookup_insert_eq.
  - intros clk' email' password' deviceInfo' ip' db'. apply login_not_200.
Qed.

End RefreshFacts.

Lemma logout_ends_session_witness :
  status (Fixture.refreshToken 200 (fun _ => 200) 200
            (Some "refresh.alice@x.com") Sample.sessionDb) = 200%nat
  /\ status (Fixture.refreshToken 200 (fun _ => 200) 200
               (Some "refresh.alice@x.com")
               (Sample.logout 100 (Some "refresh.alice@x.com")
                  Sample.sessionDb).2) <> 200%nat.
Proof.
  split; [reflexivity|].
  apply (logout_ends_session Sample.signAccess Sample.verified
           Fixture.refreshError 100 200). lia.
Defined.

Lemma emptied_ring_ends_every_session_witness :
  status (Fixture.refreshToken 200 (fun _ => 200) 200
            (Some "refresh.alice@x.com")
            (AuthEndpoints.logoutAll (Some Sample.aliceToken)
               Sample.sessionDb).2) <> 200%nat.
Proof.
  destruct (emptied_ring_ends_every_session Sample.compare Sample.hash
              Sample.signAccess Sample.verified Fixture.refreshError
              200 (fun _ => 200) 200 "refresh.alice@x.com"
              Sample.aliceToken Sample.aliceToken Sample.sessionDb)
    as [Hall _]; [reflexivity | reflexivity | exact Hall].
Defined.

Lemma login_stores_session_and_answers_500_witness :
  (Sample.login (Sample.clock 100) "alice@x.com" "Secret#123" None None
     (Sample.authDb (Sample.alice 0 None [] []) true)).1
  = AuthController.loginFailed
  /\ status (Fixture.refreshToken 200 (fun _ => 200) 200
               (Some "refresh.alice@x.com")
               (Sample.login (Sample.clock 100) "alice@x.com" "Secret#123"
                  None None
                  (Sample.authDb (Sample.alice 0 None [] []) true)).2)
     = 200%nat.
Proof.
  destruct (login_stores_session_and_answers_500 Sample.compare
              Sample.signAccess Sample.signRefresh Sample.verified
              Fixture.refreshError
              (Sample.clock 100) "alice@x.com" "Secret#123" None None
              (Sample.authDb (Sample.alice 0 None [] []) true)
              0%nat (Sample.alice 0 None [] [])
              (StaffProfile.mk "staff-1" [] None true None)
              (Staff.mk "EMP-1" "Alice" "Archer" "alice@x.com")
              "refresh.alice@x.com")
    as (Hreply & _ & Hsession & _);
    [reflexivity | reflexivity | reflexivity | reflexivity | reflexivity
    | reflexivity | reflexivity |].
  split; [exact Hreply|].
  apply (Hsession 200 (fun _ => 200) 200 Sample.aliceToken).
  - discriminate.
  - reflexivity.
  - reflexivity.
  - intros k. unfold AuthController.refreshTokenLifetime. cbn. lia.
Defined.

(** ** What the session endpoints write *)

Section StoreUpdates.
Import JwtUtils AuthController AuthEndpoints.

Variable comparePassword : string -> string -> bool.
Variable hashPassword : string -> string -> string.
Variables generateAccessToken generateRefreshToken
  : Date -> TokenPayload -> string.
Variable verifiedRefreshPayload : string -> option DecodedToken.
Variable refreshErrorMessage : Date -> string -> string.
Variable hashResetToken : string -> string.

Abbreviation login :=
  (AuthController.login comparePassword generateAccessToken
     generateRefreshToken).
Abbreviation serve :=
  (AuthEndpoints.serve comparePassword hashPassword generateAccessToken
     generateRefreshToken verifiedRefreshPayload refreshErrorMessage
     hashResetToken).
Abbreviation serveAll :=
  (AuthEndpoints.serveAll comparePassword hashPassword generateAccessToken
     generateRefreshToken verifiedRefreshPayload refreshErrorMessage
     hashResetToken).

Lemma findByVerificationToken_Some (token : string) (now : Date)
    (coll : list UserCredentials.t) (i : nat) (c : UserCredentials.t) :
  findByVerificationToken token now coll = Some (i, c) ->
  coll !! i = Some c /\ matchesVerification token now c = true.
Proof.
  unfold findByVerificationToken. intros Hfind.
  apply list_find_Some in Hfind as (Hi & Hm & _). by split.
Qed.

(** Only [login] writes a profile, and no endpoint writes a role, a
    permission or a staff record. *)
Lemma serve_other_collections (e : Endpoint) (db : Db) :
  rolesColl (serve e db).2 = rolesColl db
  /\ permissionsColl (serve e db).2 = permissionsColl db
  /\ staffColl (serve e db).2 = staffColl db
  /\ (isLogin e = false -> profilesColl (serve e db).2 = profilesColl db).
Proof.
  destruct e as [[clk email password deviceInfo ip
                 | now [token|]
                 | changed last salt [user|] currentPassword newPassword
                 | atReset created token email
                 | atQuery changed last salt token newPassword]
                | atVerify nowAt atSign presented
                | [user|]
                | now token];
    cbn [AuthEndpoints.serve handle isLogin]; try done.
  - unfold AuthController.login.
    destruct (findByEmail _ _) as [[i c]|]; [|done].
    destruct (Credential.isAccountLocked _ _); [done|].
    destruct (negb (comparePassword _ _)); [done|].
    destruct (profilesColl _ !! _) as [profile|]; [|done].
    destruct (negb (StaffProfile.isActive profile)); [done|].
    by destruct (staffColl _ !! _).
  - unfold AuthController.logout.
    destruct (falsy _); [done|].
    destruct (JwtUtils.verifyRefreshToken _ _ _); [|done].
    by destruct (findByEmail _ _) as [[i c]|].
  - unfold AuthController.changePassword.
    destruct (negb (PasswordUtils.isValid _)); [done|].
    destruct (findByEmail _ _) as [[i c]|]; [|done].
    by destruct (negb (comparePassword _ _)).
  - unfold AuthController.forgotPassword.
    by destruct (findByEmail _ _) as [[i c]|].
  - unfold AuthController.resetPassword.
    destruct (negb (PasswordUtils.isValid _)); [done|].
    by destruct (findByResetToken _ _ _) as [[i c]|].
  - unfold logoutAll. by destruct (findByEmail _ _) as [[i c]|].
  - unfold verifyEmail.
    by destruct (findByVerificationToken _ _ _) as [[i c]|].
Qed.

Section Related.
(** A relation between a stored credential and what an endpoint leaves in
    its place. *)
Variable R : UserCredentials.t -> UserCredentials.t -> Prop.
Hypothesis R_refl : forall c, R c c.
Hypothesis R_trans : forall a b c, R a b -> R b c -> R a c.
Hypothesis R_removeRefreshToken :
  forall c token, R c (Credential.removeRefreshToken c token).
Hypothesis R_removeAllRefreshTokens :
  forall c, R c (Credential.removeAllRefreshTokens c).
Hypothesis R_set_password :
  forall h changed last c, R c (UserCredentials.set_password h changed last c).
Hypothesis R_markUsed : forall hashed c, R c (markUsed hashed c).
Hypothesis R_push :
  forall c hashed expiresAt created,
    R c (UserCredentials.set_passwordResetTokens
           (UserCredentials.passwordResetTokens c
              ++ [PasswordReset.mk hashed expiresAt created false]) c).
Hypothesis R_set_emailVerified : forall c, R c (set_emailVerified c).

Lemma related_refl (l : list UserCredentials.t) : Forall2 R l l.
Proof. apply Forall_Forall2_diag, Forall_forall. intros c _. apply R_refl. Qed.

Lemma related_save (db : Db) (i : nat) (c c' : UserCredentials.t) :
  credentialsColl db !! i = Some c ->
  R c c' ->
  Forall2 R (credentialsColl db) (credentialsColl (save i c' db)).
Proof.
  intros Hi Hc. cbn.
  rewrite <- (list_insert_id (credentialsColl db) i c Hi) at 1.
  apply Forall2_insert; [apply related_refl | done].
Qed.

Lemma related_trans (l1 l2 l3 : list UserCredentials.t) :
  Forall2 R l1 l2 -> Forall2 R l2 l3 -> Forall2 R l1 l3.
Proof.
  intros H12. revert l3. induction H12 as [|a b l1 l2 Hab _ IH]; intros l3 H23.
  - by apply Forall2_nil_inv_l in H23 as ->.
  - apply Forall2_cons_inv_l in H23 as (c & l3' & Hbc & H23 & ->).
    constructor; [by eapply R_trans | by apply IH].
Qed.

(** Every request but a login. *)
Lemma quiet_related (e : Endpoint) (db : Db) :
  isLogin e = false ->
  Forall2 R (credentialsColl db) (credentialsColl (serve e db).2).
Proof.
  destruct e as [[clk email password deviceInfo ip
                 | now [token|]
                 | changed last salt [user|] currentPassword newPassword
                 | atReset created token email
                 | atQuery changed last salt token newPassword]
                | atVerify nowAt atSign presented
                | [user|]
                | now token];
    cbn [AuthEndpoints.serve handle isLogin snd]; intros Hquiet;
    try discriminate; try apply related_refl.
  - unfold AuthController.logout.
    destruct (falsy _); [apply related_refl|].
    destruct (JwtUtils.verifyRefreshToken _ _ _) as [decoded|];
      [|apply related_refl].
    destruct (findByEmail _ _) as [[i c]|] eqn:Hfind; [|apply related_refl].
    apply findByEmail_Some in Hfind as [Hi _].
    by apply (related_save db i c).
  - unfold AuthController.changePassword.
    destruct (negb (PasswordUtils.isValid _)); [apply related_refl|].
    destruct (findByEmail _ _) as [[i c]|] eqn:Hfind; [|apply related_refl].
    destruct (negb (comparePassword _ _)); [apply related_refl|].
    cbn [snd]. rewrite save_save.
    apply findByEmail_Some in Hfind as [Hi _].
    apply (related_save db i c); [done|].
    eapply R_trans; [apply R_set_password | apply R_removeAllRefreshTokens].
  - unfold AuthController.forgotPassword.
    destruct (findByEmail _ _) as [[i c]|] eqn:Hfind; [|apply related_refl].
    apply findByEmail_Some in Hfind as [Hi _].
    by apply (related_save db i c).
  - unfold AuthController.resetPassword.
    destruct (negb (PasswordUtils.isValid _)); [apply related_refl|].
    destruct (findByResetToken _ _ _) as [[i c]|] eqn:Hfind;
      [|apply related_refl].
    cbn [snd]. rewrite save_save.
    apply findByResetToken_Some in Hfind as [Hi _].
    apply (related_save db i c); [done|].
    eapply R_trans; [apply R_set_password|].
    eapply R_trans; [apply R_markUsed | apply R_removeAllRefreshTokens].
  - unfold logoutAll.
    destruct (findByEmail _ _) as [[i c]|] eqn:Hfind; [|apply related_refl].
    apply findByEmail_Some in Hfind as [Hi _].
    by apply (related_save db i c).
  - unfold verifyEmail.
    destruct (findByVerificationToken _ _ _) as [[i c]|] eqn:Hfind;
      [|apply related_refl].
    apply findByVerificationToken_Some in Hfind as [Hi _].
    by apply (related_save db i c).
Qed.

Lemma quiet_serveAll_related (es : list Endpoint) (db : Db) :
  Forall (fun e => isLogin e = false) es ->
  Forall2 R (credentialsColl db) (credentialsColl (serveAll es db)).
Proof.
  intros Hquiet. revert db.
  induction Hquiet as [|e es He _ IH]; intros db; [apply related_refl|].
  cbn [AuthEndpoints.serveAll].
  eapply related_trans; [by apply quiet_related | apply IH].
Qed.

Hypothesis R_incrementFailedAttempts :
  forall c now, R c (Credential.incrementFailedAttempts c now).
Hypothesis R_resetFailedAttempts :
  forall c, R c (Credential.resetFailedAttempts c).
Hypothesis R_addRefreshToken :
  forall c token expiresAt deviceInfo ipAddress nowAt created,
    R c (Credential.addRefreshToken c token expiresAt deviceInfo ipAddress
           nowAt created).

Lemma login_related (clk : LoginClock) (email password : string)
    (deviceInfo ip : option string) (db : Db) :
  Forall2 R (credentialsColl db)
    (credentialsColl (login clk email password deviceInfo ip db).2).
Proof.
  unfold AuthController.login.
  destruct (findByEmail _ _) as [[i c]|] eqn:Hfind; [|apply related_refl].
  apply findByEmail_Some in Hfind as [Hi _].
  destruct (Credential.isAccountLocked _ _); [apply related_refl|].
  destruct (negb (comparePassword _ _)); [by apply (related_save db i c)|].
  set (c0 := Credential.resetFailedAttempts c).
  assert (H0 : Forall2 R (credentialsColl db) (credentialsColl (save i c0 db)))
    by by apply (related_save db i c).
  destruct (profilesColl _ !! _) as [profile|]; [|done].
  destruct (negb (StaffProfile.isActive profile)); [done|].
  destruct (staffColl _ !! _) as [s|]; [|done].
  cbn [snd]. rewrite saveProfile_credentials, save_save.
  apply (related_save db i c); [done|].
  eapply R_trans; [apply R_resetFailedAttempts | apply R_addRefreshToken].
Qed.

Lemma serve_related (e : Endpoint) (db : Db) :
  Forall2 R (credentialsColl db) (credentialsColl (serve e db).2).
Proof.
  destruct (isLogin e) eqn:Hlogin; [|by apply quiet_related].
  destruct e as [[clk email password deviceInfo ip| | | |]| | |];
    try discriminate.
  apply login_related.
Qed.

Lemma serveAll_related (es : list Endpoint) (db : Db) :
  Forall2 R (credentialsColl db) (credentialsColl (serveAll es db)).
Proof.
  revert db. induction es as [|e es IH]; intros db; [apply related_refl|].
  cbn [AuthEndpoints.serveAll].
  eapply related_trans; [apply serve_related | apply IH].
Qed.

End Related.

Lemma findByEmail_related
    (R : UserCredentials.t -> UserCredentials.t -> Prop)
    (l l' : list UserCredentials.t) (email : string) :
  (forall c c', R c c' -> UserCredentials.email c' = UserCredentials.email c) ->
  Forall2 R l l' ->
  match findByEmail email l with
  | Some (i, c) => exists c', findByEmail email l' = Some (i, c') /\ R c c'
  | None => findByEmail email l' = None
  end.
Proof.
  intros Hemail Hrel. unfold findByEmail.
  induction Hrel as [|c c' l l' Hc _ IH]; [done|].
  cbn [list_find]. pose proof (Hemail _ _ Hc) as Heq.
  destruct (decide (UserCredentials.email c = email)) as [Hc1|Hc1];
    destruct (decide (UserCredentials.email c' = email)) as [Hc2|Hc2];
    try congruence.
  - by exists c'.
  - destruct (list_find _ l) as [[i x]|]; cbn.
    + destruct IH as (x' & -> & Hx). cbn. by exists x'.
    + by rewrite IH.
Qed.

Lemma quiet_serveAll_profiles (es : list Endpoint) (db : Db) :
  Forall (fun e => isLogin e = false) es ->
  profilesColl (serveAll es db) = profilesColl db
  /\ rolesColl (serveAll es db) = rolesColl db.
Proof.
  intros Hquiet. revert db.
  induction Hquiet as [|e es He _ IH]; intros db; [done|].
  cbn [AuthEndpoints.serveAll]. destruct (IH (serve e db).2) as [-> ->].
  destruct (serve_other_collections e db) as (Hroles & _ & _ & Hprofiles).
  by rewrite Hroles, Hprofiles.
Qed.

(** What the requests other than logins leave of a credential. *)
Lemma quiet_sameAccount (es : list Endpoint) (db : Db) :
  Forall (fun e => isLogin e = false) es ->
  Forall2 Terms.sameAccount (credentialsColl db)
    (credentialsColl (serveAll es db)).
Proof.
  apply quiet_serveAll_related; unfold Terms.sameAccount.
  - done.
  - intros a b c (-> & -> & -> & ->) (-> & -> & -> & ->). done.
  - done.
  - done.
  - done.
  - intros hashed c. unfold markUsed.
    by destruct (list_find _ _) as [[? ?]|].
  - done.
  - done.
Qed.

Variable jwtVerifyAccess : Date -> string -> JwtHelpers.Verification.

(** X21. Among the session endpoints only [login] changes what
    [authenticate] answers: after any sequence of logout, logout-all,
    change-password, forgot-password, reset-password, verify-email and
    refresh requests [authenticate] answers every request as before.  An access
    token therefore stays usable after a logout and after a password
    change or reset ([passwordChangedAt] is written but never read), until
    it expires of itself. *)
Theorem only_login_changes_authenticate
    (es : list Endpoint) (db : Db)
    (authorization : option string) (atVerify atLockCheck : Date) :
  Forall (fun e => isLogin e = false) es ->
  AuthMiddleware.authenticate jwtVerifyAccess authorization atVerify
    atLockCheck (serveAll es db)
  = AuthMiddleware.authenticate jwtVerifyAccess authorization atVerify
      atLockCheck db.
Proof.
  intros Hquiet.
  destruct (quiet_serveAll_profiles es db Hquiet) as [Hprofiles Hroles].
  pose proof (quiet_sameAccount es db Hquiet) as Hrel.
  unfold AuthMiddleware.authenticate.
  destruct (AuthMiddleware.bearerToken authorization) as [token|]; [|done].
  destruct (JwtHelpers.verifyAccessToken _ atVerify token) as [msg|decoded];
    [done|].
  pose proof (findByEmail_related Terms.sameAccount _ _ (d_email decoded)
                ltac:(by intros c c' [? _]) Hrel) as Hfind.
  destruct (findByEmail (d_email decoded) (credentialsColl db))
    as [[i c]|].
  - destruct Hfind as (c' & -> & _ & Hlink & _ & Hlock).
    unfold Credential.isAccountLocked. rewrite Hlock, Hlink, Hprofiles.
    unfold AuthMiddleware.populateAssignedRoles. by rewrite Hroles.
  - by rewrite Hfind.
Qed.

(** X22. No request but a login lifts a lock: if a login is answered 403
    "Account is locked", then after any sequence of other session
    requests, a password reset or change included, a login of the same
    email at the same clock reading is answered the same, whatever the
    password. *)
Theorem lock_outlasts_password_reset
    (es : list Endpoint) (db : Db) (clk : LoginClock)
    (email password password' : string) (deviceInfo ip : option string) :
  Forall (fun e => isLogin e = false) es ->
  (login clk email password deviceInfo ip db).1 = accountLocked ->
  login clk email password' deviceInfo ip (serveAll es db)
  = (accountLocked, serveAll es db).
Proof.
  intros Hquiet.
  pose proof (quiet_sameAccount es db Hquiet) as Hrel.
  pose proof (findByEmail_related Terms.sameAccount _ _ email
                ltac:(by intros c c' [? _]) Hrel) as Hfind.
  unfold AuthController.login.
  destruct (findByEmail email (credentialsColl db)) as [[i c]|]; [|done].
  destruct Hfind as (c' & -> & _ & _ & _ & Hlock).
  unfold Credential.isAccountLocked. rewrite Hlock.
  destruct (UserCredentials.accountLockedUntil c) as [until|].
  - destruct (atLockCheck clk <? until); [done|].
    destruct (negb (comparePassword _ _)); [done|].
    destruct (profilesColl _ !! _) as [profile|]; [|done].
    destruct (negb (StaffProfile.isActive profile)); [done|].
    by destruct (staffColl _ !! _).
  - destruct (negb (comparePassword _ _)); [done|].
    destruct (profilesColl _ !! _) as [profile|]; [|done].
    destruct (negb (StaffProfile.isActive profile)); [done|].
    by destruct (staffColl _ !! _).
Qed.

(** X23. A stored lock date always sits beside a failure counter of five
    or more: no sequence of session requests breaks this. *)
Theorem lock_only_beside_five_failures (es : list Endpoint) (db : Db) :
  Forall Terms.lockedAfterFive (credentialsColl db) ->
  Forall Terms.lockedAfterFive (credentialsColl (serveAll es db)).
Proof.
  intros Hinv.
  eapply (Forall2_Forall_r
            (fun c c' => Terms.lockedAfterFive c -> Terms.lockedAfterFive c')).
  - apply serveAll_related; unfold Terms.lockedAfterFive; try done.
    + auto.
    + intros hashed c. unfold markUsed.
      by destruct (list_find _ _) as [[? ?]|].
    + intros c now Hc. unfold Credential.incrementFailedAttempts.
      destruct (Nat.leb_spec 5 (UserCredentials.failedLoginAttempts c + 1));
        cbn; [lia|].
      intros Hlocked. specialize (Hc Hlocked). lia.
    + intros c _ [until Hlocked]. done.
  - eapply Forall_impl; [exact Hinv|]. intros c Hc c' Hrel. by apply Hrel.
Qed.

(** X24. No credential ever holds more than five refresh tokens: the
    bound is kept by every sequence of session requests. *)
Theorem ring_never_exceeds_five (es : list Endpoint) (db : Db) :
  Forall (fun c => (Spec.ringSize c <= 5)%nat) (credentialsColl db) ->
  Forall (fun c => (Spec.ringSize c <= 5)%nat)
    (credentialsColl (serveAll es db)).
Proof.
  intros Hinv.
  eapply (Forall2_Forall_r
            (fun c c' => (Spec.ringSize c <= 5)%nat ->
                         (Spec.ringSize c' <= 5)%nat)).
  - apply serveAll_related; try done.
    + auto.
    + intros c token Hc.
      pose proof (removeRefreshToken_size c token). lia.
    + intros c _. unfold Spec.ringSize. cbn. lia.
    + intros hashed c. unfold markUsed.
      by destruct (list_find _ _) as [[? ?]|].
    + intros c now. unfold Credential.incrementFailedAttempts.
      by destruct (5 <=? _)%nat.
    + intros c token expiresAt deviceInfo ipAddress nowAt created Hc.
      pose proof (addRefreshToken_size c token expiresAt deviceInfo ipAddress
                    nowAt created). lia.
  - eapply Forall_impl; [exact Hinv|]. intros c Hc c' Hrel. by apply Hrel.
Qed.

(** X25. Reset records are never deleted and never become unused again:
    after any sequence of session requests each credential still holds, at
    the same index, every reset record it held, with the same token and
    dates, and marked used if it was.  The list only grows. *)
Theorem reset_records_only_accumulate
    (es : list Endpoint) (db : Db) (i : nat) (c : UserCredentials.t) :
  credentialsColl db !! i = Some c ->
  exists c',
    credentialsColl (serveAll es db) !! i = Some c'
    /\ Terms.keepsResets c c'
    /\ (length (UserCredentials.passwordResetTokens c)
        <= length (UserCredentials.passwordResetTokens c'))%nat.
Proof.
  intros Hi.
  assert (Hrel : Forall2 Terms.keepsResets (credentialsColl db)
                   (credentialsColl (serveAll es db))).
  { apply serveAll_related; unfold Terms.keepsResets; try (by eauto 10).
    - intros a b c0 Hab Hbc k r Hr.
      destruct (Hab k r Hr) as (r1 & Hr1 & Ht1 & He1 & Hc1 & Hu1).
      destruct (Hbc k r1 Hr1) as (r2 & Hr2 & Ht2 & He2 & Hc2 & Hu2).
      exists r2. repeat split; [done | congruence.. | auto].
    - intros hashed c0 k r Hr. unfold markUsed.
      destruct (list_find _ _) as [[j rj]|] eqn:Hfind; [|by eauto 10].
      apply list_find_Some in Hfind as (Hj & _ & _).
      cbn [UserCredentials.set_passwordResetTokens
           UserCredentials.passwordResetTokens].
      destruct (decide (j = k)) as [->|Hne].
      + assert (rj = r) by congruence. subst rj.
        exists (PasswordReset.set_used true r).
        split; [|done].
        apply list_lookup_insert_eq. by eapply lookup_lt_Some.
      + exists r. by rewrite list_lookup_insert_ne.
    - intros c0 hashed expiresAt created k r Hr.
      exists r. split; [|done]. cbn. by apply lookup_app_l_Some.
    - intros c0 now k r Hr. exists r. split; [|done].
      unfold Credential.incrementFailedAttempts. by destruct (5 <=? _)%nat. }
  destruct (Forall2_lookup_l _ _ _ i c Hrel Hi) as (c' & Hi' & Hkeeps).
  exists c'. split; [done|]. split; [done|].
  destruct (UserCredentials.passwordResetTokens c) as [|r0 rs] eqn:Hresets
    using rev_ind; [cbn; lia|].
  destruct (Hkeeps (length rs) r0) as (r' & Hr' & _).
  { rewrite Hresets. by apply list_lookup_middle. }
  apply lookup_lt_Some in Hr'. rewrite length_app. cbn. lia.
Qed.

End StoreUpdates.

Lemma only_login_changes_authenticate_witness :
  UserCredentials.refreshTokens
    <$> credentialsColl (Fixture.serveAll Fixture.quietRequests Sample.sessionDb)
        !! 0%nat
  = Some []
  /\ AuthMiddleware.authenticate Fixture.verifyAccess Fixture.bearer 200 200
       (Fixture.serveAll Fixture.quietRequests Sample.sessionDb)
     = AuthMiddleware.authenticate Fixture.verifyAccess Fixture.bearer 200 200
         Sample.sessionDb.
Proof.
  split; [reflexivity|].
  apply (only_login_changes_authenticate Sample.compare Sample.hash
           Sample.signAccess Sample.signRefresh Sample.verified
           Fixture.refreshError Sample.digest Fixture.verifyAccess
           Fixture.quietRequests Sample.sessionDb Fixture.bearer 200 200).
  repeat constructor.
Defined.

Lemma lock_outlasts_password_reset_witness :
  UserCredentials.password
    <$> credentialsColl
          (Fixture.serveAll [Fixture.resetRequest] Fixture.lockedDb) !! 0%nat
  = Some "bcrypt:N3w!Secret"
  /\ Sample.login (Sample.clock 200) "alice@x.com" "N3w!Secret" None None
       (Fixture.serveAll [Fixture.resetRequest] Fixture.lockedDb)
     = (AuthController.accountLocked,
        Fixture.serveAll [Fixture.resetRequest] Fixture.lockedDb).
Proof.
  split; [reflexivity|].
  apply (lock_outlasts_password_reset Sample.compare Sample.hash
           Sample.signAccess Sample.signRefresh Sample.verified
           Fixture.refreshError Sample.digest
           [Fixture.resetRequest] Fixture.lockedDb (Sample.clock 200)
           "alice@x.com" "Secret#123" "N3w!Secret" None None).
  - repeat constructor.
  - reflexivity.
Defined.

Lemma lock_only_beside_five_failures_witness :
  Forall Terms.lockedAfterFive
    (credentialsColl
       (Fixture.serveAll [Fixture.wrongLogin; Fixture.rightLogin]
          Fixture.fourFailures)).
Proof.
  apply (lock_only_beside_five_failures Sample.compare Sample.hash
           Sample.signAccess Sample.signRefresh Sample.verified
           Fixture.refreshError Sample.digest).
  constructor; [|constructor].
  intros [until Hlocked]. discriminate Hlocked.
Defined.

Lemma ring_never_exceeds_five_witness :
  Forall (fun c => (Spec.ringSize c <= 5)%nat)
    (credentialsColl
       (Fixture.serveAll [Fixture.rightLogin; Fixture.rightLogin]
          (Sample.authDb Sample.loggedIn true))).
Proof.
  apply (ring_never_exceeds_five Sample.compare Sample.hash
           Sample.signAccess Sample.signRefresh Sample.verified
           Fixture.refreshError Sample.digest).
  constructor; [|constructor]. cbn. lia.
Defined.

Lemma reset_records_only_accumulate_witness :
  exists c',
    credentialsColl
      (Fixture.serveAll [Fixture.resetRequest] Fixture.lockedDb) !! 0%nat
    = Some c'
    /\ Terms.keepsResets Fixture.lockedAlice c'
    /\ (length (UserCredentials.passwordResetTokens Fixture.lockedAlice)
        <= length (UserCredentials.passwordResetTokens c'))%nat.
Proof.
  apply (reset_records_only_accumulate Sample.compare Sample.hash
           Sample.signAccess Sample.signRefresh Sample.verified
           Fixture.refreshError Sample.digest
           [Fixture.resetRequest] Fixture.lockedDb 0%nat).
  reflexivity.
Defined.

(** ** Email verification *)

Section EmailVerification.
Import AuthEndpoints.

(** X26. A verification token works once: when one credential holds the
    token, a [verifyEmail] that succeeds marks that credential verified
    and clears the token, and every later [verifyEmail] with the token is
    answered 400 and changes nothing. *)
Theorem verifyEmail_token_works_once
    (now now' : Date) (token : string) (db : Db)
    (i : nat) (c : UserCredentials.t) :
  findByVerificationToken token now (credentialsColl db) = Some (i, c) ->
  (forall j cj,
      credentialsColl db !! j = Some cj ->
      UserCredentials.emailVerificationToken cj = Some token -> j = i) ->
  (exists c',
      credentialsColl (verifyEmail now token db).2 !! i = Some c'
      /\ UserCredentials.isEmailVerified c' = true
      /\ UserCredentials.emailVerificationToken c' = None)
  /\ verifyEmail now' token (verifyEmail now token db).2
     = (invalidVerificationToken, (verifyEmail now token db).2).
Proof.
  intros Hfind Hunique. unfold verifyEmail at 1 3 4. rewrite Hfind.
  cbn [snd]. apply list_find_Some in Hfind as (Hi & _ & _). split.
  - exists (set_emailVerified c). split; [|done].
    apply save_lookup_eq. by eapply lookup_lt_Some.
  - unfold verifyEmail.
    assert (Hnone : findByVerificationToken token now'
                      (credentialsColl
                         (AuthController.save i (set_emailVerified c) db))
                    = None).
    { apply list_find_None, Forall_lookup. intros j cj Hj Hmatch.
      cbn in Hj. destruct (decide (j = i)) as [->|Hne].
      - rewrite list_lookup_insert_eq in Hj by by eapply lookup_lt_Some.
        inversion Hj; subst cj. done.
      - rewrite list_lookup_insert_ne in Hj by done.
        apply Hne, (Hunique j cj Hj).
        unfold matchesVerification in Hmatch.
        destruct (UserCredentials.emailVerificationToken cj) as [stored|];
          [|done].
        destruct (UserCredentials.emailVerificationExpiry cj); [|done].
        apply andb_true_iff in Hmatch as [Heq _].
        apply String.eqb_eq in Heq. by subst. }
    by rewrite Hnone.
Qed.

End EmailVerification.

Lemma verifyEmail_token_works_once_witness :
  (AuthEndpoints.verifyEmail 100 "verify-1" Fixture.unverifiedDb).1
  = AuthEndpoints.emailVerified
  /\ AuthEndpoints.verifyEmail 200 "verify-1"
       (AuthEndpoints.verifyEmail 100 "verify-1" Fixture.unverifiedDb).2
     = (AuthEndpoints.invalidVerificationToken,
        (AuthEndpoints.verifyEmail 100 "verify-1" Fixture.unverifiedDb).2).
Proof.
  split; [reflexivity|].
  destruct (verifyEmail_token_works_once 100 200 "verify-1"
              Fixture.unverifiedDb 0%nat Fixture.unverified) as [_ Hagain].
  - reflexivity.
  - intros j cj Hj _. apply lookup_lt_Some in Hj. cbn in Hj. lia.
  - exact Hagain.
Defined.

(** ** Repeated failures *)

Section RepeatedFailures.
Import JwtUtils AuthController AuthEndpoints.

Variable comparePassword : string -> string -> bool.
Variables generateAccessToken generateRefreshToken
  : Date -> TokenPayload -> string.

Abbreviation login :=
  (AuthController.login comparePassword generateAccessToken
     generateRefreshToken).
Abbreviation loginEach :=
  (AuthEndpoints.loginEach comparePassword generateAccessToken
     generateRefreshToken).

Lemma loginEach_failures (tries : list (LoginClock * string)) :
  forall (email : string) (db : Db) (i : nat) (c : UserCredentials.t),
    tries <> [] ->
    findByEmail email (credentialsColl db) = Some (i, c) ->
    UserCredentials.accountLockedUntil c = None ->
    Forall (fun try => comparePassword try.2 (UserCredentials.password c)
                       = false) tries ->
    (UserCredentials.failedLoginAttempts c + length tries = 5)%nat ->
    exists c' final,
      last tries = Some final
      /\ (loginEach tries email db).1
         = replicate (length tries) invalidEmailOrPassword
      /\ findByEmail email (credentialsColl (loginEach tries email db).2)
         = Some (i, c')
      /\ UserCredentials.failedLoginAttempts c' = 5%nat
      /\ UserCredentials.accountLockedUntil c'
         = Some (atFailure final.1 + Credential.lockDuration).
Proof.
  induction tries as [|[clk password] rest IH];
    intros email db i c Hne Hfind Hfree Hwrong Hcount; [done|].
  apply Forall_cons in Hwrong as [Hfirst Hwrong]. cbn in Hfirst.
  cbn [AuthEndpoints.loginEach].
  assert (Hlogin : login clk email password None None db
                   = (invalidEmailOrPassword,
                      save i (Credential.incrementFailedAttempts c
                                (atFailure clk)) db)).
  { unfold AuthController.login, Credential.isAccountLocked.
    by rewrite Hfind, Hfree, Hfirst. }
  rewrite Hlogin. cbn [fst snd].
  set (c1 := Credential.incrementFailedAttempts c (atFailure clk)).
  assert (Hfind1 : findByEmail email (credentialsColl (save i c1 db))
                   = Some (i, c1)).
  { apply (findByEmail_save email db i c); [done|].
    unfold c1, Credential.incrementFailedAttempts. by destruct (5 <=? _)%nat. }
  destruct rest as [|next rest].
  - cbn in Hcount. exists c1, (clk, password). cbn [AuthEndpoints.loginEach].
    split; [done|]. split; [done|]. split; [done|].
    unfold c1, Credential.incrementFailedAttempts.
    destruct (Nat.leb_spec 5 (UserCredentials.failedLoginAttempts c + 1));
      [|lia].
    cbn. split; [lia | done].
  - cbn [length] in Hcount.
    assert (Hc1 : c1 = UserCredentials.set_lockout
                         (UserCredentials.failedLoginAttempts c + 1)
                         (UserCredentials.accountLockedUntil c) c).
    { unfold c1, Credential.incrementFailedAttempts.
      destruct (Nat.leb_spec 5 (UserCredentials.failedLoginAttempts c + 1));
        [lia | done]. }
    destruct (IH email (save i c1 db) i c1) as (c' & final & Hlast & Hresp
                                                & Hfind' & Hfive & Hlock).
    + done.
    + exact Hfind1.
    + by rewrite Hc1.
    + by rewrite Hc1.
    + rewrite Hc1. cbn. lia.
    + exists c', final. split; [done|]. split; [|done].
      cbn [length replicate]. by rewrite Hresp.
Qed.

(** X27. Failures add up across requests: when an unlocked credential has
    [n] recorded failures, [5 - n] logins with a wrong password, however
    far apart, are each answered 401, leave the counter at 5 and set the
    lock to 30 minutes after the last of them; until then every login of
    the email is answered 403, the right password included. *)
Theorem failures_add_up_to_a_lock
    (tries : list (LoginClock * string)) (email : string) (db : Db)
    (i : nat) (c : UserCredentials.t) :
  tries <> [] ->
  findByEmail email (credentialsColl db) = Some (i, c) ->
  UserCredentials.accountLockedUntil c = None ->
  Forall (fun try => comparePassword try.2 (UserCredentials.password c)
                     = false) tries ->
  (UserCredentials.failedLoginAttempts c + length tries = 5)%nat ->
  exists final,
    last tries = Some final
    /\ (loginEach tries email db).1
       = replicate (length tries) invalidEmailOrPassword
    /\ forall clk password deviceInfo ip,
         atLockCheck clk < atFailure final.1 + Credential.lockDuration ->
         login clk email password deviceInfo ip (loginEach tries email db).2
         = (accountLocked, (loginEach tries email db).2).
Proof.
  intros Hne Hfind Hfree Hwrong Hcount.
  destruct (loginEach_failures tries email db i c Hne Hfind Hfree Hwrong Hcount)
    as (c' & final & Hlast & Hresp & Hfind' & _ & Hlock).
  exists final. split; [done|]. split; [done|].
  intros clk password deviceInfo ip Hsoon.
  unfold AuthController.login, Credential.isAccountLocked.
  rewrite Hfind', Hlock.
  by destruct (Z.ltb_spec (atLockCheck clk)
                 (atFailure final.1 + Credential.lockDuration)); [|lia].
Qed.

End RepeatedFailures.

Lemma failures_add_up_to_a_lock_witness :
  Sample.login (Sample.clock 300) "alice@x.com" "Secret#123" None None
    (Fixture.loginEach Fixture.twoTries "alice@x.com"
       (Sample.authDb Fixture.threeFailures true)).2
  = (AuthController.accountLocked,
     (Fixture.loginEach Fixture.twoTries "alice@x.com"
        (Sample.authDb Fixture.threeFailures true)).2).
Proof.
  destruct (failures_add_up_to_a_lock Sample.compare Sample.signAccess
              Sample.signRefresh Fixture.twoTries "alice@x.com"
              (Sample.authDb Fixture.threeFailures true) 0%nat
              Fixture.threeFailures)
    as (final & Hlast & _ & Hlocked).
  - discriminate.
  - reflexivity.
  - reflexivity.
  - repeat constructor.
  - reflexivity.
  - cbn in Hlast. inversion Hlast; subst final.
    apply Hlocked. unfold Credential.lockDuration. cbn. lia.
Defined.

(** ** Expiry helpers of [utils/jwt.utils.ts] *)

Section ExpiryHelpers.
Import JwtUtils JwtHelpers.

Variable jwtDecode : string -> option DecodedToken.
Variable verifiedRefreshPayload : string -> option DecodedToken.

(** X28. The expiry helpers agree with verification: for a refresh token
    of this service (its payload carries [exp], and [jwt.decode] returns
    the payload that [jwt.verify] returns), [isTokenExpired] is true
    exactly when [verifyRefreshToken] throws, and for a non-zero [exp]
    exactly when [getTimeUntilExpiry] is 0. *)
Theorem isTokenExpired_agrees_with_verification
    (now : Date) (token : string) (decoded : DecodedToken) (e : Z) :
  jwtDecode token = Some decoded ->
  verifiedRefreshPayload token = Some decoded ->
  exp decoded = Some e ->
  0 <= now ->
  (isTokenExpired jwtDecode now token = true
   <-> verifyRefreshToken verifiedRefreshPayload now token = None)
  /\ (e <> 0 ->
      getTimeUntilExpiry jwtDecode now token = Some (Z.max 0 (e * 1000 - now))
      /\ (isTokenExpired jwtDecode now token = true
          <-> getTimeUntilExpiry jwtDecode now token = Some 0)).
Proof.
  intros Hdecode Hverify Hexp Hnow.
  unfold isTokenExpired, getTimeUntilExpiry, getTokenExpiry, decodeToken,
    verifyRefreshToken.
  rewrite Hdecode, Hverify, Hexp.
  destruct (Z.eqb_spec e 0) as [->|Hne].
  - split; [|done]. split; [|done]. intros _.
    destruct (Z.leb_spec 0 (now / 1000)); [done|].
    pose proof (Z.div_pos now 1000 Hnow ltac:(lia)). lia.
  - destruct (Z.eqb_spec (e * 1000) 0); [lia|].
    assert (Hsame : (e * 1000 <=? now) = (e <=? now / 1000)).
    { destruct (Z.leb_spec (e * 1000) now), (Z.leb_spec e (now / 1000));
        try done.
      - pose proof (Z.div_le_lower_bound now 1000 e ltac:(lia)). lia.
      - pose proof (Z.mul_div_le now 1000 ltac:(lia)). lia. }
    rewrite Hsame. split.
    + by destruct (e <=? now / 1000).
    + intros _. split; [done|].
      rewrite <- Hsame.
      destruct (Z.leb_spec (e * 1000) now); split; try done.
      * intros _. f_equal. lia.
      * intros Heq. inversion Heq. lia.
Qed.

End ExpiryHelpers.

Lemma isTokenExpired_agrees_with_verification_witness :
  (JwtHelpers.isTokenExpired Sample.verified 100 "refresh.alice@x.com" = true
   <-> JwtUtils.verifyRefreshToken Sample.verified 100 "refresh.alice@x.com"
       = None)
  /\ (700000 <> 0 ->
      JwtHelpers.getTimeUntilExpiry Sample.verified 100 "refresh.alice@x.com"
      = Some (Z.max 0 (700000 * 1000 - 100))
      /\ (JwtHelpers.isTokenExpired Sample.verified 100 "refresh.alice@x.com"
          = true
          <-> JwtHelpers.getTimeUntilExpiry Sample.verified 100
                "refresh.alice@x.com" = Some 0)).
Proof.
  apply (isTokenExpired_agrees_with_verification Sample.verified
           Sample.verified 100 "refresh.alice@x.com" Sample.aliceToken 700000).
  - reflexivity.
  - reflexivity.
  - reflexivity.
  - lia.
Defined.

(** ** Password rules of the routes and of the handlers *)

Section PasswordRules.
Import PasswordUtils AuthValidation.

Lemma lookahead_test (class : ascii -> bool) (s : list ascii) :
  lookahead class s = true -> existsb class s = true.
Proof.
  induction s as [|c s IH]; [done|]. cbn [lookahead existsb].
  destruct (class c); [done|]. cbn [orb].
  intros Hrest. apply andb_true_iff in Hrest as [_ Hrest]. by apply IH.
Qed.

Lemma existsb_impl {A : Type} (f g : A -> bool) (l : list A) :
  (forall x, f x = true -> g x = true) ->
  existsb f l = true -> existsb g l = true.
Proof.
  intros Himpl. rewrite !existsb_exists.
  intros (x & Hin & Hx). exists x. auto.
Qed.

Lemma isSchemaSpecial_isSpecial (c : ascii) :
  isSchemaSpecial c = true -> isSpecial c = true.
Proof.
  unfold isSchemaSpecial, isSpecial. intros Hin.
  apply existsb_exists in Hin as (n & Hn & Heq).
  apply Nat.eqb_eq in Heq. rewrite Heq.
  cbn in Hn. by repeat (destruct Hn as [<- | Hn]; [reflexivity|]).
Qed.

(** X29. The rule of the routes is stricter than the rule of the
    handlers: a [newPassword] that the schema of the change-password and
    reset-password routes accepts passes [validatePasswordStrength]
    without an error, while a password whose punctuation is all outside
    the seven characters of the schema is refused by the schema whatever
    [validatePasswordStrength] says of it. *)
Theorem schema_password_passes_strength_check (password : string) :
  (newPasswordSchema password = true ->
   validatePasswordStrength password = mkValidation true [])
  /\ (Forall (fun c => isSchemaSpecial c = false)
        (list_ascii_of_string password) ->
      newPasswordSchema password = false).
Proof.
  unfold newPasswordSchema, passwordRegex. split.
  - intros Hschema.
    apply andb_true_iff in Hschema as [Hlength Hregex].
    apply andb_true_iff in Hregex as [Hregex _].
    apply andb_true_iff in Hregex as [Hregex Hspecial].
    apply andb_true_iff in Hregex as [Hregex Hdigit].
    apply andb_true_iff in Hregex as [Hlower Hupper].
    apply lookahead_test in Hlower, Hupper, Hdigit, Hspecial.
    apply (existsb_impl _ _ _ isSchemaSpecial_isSpecial) in Hspecial.
    unfold validatePasswordStrength, passwordErrors, test.
    rewrite Hlower, Hupper, Hdigit, Hspecial.
    apply Nat.leb_le in Hlength.
    destruct (Nat.ltb_spec (String.length password) 8); [lia|]. done.
  - intros Hnone.
    destruct (lookahead isSchemaSpecial (list_ascii_of_string password))
      eqn:Hspecial; [|by rewrite !andb_false_r].
    apply lookahead_test, existsb_exists in Hspecial as (c & Hin & Hc).
    rewrite Forall_forall in Hnone.
    apply list_elem_of_In in Hin. specialize (Hnone c Hin). congruence.
Qed.

End PasswordRules.

Lemma schema_password_passes_strength_check_witness :
  PasswordUtils.validatePasswordStrength "N3w!Secret"
  = PasswordUtils.mkValidation true []
  /\ PasswordUtils.isValid (PasswordUtils.validatePasswordStrength "Secret#123")
     = true
  /\ AuthValidation.newPasswordSchema "Secret#123" = false.
Proof.
  split; [|split].
  - apply (proj1 (schema_password_passes_strength_check "N3w!Secret")).
    reflexivity.
  - reflexivity.
  - apply (proj2 (schema_password_passes_strength_check "Secret#123")).
    repeat constructor.
Defined.

(** ** Deleted documents and the references to them *)

Section Deletions.
Import Administration.

Variable isValidObjectId : string -> bool.

(** The roles that populate finds once a role is deleted are those it
    finds once the reference is pulled. *)
Lemma populate_without_role (db : Db) (id : string) (l : list ObjectId) :
  omap (fun rid => Resolver.populateRole db <$> delete id (rolesColl db) !! rid)
       l
  = omap (fun rid => Resolver.populateRole db <$> rolesColl db !! rid)
         (pullIn l [id]).
Proof.
  unfold pullIn, ObjectId in *. induction l as [|rid l IH]; [done|].
  cbn [omap list_omap List.filter existsb].
  destruct (String.eqb_spec rid id) as [->|Hne]; cbn [orb negb].
  - by rewrite lookup_delete_eq.
  - rewrite lookup_delete_ne by done. cbn [omap list_omap].
    by rewrite IH.
Qed.

(** The inner loop after a permission is deleted, when it ran to its end
    before. *)
Lemma scanRolePermissions_without_permission
    (db : Db) (id : string) (resource action : string)
    (rps : list RolePermission.t) :
  Resolver.scanRolePermissions resource action
    (map (Resolver.populateRolePermission db) rps) = Some false ->
  (Resolver.scanRolePermissions resource action
     (map (Resolver.populateRolePermission
             (set_permissionsColl (delete id (permissionsColl db)) db)) rps)
   = Some false
   /\ forall rp, rp ∈ rps -> RolePermission.permissionId rp <> id)
  \/ (Resolver.scanRolePermissions resource action
        (map (Resolver.populateRolePermission
                (set_permissionsColl (delete id (permissionsColl db)) db)) rps)
      = None
      /\ exists rp, rp ∈ rps /\ RolePermission.permissionId rp = id).
Proof.
  unfold ObjectId in *. induction rps as [|rp rps IH].
  - intros _. left. split; [done|]. intros rp Hin. by apply elem_of_nil in Hin.
  - cbn [map Resolver.scanRolePermissions Resolver.populateRolePermission
         RolePermission.p_permissionId RolePermission.p_allowedActions
         set_permissionsColl permissionsColl].
    destruct (permissionsColl db !! RolePermission.permissionId rp)
      as [permission|] eqn:Hperm; [|done].
    destruct (String.eqb_spec (RolePermission.permissionId rp) id)
      as [Heq|Hne].
    + intros _. right. rewrite Heq, lookup_delete_eq. split; [done|].
      exists rp. split; [by left | done].
    + rewrite lookup_delete_ne by done. rewrite Hperm.
      destruct (_ && _ && _); [done|].
      intros Hrest. destruct (IH Hrest) as [[Hafter Hnone] | [Hafter Hsome]].
      * left. split; [done|]. intros rp' Hin.
        apply elem_of_cons in Hin as [-> | Hin]; [done | by apply Hnone].
      * right. split; [done|]. destruct Hsome as (rp' & Hin & Hid).
        exists rp'. split; [by right | done].
Qed.

(** The outer loop after a permission is deleted: it throws as soon as an
    assigned role lists the permission. *)
Lemma scanRoles_without_permission
    (db : Db) (id : string) (resource action : string) (l : list ObjectId)
    (rid : ObjectId) (role : Role.t) (rp : RolePermission.t) :
  Resolver.scanRoles resource action
    (omap (fun r => Resolver.populateRole db <$> rolesColl db !! r) l)
  = Some false ->
  rid ∈ l ->
  rolesColl db !! rid = Some role ->
  rp ∈ Role.permissions role ->
  RolePermission.permissionId rp = id ->
  Resolver.scanRoles resource action
    (omap (fun r =>
             Resolver.populateRole
               (set_permissionsColl (delete id (permissionsColl db)) db)
             <$> rolesColl db !! r) l)
  = None.
Proof.
  intros Hbefore Hin Hrole Hrp Hid.
  induction l as [|r0 l IH]; [by apply elem_of_nil in Hin|].
  revert Hbefore. cbn [omap list_omap].
  destruct (rolesColl db !! r0) as [role0|] eqn:Hrole0;
    cbn [fmap option_fmap option_map].
  - cbn [Resolver.scanRoles Resolver.populateRole Role.p_permissions].
    destruct (Resolver.scanRolePermissions resource action
                (map (Resolver.populateRolePermission db)
                   (Role.permissions role0))) as [[|]|] eqn:Hscan0;
      [done| |done].
    intros Hrest.
    destruct (scanRolePermissions_without_permission db id resource action
                (Role.permissions role0) Hscan0)
      as [[Hafter Hnone] | [Hafter _]]; rewrite Hafter; [|done].
    apply elem_of_cons in Hin as [-> | Hin]; [|by apply IH].
    assert (role0 = role) by congruence. subst role0.
    by destruct (Hnone rp Hrp).
  - intros Hrest. apply elem_of_cons in Hin as [-> | Hin]; [congruence|].
    by apply IH.
Qed.

(** X30. Deleting leaves the references where they are, and the two
    kinds of reference behave differently.  A deleted role is dropped
    silently: [checkPermission] answers as if the role had been removed
    from the profile with [removeRoles].  A deleted permission breaks the
    check: for a profile one of whose roles lists it, every query that the
    roles did not grant is answered 500 "Permission check failed" instead
    of 403 or of what an override would have decided. *)
Theorem deleted_role_is_dropped_deleted_permission_breaks
    (db : Db) (profileId : ObjectId) (p : StaffProfile.t)
    (resource action : string) :
  profilesColl db !! profileId = Some p ->
  (forall roleId,
      isValidObjectId profileId = true ->
      code (deleteRole isValidObjectId roleId db).1 = 200%nat ->
      Resolver.checkPermission resource action (Some profileId)
        (deleteRole isValidObjectId roleId db).2
      = Resolver.checkPermission resource action (Some profileId)
          (removeRoles isValidObjectId profileId [roleId] db).2)
  /\ (forall (permissionId : string) rid role rp,
        Resolver.roleGrant (Resolver.populateProfile db p) resource action
        = Some false ->
        rid ∈ StaffProfile.assignedRoles p ->
        rolesColl db !! rid = Some role ->
        rp ∈ Role.permissions role ->
        RolePermission.permissionId rp = permissionId ->
        code (deletePermission isValidObjectId permissionId db).1 = 200%nat ->
        Resolver.checkPermission resource action (Some profileId)
          (deletePermission isValidObjectId permissionId db).2
        = Respond Resolver.checkFailed).
Proof.
  intros Hp. split.
  - intros roleId Hvalid. unfold deleteRole, removeRoles. rewrite Hvalid.
    destruct (isValidObjectId roleId); [|cbn; lia]. cbn [negb].
    destruct (rolesColl db !! roleId) as [role|]; [|cbn; lia].
    destruct (Role.isSystemRole role); [cbn; lia|]. intros _.
    unfold ObjectId in *. rewrite Hp. cbn [snd].
    unfold Resolver.checkPermission.
    cbn [set_rolesColl set_profilesColl profilesColl]. unfold ObjectId in *.
    rewrite Hp, lookup_insert_eq.
    unfold Resolver.resolve, Resolver.roleGrant, Resolver.populateProfile.
    cbn [StaffProfile.p_assignedRoles StaffProfile.p_customPermissions
         profile_set_assignedRoles StaffProfile.assignedRoles
         StaffProfile.customPermissions rolesColl permissionsColl].
    change (omap _ (StaffProfile.assignedRoles p))
      with (omap (fun rid => Resolver.populateRole db
                              <$> delete roleId (rolesColl db) !! rid)
              (StaffProfile.assignedRoles p)).
    by rewrite populate_without_role.
  - intros permissionId rid role rp Hgrant Hin Hrole Hrp Hid.
    unfold deletePermission.
    destruct (isValidObjectId permissionId); [|cbn; lia]. cbn [negb].
    destruct (permissionsColl db !! permissionId); [|cbn; lia]. intros _.
    cbn [snd]. unfold Resolver.checkPermission.
    cbn [set_permissionsColl profilesColl]. unfold ObjectId in *. rewrite Hp.
    unfold Resolver.resolve, Resolver.roleGrant in *.
    cbn [Resolver.populateProfile StaffProfile.p_assignedRoles rolesColl]
      in *.
    pose proof (scanRoles_without_permission db permissionId resource action
                  _ rid role rp Hgrant Hin Hrole Hrp Hid) as Hthrown.
    match goal with
    | |- context [Resolver.scanRoles ?r ?a ?roles] =>
        replace (Resolver.scanRoles r a roles) with (@None bool)
          by (symmetry; exact Hthrown)
    end.
    done.
Qed.

End Deletions.

Lemma deleted_role_is_dropped_deleted_permission_breaks_witness :
  Resolver.checkPermission "payroll" "export" (Some "profile-1")
    Sample.grantedDb = Next
  /\ Resolver.checkPermission "payroll" "export" (Some "profile-1")
       (Administration.deletePermission Fixture.isValid "perm-staff"
          Sample.grantedDb).2
     = Respond Resolver.checkFailed.
Proof.
  split; [reflexivity|].
  destruct (deleted_role_is_dropped_deleted_permission_breaks Fixture.isValid
              Sample.grantedDb "profile-1" Sample.grantedProfile
              "payroll" "export") as [_ Hbreaks]; [reflexivity|].
  apply (Hbreaks "perm-staff" "role-1" Sample.clerk
           (RolePermission.mk "perm-staff" [A_read])).
  - reflexivity.
  - by left.
  - reflexivity.
  - by left.
  - reflexivity.
  - reflexivity.
Defined.
